(** * Log Error Resolver: the resolution pipeline, embedded and verified

    A shallow embedding of the Python resolution pipeline
    ([app/utils/text_cleaner.py], [app/services/retriever.py],
    [app/services/rag_engine.py], [app/services/resolver.py]) together with
    the properties its specification states about it.

    Conventions of the embedding.
    - A Python [str] is a Rocq [string]; text algorithms work on the list of
      its characters.  A character is a code point below 256 (Latin-1); the
      character classes below ([isspace], [isword], [lower_char]) are the
      Unicode ones restricted to that range.  Where a character above 255
      decides what the code does (the strip set of
      [_normalize_recommended_fix]), the text is a list of code points
      ([Uni.text]) and the Latin-1 model is proved to be its restriction.
    - A Python [float] is an IEEE-754 binary64 value, [spec_float] at
      precision 53 and maximal exponent 1024.
    - A Python [int] is a [Z]; slices follow Python's rules for negative and
      out-of-range bounds.
    - A dict is an association list in insertion order.
    - Code that can raise returns an [outcome]; external capabilities (the
      completion client, [json.loads], [float] of a string, the vector index,
      the SQLAlchemy session) are parameters. *)

From Stdlib Require Import ZArith NArith List String Ascii Bool Lia Arith.
From Stdlib Require Import DecimalString.
From Stdlib Require Import Floats.SpecFloat.
Import ListNotations.

Set Implicit Arguments.

Local Open Scope list_scope.

(** The characters of a string literal. *)
Definition chars (s : string) : list ascii := list_ascii_of_string s.

(* ================================================================== *)
(** ** Python string operations *)
(* ================================================================== *)

Module PyStr.

Definition code (c : ascii) : N := N_of_ascii c.

Definition in_range (lo hi : N) (c : ascii) : bool :=
  (N.leb lo (code c) && N.leb (code c) hi)%bool.

Definition is_char (a c : ascii) : bool := Ascii.eqb a c.

(** [str.isspace] and the regex class [\s]: TAB..CR, FS..US, space,
    NEL (0x85) and NBSP (0xA0). *)
Definition isspace (c : ascii) : bool :=
  in_range 9 13 c || in_range 28 32 c || N.eqb (code c) 133
  || N.eqb (code c) 160.

(** The regex class [\d]. *)
Definition isdigit (c : ascii) : bool := in_range 48 57 c.

(** The regex class [\w]: alphanumeric characters and the underscore. *)
Definition isword (c : ascii) : bool :=
  in_range 48 57 c || in_range 65 90 c || N.eqb (code c) 95
  || in_range 97 122 c
  || N.eqb (code c) 170 || in_range 178 179 c || N.eqb (code c) 181
  || in_range 185 186 c || in_range 188 190 c
  || in_range 192 214 c || in_range 216 246 c || in_range 248 255 c.

(** [str.lower] on one character. *)
Definition lower_char (c : ascii) : ascii :=
  if in_range 65 90 c || in_range 192 214 c || in_range 216 222 c
  then ascii_of_N (code c + 32)
  else c.

Definition lower (s : list ascii) : list ascii := map lower_char s.

Fixpoint dropwhile (p : ascii -> bool) (s : list ascii) : list ascii :=
  match s with
  | [] => []
  | c :: s' => if p c then dropwhile p s' else s
  end.

Definition lstrip_by (p : ascii -> bool) (s : list ascii) : list ascii :=
  dropwhile p s.

Definition rstrip_by (p : ascii -> bool) (s : list ascii) : list ascii :=
  rev (dropwhile p (rev s)).

Definition strip_by (p : ascii -> bool) (s : list ascii) : list ascii :=
  rstrip_by p (lstrip_by p s).

(** [s.strip()] *)
Definition strip (s : list ascii) : list ascii := strip_by isspace s.

(** [s.strip(cs)] *)
Definition strip_chars (cs s : list ascii) : list ascii :=
  strip_by (fun c => existsb (is_char c) cs) s.

Fixpoint starts_with (p s : list ascii) : bool :=
  match p, s with
  | [], _ => true
  | a :: p', c :: s' => Ascii.eqb a c && starts_with p' s'
  | _ :: _, [] => false
  end.

(** [sub in s] *)
Fixpoint contains (sub s : list ascii) : bool :=
  starts_with sub s
  || match s with
     | [] => false
     | _ :: s' => contains sub s'
     end.

(** The offset of the first occurrence of [sub] in [s], if any. *)
Fixpoint index_of (sub s : list ascii) : option nat :=
  if starts_with sub s then Some 0
  else match s with
       | [] => None
       | _ :: s' => option_map S (index_of sub s')
       end.

Definition len (s : list ascii) : Z := Z.of_nat (List.length s).

(** A slice bound as Python normalises it: negative bounds count from the
    end, and the result is clipped to [0, len]. *)
Definition clip (n : Z) (i : Z) : nat :=
  Z.to_nat (Z.max 0 (Z.min n (if (i <? 0)%Z then (n + i)%Z else i))).

(** [l[start:stop]] *)
Definition slice {A} (l : list A) (start stop : option Z) : list A :=
  let n := Z.of_nat (List.length l) in
  let lo := match start with Some i => clip n i | None => 0 end in
  let hi := match stop with Some j => clip n j | None => List.length l end in
  firstn (hi - lo) (skipn lo l).

(** [s.find(sub, start)] *)
Definition find (sub s : list ascii) (start : Z) : Z :=
  let lo := clip (len s) start in
  if (len s <? start)%Z then (-1)%Z
  else match index_of sub (skipn lo s) with
       | Some i => Z.of_nat (lo + i)
       | None => (-1)%Z
       end.

(** [s.split(sep, maxsplit)] for a non-empty separator; [None] is no
    limit.  [skip] counts the characters of a separator still to pass and
    [cur] holds the current field, reversed. *)
Fixpoint split_go (sep : list ascii) (limit : option nat) (s : list ascii)
         (skip : nat) (cur : list ascii) : list (list ascii) :=
  match s with
  | [] => [rev cur]
  | c :: s' =>
      match skip with
      | S n => split_go sep limit s' n cur
      | O =>
          match limit with
          | Some O => split_go sep limit s' 0 (c :: cur)
          | _ =>
              if starts_with sep s
              then rev cur
                   :: split_go sep (option_map pred limit) s'
                        (List.length sep - 1) []
              else split_go sep limit s' 0 (c :: cur)
          end
      end
  end.

Definition split (sep : list ascii) (limit : option nat) (s : list ascii)
  : list (list ascii) :=
  split_go sep limit s 0 [].

(** Line boundaries of [str.splitlines]: LF, VT, FF, CR, FS, GS, RS, NEL. *)
Definition is_linebreak (c : ascii) : bool :=
  in_range 10 13 c || in_range 28 30 c || N.eqb (code c) 133.

(** [s.splitlines()]: CR LF is one boundary and a final boundary opens no
    empty line. *)
Fixpoint splitlines_go (s cur : list ascii) : list (list ascii) :=
  match s with
  | [] => match cur with [] => [] | _ => [rev cur] end
  | c :: s' =>
      if is_linebreak c then
        rev cur ::
          match s' with
          | d :: s'' =>
              if N.eqb (code c) 13 && N.eqb (code d) 10
              then splitlines_go s'' []
              else splitlines_go s' []
          | [] => splitlines_go s' []
          end
      else splitlines_go s' (c :: cur)
  end.

Definition splitlines (s : list ascii) : list (list ascii) :=
  splitlines_go s [].

(** [sep.join(parts)] *)
Fixpoint join (sep : list ascii) (parts : list (list ascii)) : list ascii :=
  match parts with
  | [] => []
  | [p] => p
  | p :: rest => p ++ sep ++ join sep rest
  end.

End PyStr.

(* ================================================================== *)
(** ** The fragment of Python's [re] the program uses *)
(* ================================================================== *)

Module Re.
Import PyStr.

(** Patterns.  Every repetition in the program's patterns is over one
    character class, except a group repeated a fixed number of times, which
    is written out with [Cat]. *)
Inductive regex : Type :=
| Chr (p : ascii -> bool)
| Rep (p : ascii -> bool) (lo : nat) (hi : option nat)
| WordB
| LineStart
| Cat (r1 r2 : regex)
| Alt (r1 r2 : regex)
| Opt (r : regex)
| Eps.

Definition cont : Type := option ascii -> list ascii -> option (list ascii).

Definition may_take (hi : option nat) : bool :=
  match hi with Some O => false | _ => true end.

(** Greedy repetition of a class with backtracking: take one more
    character first, and only if the rest of the pattern then fails stop
    here (allowed once the lower bound is met). *)
Fixpoint rep_class (p : ascii -> bool) (lo : nat) (hi : option nat)
         (prev : option ascii) (s : list ascii) (k : cont)
  : option (list ascii) :=
  match s with
  | c :: s' =>
      if p c && may_take hi then
        match rep_class p (pred lo) (option_map pred hi) (Some c) s' k with
        | Some r => Some r
        | None => match lo with O => k prev s | S _ => None end
        end
      else match lo with O => k prev s | S _ => None end
  | [] => match lo with O => k prev s | S _ => None end
  end.

Definition word_at (c : option ascii) : bool :=
  match c with Some a => isword a | None => false end.

(** [rmatch r prev s k]: match [r] at the head of [s], the character
    before it being [prev], then continue with [k]; the result is the text
    left after the whole match.  Alternatives are tried in order. *)
Fixpoint rmatch (r : regex) (prev : option ascii) (s : list ascii)
         (k : cont) : option (list ascii) :=
  match r with
  | Chr p =>
      match s with
      | c :: s' => if p c then k (Some c) s' else None
      | [] => None
      end
  | Rep p lo hi => rep_class p lo hi prev s k
  | WordB =>
      if xorb (word_at prev) (word_at (hd_error s)) then k prev s else None
  | LineStart =>
      match prev with
      | None => k prev s
      | Some c => if N.eqb (code c) 10 then k prev s else None
      end
  | Cat r1 r2 => rmatch r1 prev s (fun prev' s' => rmatch r2 prev' s' k)
  | Alt r1 r2 =>
      match rmatch r1 prev s k with
      | Some x => Some x
      | None => rmatch r2 prev s k
      end
  | Opt r1 =>
      match rmatch r1 prev s k with
      | Some x => Some x
      | None => k prev s
      end
  | Eps => k prev s
  end.

(** The length of the match of [r] at the head of [s], if there is one. *)
Definition match_len (r : regex) (prev : option ascii) (s : list ascii)
  : option nat :=
  match rmatch r prev s (fun _ rest => Some rest) with
  | Some rest => Some (List.length s - List.length rest)
  | None => None
  end.

(** [re.sub(r, repl, s)] for a literal replacement: scan left to right,
    replace each leftmost match and resume after it.  [skip] counts the
    characters of the current match still to pass.  No pattern of the
    program matches the empty text; an empty match would insert the
    replacement and move on. *)
Fixpoint sub_go (r : regex) (repl : list ascii) (prev : option ascii)
         (s : list ascii) (skip : nat) : list ascii :=
  match s with
  | [] =>
      match skip, match_len r prev [] with
      | O, Some _ => repl
      | _, _ => []
      end
  | c :: s' =>
      match skip with
      | S n => sub_go r repl (Some c) s' n
      | O =>
          match match_len r prev s with
          | Some (S n) => repl ++ sub_go r repl (Some c) s' n
          | Some O => repl ++ c :: sub_go r repl (Some c) s' 0
          | None => c :: sub_go r repl (Some c) s' 0
          end
      end
  end.

Definition sub (r : regex) (repl : list ascii) (s : list ascii)
  : list ascii :=
  sub_go r repl None s 0.

(** [r{n}] for a class *)
Definition times (n : nat) (p : ascii -> bool) : regex := Rep p n (Some n).

(** [r+] for a class *)
Definition plus (p : ascii -> bool) : regex := Rep p 1 None.

(** [r*] for a class *)
Definition star (p : ascii -> bool) : regex := Rep p 0 None.

Definition lit (a : ascii) : regex := Chr (is_char a).

Fixpoint seq (rs : list regex) : regex :=
  match rs with
  | [] => Eps
  | [r] => r
  | r :: rs' => Cat r (seq rs')
  end.

End Re.

(* ================================================================== *)
(** ** [app/utils/text_cleaner.py] *)
(* ================================================================== *)

Module TextCleaner.
Import PyStr Re.

(** [[0-9a-f]] under [re.IGNORECASE] *)
Definition hex_i (c : ascii) : bool :=
  in_range 48 57 c || in_range 97 102 c || in_range 65 70 c.

(** [[0-9a-f]{8}-[0-9a-f]{4}-[0-9a-f]{4}-[0-9a-f]{4}-[0-9a-f]{12}] *)
Definition uuid_pattern : regex :=
  seq [times 8 hex_i; lit "-"; times 4 hex_i; lit "-"; times 4 hex_i;
       lit "-"; times 4 hex_i; lit "-"; times 12 hex_i].

(** [\d{1,3}\.] *)
Definition octet_dot : regex := Cat (Rep isdigit 1 (Some 3)) (lit ".").

(** [\b(?:\d{1,3}\.){3}\d{1,3}\b] *)
Definition ip_pattern : regex :=
  seq [WordB; octet_dot; octet_dot; octet_dot; Rep isdigit 1 (Some 3);
       WordB].

(** [\b[0-9a-f]{16,}\b] *)
Definition hex_pattern : regex := seq [WordB; Rep hex_i 16 None; WordB].

(** [\d{4}-\d{2}-\d{2}[T ]\d{2}:\d{2}:\d{2}(?:\.\d+)?(?:Z|[+-]\d{2}:\d{2})?] *)
Definition iso_timestamp : regex :=
  seq [times 4 isdigit; lit "-"; times 2 isdigit; lit "-"; times 2 isdigit;
       Chr (fun c => is_char "T" c || is_char " " c);
       times 2 isdigit; lit ":"; times 2 isdigit; lit ":"; times 2 isdigit;
       Opt (Cat (lit ".") (plus isdigit));
       Opt (Alt (lit "Z")
                (seq [Chr (fun c => is_char "+" c || is_char "-" c);
                      times 2 isdigit; lit ":"; times 2 isdigit]))].

(** [\b\d{10}\.\d+\b] *)
Definition unix_timestamp : regex :=
  seq [WordB; times 10 isdigit; lit "."; plus isdigit; WordB].

(** [\s+] *)
Definition whitespace_run : regex := plus isspace.

(** The five placeholder substitutions, in the order of the source. *)
Definition substitute_placeholders (s : list ascii) : list ascii :=
  let s := sub uuid_pattern (chars "<uuid>") s in
  let s := sub ip_pattern (chars "<ip>") s in
  let s := sub hex_pattern (chars "<hex_id>") s in
  let s := sub iso_timestamp (chars "<timestamp>") s in
  sub unix_timestamp (chars "<timestamp>") s.

Definition normalize (text : list ascii) : list ascii :=
  match text with
  | [] => []
  | _ =>
      let normalized := lower text in
      let normalized := substitute_placeholders normalized in
      let normalized := sub whitespace_run (chars " ") normalized in
      strip normalized
  end.

Definition normalize_text (text : string) : string :=
  string_of_list_ascii (normalize (chars text)).

(** [^\d{4}-\d{2}-\d{2}[^\s]*\s+] *)
Definition date_prefix : regex :=
  seq [LineStart; times 4 isdigit; lit "-"; times 2 isdigit; lit "-";
       times 2 isdigit; star (fun c => negb (isspace c)); plus isspace].

(** [^\[[^\]]+\]\s+] *)
Definition bracket_prefix : regex :=
  seq [LineStart; lit "["; plus (fun c => negb (is_char "]" c)); lit "]";
       plus isspace].

(** [^[A-Z]+\s+] *)
Definition uppercase_prefix : regex :=
  seq [LineStart; plus (in_range 65 90); plus isspace].

Definition patterns_to_remove : list regex :=
  [date_prefix; bracket_prefix; uppercase_prefix].

(** The loop that removes the common log prefixes. *)
Definition remove_prefixes (text : list ascii) : list ascii :=
  fold_left (fun cleaned pattern => sub pattern [] cleaned)
    patterns_to_remove text.

Definition extract_message (text : list ascii) (max_length : Z)
  : list ascii :=
  let cleaned := remove_prefixes text in
  let lines := split (chars (String "010" "")) None (strip cleaned) in
  match lines with
  | first :: _ =>
      let message := strip first in
      if (len message >? max_length)%Z
      then slice message None (Some max_length) ++ chars "..."
      else message
  | [] =>
      if (len text >? max_length)%Z
      then slice text None (Some max_length)
      else text
  end.

Definition extract_error_message (text : string) (max_length : Z) : string :=
  string_of_list_ascii (extract_message (chars text) max_length).

End TextCleaner.

(* ================================================================== *)
(** ** The string operations on [string] *)
(* ================================================================== *)

Module Str.

Definition of_chars (l : list ascii) : string := string_of_list_ascii l.

Definition strip (s : string) : string := of_chars (PyStr.strip (chars s)).

Definition strip_chars (cs s : string) : string :=
  of_chars (PyStr.strip_chars (chars cs) (chars s)).

Definition lower (s : string) : string := of_chars (PyStr.lower (chars s)).

Definition contains (sub s : string) : bool :=
  PyStr.contains (chars sub) (chars s).

Definition find (sub s : string) (start : Z) : Z :=
  PyStr.find (chars sub) (chars s) start.

Definition len (s : string) : Z := PyStr.len (chars s).

Definition slice (s : string) (start stop : option Z) : string :=
  of_chars (PyStr.slice (chars s) start stop).

Definition split (sep : string) (limit : option nat) (s : string)
  : list string :=
  map of_chars (PyStr.split (chars sep) limit (chars s)).

Definition splitlines (s : string) : list string :=
  map of_chars (PyStr.splitlines (chars s)).

Definition nonempty (s : string) : bool :=
  match s with EmptyString => false | _ => true end.

(** The line feed character as a string. *)
Definition nl : string := String "010" EmptyString.

End Str.

(* ================================================================== *)
(** ** Text of any characters *)
(* ================================================================== *)

(** A Python [str] as the list of its code points, with the operations
    [_normalize_recommended_fix] applies to a string. *)
Module Uni.

Definition text : Type := list N.

Definition of_chars (s : list ascii) : text := map PyStr.code s.

Definition of_string (s : string) : text := of_chars (chars s).

(** The string of a text whose code points are below 256. *)
Definition to_string (t : text) : string :=
  Str.of_chars (map ascii_of_N t).

Definition in_range (lo hi c : N) : bool := (N.leb lo c && N.leb c hi)%bool.

(** [str.isspace]: TAB..CR, FS..US, space, NEL, NBSP, U+1680,
    U+2000..U+200A, U+2028, U+2029, U+202F, U+205F and U+3000. *)
Definition isspace (c : N) : bool :=
  in_range 9 13 c || in_range 28 32 c || N.eqb c 133 || N.eqb c 160
  || N.eqb c 5760 || in_range 8192 8202 c || in_range 8232 8233 c
  || N.eqb c 8239 || N.eqb c 8287 || N.eqb c 12288.

(** Line boundaries of [str.splitlines]: LF, VT, FF, CR, FS, GS, RS, NEL,
    U+2028 and U+2029. *)
Definition is_linebreak (c : N) : bool :=
  in_range 10 13 c || in_range 28 30 c || N.eqb c 133
  || in_range 8232 8233 c.

Fixpoint dropwhile (p : N -> bool) (s : text) : text :=
  match s with
  | [] => []
  | c :: s' => if p c then dropwhile p s' else s
  end.

Definition lstrip_by (p : N -> bool) (s : text) : text := dropwhile p s.

Definition rstrip_by (p : N -> bool) (s : text) : text :=
  rev (dropwhile p (rev s)).

Definition strip_by (p : N -> bool) (s : text) : text :=
  rstrip_by p (lstrip_by p s).

(** [s.strip()] *)
Definition strip (s : text) : text := strip_by isspace s.

Definition among (cs : text) (c : N) : bool := existsb (N.eqb c) cs.

(** [s.strip(cs)] *)
Definition strip_chars (cs s : text) : text := strip_by (among cs) s.

(** [s.splitlines()]: CR LF is one boundary and a final boundary opens no
    empty line. *)
Fixpoint splitlines_go (s cur : text) : list text :=
  match s with
  | [] => match cur with [] => [] | _ => [rev cur] end
  | c :: s' =>
      if is_linebreak c then
        rev cur ::
          match s' with
          | d :: s'' =>
              if N.eqb c 13 && N.eqb d 10
              then splitlines_go s'' []
              else splitlines_go s' []
          | [] => splitlines_go s' []
          end
      else splitlines_go s' (c :: cur)
  end.

Definition splitlines (s : text) : list text := splitlines_go s [].

Definition nonempty (s : text) : bool :=
  match s with [] => false | _ => true end.

End Uni.

(* ================================================================== *)
(** ** Python values, exceptions and the runtime's own functions *)
(* ================================================================== *)

Inductive exn : Type :=
| AttributeError
| TypeError
| ValueError
| OverflowError
| JSONDecodeError
| ExternalError     (* raised inside an external capability *)
| RetrievalError
| RAGError.

Inductive outcome (A : Type) : Type :=
| Ok (a : A)
| Raise (e : exn).

Arguments Ok {A} a.
Arguments Raise {A} e.

Definition bind {A B} (m : outcome A) (f : A -> outcome B) : outcome B :=
  match m with
  | Ok a => f a
  | Raise e => Raise e
  end.

#[warnings="-register-all"]
Inductive pyval : Type :=
| PNone
| PBool (b : bool)
| PInt (z : Z)
| PFloat (f : spec_float)
| PStr (s : string)
| PList (l : list pyval)
| PDict (d : list (string * pyval)).

Definition dict : Type := list (string * pyval).

Module Py.

Definition prec : Z := 53.
Definition emax : Z := 1024.

Definition float_zero : spec_float := S754_zero false.
Definition float_half : spec_float :=
  Eval cbv in binary_normalize prec emax 1 (-1) false.
Definition float_one : spec_float :=
  Eval cbv in binary_normalize prec emax 1 0 false.

(** [a < b] on floats *)
Definition flt (a b : spec_float) : bool := SFltb a b.

(** [a <= b] on floats *)
Definition fle (a b : spec_float) : bool := SFleb a b.

(** [min(a, b)]: the first argument unless the second is smaller. *)
Definition min (a b : spec_float) : spec_float := if flt b a then b else a.

(** [max(a, b)]: the first argument unless the second is larger. *)
Definition max (a b : spec_float) : spec_float := if flt a b then b else a.

(** [bool(v)] *)
Definition truthy (v : pyval) : bool :=
  match v with
  | PNone => false
  | PBool b => b
  | PInt z => negb (Z.eqb z 0)
  | PFloat (S754_zero _) => false
  | PFloat _ => true
  | PStr s => Str.nonempty s
  | PList [] => false
  | PList _ => true
  | PDict [] => false
  | PDict _ => true
  end.

(** [a or b] *)
Definition or_else (a b : pyval) : pyval := if truthy a then a else b.

(** [d.get(k)] as an option *)
Fixpoint lookup (k : string) (d : dict) : option pyval :=
  match d with
  | [] => None
  | (k', v) :: d' => if String.eqb k k' then Some v else lookup k d'
  end.

(** [d.get(k, default)] *)
Definition get (d : dict) (k : string) (default : pyval) : pyval :=
  match lookup k d with
  | Some v => v
  | None => default
  end.

(** What CPython's own code computes and the repository only calls. *)
Record runtime : Type := {
  (** [repr] of a float and of a container *)
  repr : pyval -> string;
  (** [float(s)] of a string; [None] is [ValueError] *)
  float_of_str : string -> option spec_float;
  (** [format(v, ".2f")] *)
  format_2f : pyval -> outcome string;
  (** [json.loads(s)]: the value, or the exception it raises *)
  json_loads : string -> outcome pyval;
  (** [json.dumps(v)]; [None] is [TypeError] or [ValueError] *)
  json_dumps : pyval -> option string
}.

Definition str_of_int (z : Z) : string := NilZero.string_of_int (Z.to_int z).

(** [str(v)] *)
Definition str (rt : runtime) (v : pyval) : string :=
  match v with
  | PNone => "None"
  | PBool true => "True"
  | PBool false => "False"
  | PInt z => str_of_int z
  | PStr s => s
  | PFloat _ | PList _ | PDict _ => repr rt v
  end.

(** [float(v)]: an int is rounded to nearest-even and overflows when the
    result is not finite. *)
Definition float (rt : runtime) (v : pyval) : outcome spec_float :=
  match v with
  | PFloat f => Ok f
  | PBool b => Ok (if b then float_one else float_zero)
  | PInt z =>
      match binary_normalize prec emax z 0 false with
      | S754_infinity _ => Raise OverflowError
      | f => Ok f
      end
  | PStr s =>
      match float_of_str rt s with
      | Some f => Ok f
      | None => Raise ValueError
      end
  | PNone | PList _ | PDict _ => Raise TypeError
  end.

(** The object as a dict, for a method call [v.get(...)]. *)
Definition as_dict (v : pyval) : outcome dict :=
  match v with
  | PDict d => Ok d
  | _ => Raise AttributeError
  end.

End Py.

(** [settings] of [app/core/config.py], with its defaults. *)
Record settings : Type := {
  top_k_similar_logs : Z;
  max_context_length : Z
}.

Definition default_settings : settings :=
  {| top_k_similar_logs := 5; max_context_length := 4000 |}.

(** A chat completion: the call raises, or returns the contents of its
    choices (a message content may be [None]). *)
Inductive completion : Type :=
| CompletionRaises
| Completion (choices : list (option string)).

(** The external capabilities the pipeline calls. *)
Record capabilities : Type := {
  (** [embedding_service.generate_embedding(text).tolist()] *)
  generate_embedding : string -> outcome (list spec_float);
  (** [vector_store.query_similar(embedding, top_k, filter)] *)
  query_similar : list spec_float -> Z -> outcome (list dict);
  (** [client.chat.completions.create(...)], as a function of the user
      prompt; the other arguments are fixed. *)
  complete : string -> completion
}.

(** What the pipeline asked of its capabilities, in order. *)
Inductive event : Type :=
| Embedded (text : string)
| Queried (n_results : Z)
| Prompted (prompt : string).

(* ================================================================== *)
(** ** [app/services/retriever.py] *)
(* ================================================================== *)

Module Retriever.
Import Py.
Local Open Scope string_scope.

Section WithRuntime.
Variable rt : runtime.

(** [retrieve_similar_logs(log_text, top_k)] *)
Definition retrieve_similar_logs (cfg : settings) (env : capabilities)
           (log_text : string) (top_k : option Z)
  : list event * outcome (list dict) :=
  let top_k :=
    match top_k with
    | Some k => if Z.eqb k 0 then top_k_similar_logs cfg else k
    | None => top_k_similar_logs cfg
    end in
  match generate_embedding env log_text with
  | Raise _ => ([Embedded log_text], Raise RetrievalError)
  | Ok embedding_list =>
      match query_similar env embedding_list top_k with
      | Raise _ =>
          ([Embedded log_text; Queried top_k], Raise RetrievalError)
      | Ok results => ([Embedded log_text; Queried top_k], Ok results)
      end
  end.

(** The body of the loop of [format_retrieval_results] for one hit:
    [None] when the hit is skipped. *)
Definition format_one (result : dict) (exclude_id : pyval)
  : outcome (option dict) :=
  bind (as_dict (get result "log_metadata" (PDict [])))
    (fun log_metadata =>
       let log_id := get log_metadata "log_id" PNone in
       if truthy exclude_id && truthy log_id
          && String.eqb (str rt log_id) (str rt exclude_id)
       then Ok None
       else
         Ok (Some
               [("id", or_else log_id (get result "id" PNone));
                ("similarity", get result "similarity" (PFloat float_zero));
                ("document", get result "document" (PStr ""));
                ("service_name",
                  get log_metadata "service_name" (PStr "unknown"));
                ("error_level",
                  get log_metadata "error_level" (PStr "UNKNOWN"));
                ("error_message",
                  get log_metadata "error_message" (PStr ""))])).

Fixpoint format_loop (results : list dict) (exclude_id : pyval)
         (formatted : list dict) : outcome (list dict) :=
  match results with
  | [] => Ok formatted
  | result :: rest =>
      bind (format_one result exclude_id)
        (fun entry =>
           match entry with
           | None => format_loop rest exclude_id formatted
           | Some e => format_loop rest exclude_id (formatted ++ [e])
           end)
  end.

(** [format_retrieval_results(results, exclude_id)] *)
Definition format_retrieval_results (results : list dict)
           (exclude_id : pyval) : outcome (list dict) :=
  format_loop results exclude_id [].

End WithRuntime.

End Retriever.

(* ================================================================== *)
(** ** [app/services/rag_engine.py] *)
(* ================================================================== *)

Module RAGEngine.
Import Py.
Local Open Scope string_scope.

(** The dict [generate_resolution] returns: its three keys are always
    present. *)
Record resolution : Type := {
  root_cause : pyval;
  recommended_fix : pyval;
  confidence : spec_float
}.

Definition truncation_marker : string := "...[truncated]".

Section WithRuntime.
Variable rt : runtime.

(** One line of the list of similar errors, numbered [i]. *)
Definition similar_line (i : Z) (log : dict) : outcome string :=
  let similarity := get log "similarity" (PFloat float_zero) in
  let service := get log "service_name" (PStr "unknown") in
  let level := get log "error_level" (PStr "UNKNOWN") in
  let message := get log "error_message" (get log "document" (PStr "")) in
  bind (format_2f rt similarity)
    (fun sim =>
       Ok (str_of_int i ++ ". [Similarity: " ++ sim ++ "] ["
           ++ str rt service ++ "] [" ++ str rt level ++ "]: "
           ++ str rt message)).

Fixpoint similar_lines (i : Z) (logs : list dict)
  : outcome (list string) :=
  match logs with
  | [] => Ok []
  | log :: rest =>
      bind (similar_line i log)
        (fun line =>
           bind (similar_lines (i + 1) rest)
             (fun lines => Ok (line :: lines)))
  end.

(** [_build_prompt(error_message, similar_logs, context)] *)
Definition _build_prompt (error_message : string)
           (similar_logs : list dict) (context : option string)
  : outcome string :=
  let head :=
    ["You are an expert DevOps engineer analyzing application logs and errors.";
     "Your task is to provide root cause analysis and recommended fixes based on the current error and similar historical errors.";
     "";
     "CURRENT ERROR:";
     error_message;
     ""] in
  bind (match similar_logs with
        | [] => Ok []
        | _ =>
            bind (similar_lines 1 (PyStr.slice similar_logs None (Some 5%Z)))
              (fun lines =>
                 Ok ("SIMILAR HISTORICAL ERRORS:" :: lines ++ [""])%list)
        end)
    (fun similar =>
       let extra :=
         match context with
         | Some c =>
             if Str.nonempty c
             then ["ADDITIONAL CONTEXT: " ++ c; ""]
             else []
         | None => []
         end in
       let tail :=
         ["Please provide:";
          "1. ROOT CAUSE: A brief explanation of the likely root cause";
          "2. RECOMMENDED FIX: Specific actionable steps to resolve the issue";
          "3. CONFIDENCE: A confidence score from 0.0 to 1.0";
          "";
          "Format your response as JSON with keys: 'root_cause', 'recommended_fix', 'confidence'"] in
       Ok (String.concat Str.nl (head ++ similar ++ extra ++ tail)%list)).

(** The truncation step of [generate_resolution]. *)
Definition truncate_prompt (max_context_length : Z) (prompt : string)
  : string :=
  if (Str.len prompt >? max_context_length)%Z
  then Str.slice prompt None (Some max_context_length) ++ truncation_marker
  else prompt.

(** The state of the line scan of [_parse_unstructured_response]. *)
Inductive section : Type := SecRootCause | SecRecommendedFix.

Record scan : Type := {
  s_root_cause : string;
  s_recommended_fix : string;
  s_confidence : spec_float;
  current_section : option section
}.

(** [line.split(":", 1)[-1].strip() if ":" in line else ""] *)
Definition after_first_colon (line : string) : string :=
  if Str.contains ":" line
  then Str.strip (last (Str.split ":" (Some 1%nat) line) "")
  else "".

Definition scan_line (st : scan) (line : string) : scan :=
  let line_lower := Str.strip (Str.lower line) in
  if Str.contains "root cause" line_lower then
    {| s_root_cause := after_first_colon line;
       s_recommended_fix := s_recommended_fix st;
       s_confidence := s_confidence st;
       current_section := Some SecRootCause |}
  else if Str.contains "fix" line_lower
          || Str.contains "solution" line_lower then
    {| s_root_cause := s_root_cause st;
       s_recommended_fix := after_first_colon line;
       s_confidence := s_confidence st;
       current_section := Some SecRecommendedFix |}
  else if Str.contains "confidence" line_lower then
    let confidence_str := Str.strip (last (Str.split ":" None line) "") in
    match float_of_str rt confidence_str with
    | Some f =>
        {| s_root_cause := s_root_cause st;
           s_recommended_fix := s_recommended_fix st;
           s_confidence := f;
           current_section := current_section st |}
    | None => st
    end
  else
    match current_section st with
    | Some sec =>
        if Str.nonempty (Str.strip line) then
          match sec with
          | SecRootCause =>
              {| s_root_cause := s_root_cause st ++ " " ++ Str.strip line;
                 s_recommended_fix := s_recommended_fix st;
                 s_confidence := s_confidence st;
                 current_section := current_section st |}
          | SecRecommendedFix =>
              {| s_root_cause := s_root_cause st;
                 s_recommended_fix :=
                   s_recommended_fix st ++ " " ++ Str.strip line;
                 s_confidence := s_confidence st;
                 current_section := current_section st |}
          end
        else st
    | None => st
    end.

(** [_parse_unstructured_response(content)] *)
Definition _parse_unstructured_response (content : string) : dict :=
  let init :=
    {| s_root_cause := ""; s_recommended_fix := "";
       s_confidence := float_half; current_section := None |} in
  let lines := Str.split Str.nl None content in
  let st := fold_left scan_line lines init in
  let '(cause, remedy) :=
    if negb (Str.nonempty (s_root_cause st))
       && negb (Str.nonempty (s_recommended_fix st))
    then
      match Str.split (Str.nl ++ Str.nl) None content with
      | p0 :: p1 :: _ => (Str.strip p0, Str.strip p1)
      | _ =>
          (Str.slice content None (Some 200%Z),
           if (Str.len content >? 200)%Z
           then Str.slice content (Some 200%Z) (Some 400%Z)
           else "")
      end
    else (s_root_cause st, s_recommended_fix st) in
  [("root_cause", PStr cause); ("recommended_fix", PStr remedy);
   ("confidence", PFloat (s_confidence st))].

(** The text between a code fence opened by [fence] and the next
    fence, stripped. *)
Definition fenced (fence : string) (content : string) : string :=
  let json_start := (Str.find fence content 0 + Str.len fence)%Z in
  let json_end := Str.find "```" content json_start in
  Str.strip (Str.slice content (Some json_start) (Some json_end)).

(** The inner [try] of [generate_resolution]: the parsed response. *)
Definition parse_response (content : string) : outcome pyval :=
  let content :=
    if Str.contains "```json" content then fenced "```json" content
    else if Str.contains "```" content then fenced "```" content
    else content in
  match json_loads rt content with
  | Ok result => Ok result
  | Raise JSONDecodeError =>
      Ok (PDict (_parse_unstructured_response content))
  | Raise e => Raise e
  end.

(** "Validate and normalize result" *)
Definition validate (result : pyval) : outcome resolution :=
  bind (as_dict result)
    (fun result =>
       let root_cause :=
         get result "root_cause" (PStr "Unable to determine root cause") in
       let recommended_fix :=
         get result "recommended_fix"
           (PStr "No specific fix recommended") in
       bind (float rt (get result "confidence" (PFloat float_half)))
         (fun confidence =>
            let confidence := max float_zero (min float_one confidence) in
            Ok {| root_cause := root_cause;
                  recommended_fix := recommended_fix;
                  confidence := confidence |})).

(** The outer handler: every exception leaves as [RAGError]. *)
Definition as_rag_error {A} (m : outcome A) : outcome A :=
  match m with
  | Ok a => Ok a
  | Raise _ => Raise RAGError
  end.

(** [generate_resolution(error_message, similar_logs, context)], with
    the prompts it sent to the completion client. *)
Definition generate_resolution (cfg : settings) (env : capabilities)
           (error_message : string) (similar_logs : list dict)
           (context : option string)
  : list event * outcome resolution :=
  match _build_prompt error_message similar_logs context with
  | Raise _ => ([], Raise RAGError)
  | Ok prompt =>
      let prompt := truncate_prompt (max_context_length cfg) prompt in
      ([Prompted prompt],
       as_rag_error
         match complete env prompt with
         | CompletionRaises => Raise ExternalError
         | Completion [] => Raise RAGError
         | Completion (None :: _) => Raise RAGError
         | Completion (Some content :: _) =>
             if Str.nonempty content then
               bind (parse_response (Str.strip content)) validate
             else Raise RAGError
         end)
  end.

End WithRuntime.

End RAGEngine.

(* ================================================================== *)
(** ** [app/services/resolver.py] *)
(* ================================================================== *)

Module Resolver.
Import Py.
Local Open Scope string_scope.

(** The columns of [LogEntry] the resolver reads. *)
Record LogEntry : Type := {
  id : Z;
  service_name : string;
  error_level : string;
  error_message : string;
  normalized_text : option string
}.

(** A row of [ResolutionHistory]; [rh_id] is set by the database. *)
Record ResolutionHistory : Type := {
  rh_id : option Z;
  log_entry_id : Z;
  rh_root_cause : pyval;
  rh_recommended_fix : option string;
  confidence_score : spec_float;
  similar_log_ids : option string;
  rag_context : option string
}.

(** The SQLAlchemy session, over an arbitrary state [S].  Each call
    leaves a state behind whether it returns or raises. *)
Record session (S : Type) : Type := {
  add : ResolutionHistory -> S -> S * outcome unit;
  commit : S -> S * outcome unit;
  (** reloads the row, which gives it its [rh_id] *)
  refresh : ResolutionHistory -> S -> S * outcome ResolutionHistory;
  rollback : S -> S * outcome unit
}.

(** The dict [resolve_log_entry] returns. *)
Record result : Type := {
  r_log_entry_id : Z;
  r_error_message : string;
  r_service_name : string;
  r_error_level : string;
  r_root_cause : pyval;
  r_recommended_fix : list string;
  r_confidence : spec_float;
  r_similar_logs : list dict;
  resolution_id : option Z
}.

(** The argument of [line.strip(...)] in [_normalize_recommended_fix], by
    code points: space, "-", U+00E2, U+20AC, U+00A2 and TAB.  The three in
    the middle are the UTF-8 bytes of the bullet U+2022 read as
    Windows-1252; the bullet itself is not in the set. *)
Definition fix_strip_chars : Uni.text := [32; 45; 226; 8364; 162; 9]%N.

(** [line.strip(...)] with that argument, on a Latin-1 line. *)
Definition strip_fix_chars (line : string) : string :=
  Str.of_chars
    (PyStr.strip_by (fun c => Uni.among fix_strip_chars (PyStr.code c))
       (chars line)).

(** The [isinstance(recommended_fix, str)] branch of
    [_normalize_recommended_fix], for a non-empty string of any
    characters. *)
Definition _normalize_recommended_fix_str (recommended_fix : Uni.text)
  : list Uni.text :=
  let lines :=
    map (Uni.strip_chars fix_strip_chars)
      (filter (fun line => Uni.nonempty (Uni.strip line))
         (Uni.splitlines recommended_fix)) in
  match lines with
  | [] => [Uni.strip recommended_fix]
  | _ => lines
  end.

Section WithRuntime.
Variable rt : runtime.

(** [_normalize_recommended_fix(recommended_fix)] *)
Definition _normalize_recommended_fix (recommended_fix : pyval)
  : list string :=
  if negb (truthy recommended_fix) then []
  else
    match recommended_fix with
    | PList items =>
        map (fun item => Str.strip (str rt item))
          (filter (fun item => Str.nonempty (Str.strip (str rt item)))
             items)
    | PStr s =>
        let lines :=
          map strip_fix_chars
            (filter (fun line => Str.nonempty (Str.strip line))
               (Str.splitlines s)) in
        match lines with
        | [] => [Str.strip s]
        | _ => lines
        end
    | _ => [str rt recommended_fix]
    end.

(** [safe_json_dumps(data)] of [app/utils/helpers.py] *)
Definition safe_json_dumps (data : pyval) : option string :=
  match data with
  | PNone => None
  | _ => json_dumps rt data
  end.

(** Retrieval for an existing entry: ask for one more hit than wanted,
    leave the entry itself out, keep the first [top_k]. *)
Definition retrieve_for_entry (cfg : settings) (env : capabilities)
           (log_entry : LogEntry) (top_k : Z)
  : list event * outcome (list dict) :=
  let query_text :=
    match normalized_text log_entry with
    | Some t => if Str.nonempty t then t else error_message log_entry
    | None => error_message log_entry
    end in
  let '(evs, similar_results) :=
    Retriever.retrieve_similar_logs cfg env query_text
      (Some (top_k + 1)%Z) in
  (evs,
   bind similar_results
     (fun similar_results =>
        bind (Retriever.format_retrieval_results rt similar_results
                (PInt (id log_entry)))
          (fun formatted =>
             Ok (PyStr.slice formatted None (Some top_k))))).

(** [f"Service: {log_entry.service_name}, Level: {log_entry.error_level}"] *)
Definition context_line (log_entry : LogEntry) : string :=
  "Service: " ++ service_name log_entry ++ ", Level: "
  ++ error_level log_entry.

(** The [ResolutionHistory(...)] the resolver builds. *)
Definition new_record (log_entry : LogEntry) (top_k : Z)
           (resolution : RAGEngine.resolution)
           (normalized_fix : list string) (similar_logs : list dict)
  : ResolutionHistory :=
  {| rh_id := None;
     log_entry_id := id log_entry;
     rh_root_cause := RAGEngine.root_cause resolution;
     rh_recommended_fix := safe_json_dumps (PList (map PStr normalized_fix));
     confidence_score := RAGEngine.confidence resolution;
     similar_log_ids :=
       safe_json_dumps
         (PList (filter truthy
                   (map (fun log => get log "id" PNone) similar_logs)));
     rag_context :=
       safe_json_dumps
         (PDict [("similar_logs_count",
                   PInt (Z.of_nat (List.length similar_logs)));
                 ("top_k", PInt top_k)]) |}.

Section WithSession.
Variable S : Type.
Variable db : session S.

(** The body of the inner [try]: add, commit, refresh, read the id. *)
Definition store (record : ResolutionHistory) (s : S)
  : S * outcome (option Z) :=
  let '(s1, added) := add db record s in
  match added with
  | Raise e => (s1, Raise e)
  | Ok _ =>
      let '(s2, committed) := commit db s1 in
      match committed with
      | Raise e => (s2, Raise e)
      | Ok _ =>
          let '(s3, refreshed) := refresh db record s2 in
          match refreshed with
          | Raise e => (s3, Raise e)
          | Ok record' => (s3, Ok (rh_id record'))
          end
      end
  end.

(** The inner [try ... except]: a failure to store is followed by
    [rollback] and leaves [resolution_id] at [None]; only an exception
    of [rollback] itself escapes. *)
Definition persist (record : ResolutionHistory) (db_session : option S)
  : option S * outcome (option Z) :=
  match db_session with
  | None => (None, Ok None)
  | Some s =>
      match store record s with
      | (s', Ok resolution_id) => (Some s', Ok resolution_id)
      | (s', Raise _) =>
          match rollback db s' with
          | (s'', Ok _) => (Some s'', Ok None)
          | (s'', Raise e) => (Some s'', Raise e)
          end
      end
  end.

(** [resolve_log_entry(log_entry, top_k, db_session)]: the session
    afterwards, the capability calls made, and the result. *)
Definition resolve_log_entry (cfg : settings) (env : capabilities)
           (log_entry : LogEntry) (top_k : Z) (db_session : option S)
  : option S * list event * outcome result :=
  match retrieve_for_entry cfg env log_entry top_k with
  | (evs, Raise _) => (db_session, evs, Raise RAGError)
  | (evs, Ok similar_logs) =>
      match
        RAGEngine.generate_resolution rt cfg env
          (error_message log_entry) similar_logs
          (Some (context_line log_entry))
      with
      | (evs', Raise _) => (db_session, (evs ++ evs')%list, Raise RAGError)
      | (evs', Ok resolution) =>
          let normalized_fix :=
            _normalize_recommended_fix
              (RAGEngine.recommended_fix resolution) in
          let record :=
            new_record log_entry top_k resolution normalized_fix
              similar_logs in
          match persist record db_session with
          | (db_session', Raise _) =>
              (db_session', (evs ++ evs')%list, Raise RAGError)
          | (db_session', Ok resolution_id) =>
              (db_session', (evs ++ evs')%list,
               Ok {| r_log_entry_id := id log_entry;
                     r_error_message := error_message log_entry;
                     r_service_name := service_name log_entry;
                     r_error_level := error_level log_entry;
                     r_root_cause := RAGEngine.root_cause resolution;
                     r_recommended_fix := normalized_fix;
                     r_confidence := RAGEngine.confidence resolution;
                     r_similar_logs := similar_logs;
                     resolution_id := resolution_id |})
          end
      end
  end.

End WithSession.
End WithRuntime.

End Resolver.

(* ================================================================== *)
(** ** The specification's wording of two operations *)
(* ================================================================== *)

(** These follow the text of the specification, not the source; they are
    what the source is compared with. *)
Module Spec.
Import Py.
Local Open Scope string_scope.

(** The metadata stored with a raw hit ([{}] when it has none). *)
Definition metadata_of (hit : dict) : dict :=
  match lookup "log_metadata" hit with
  | Some (PDict m) => m
  | _ => []
  end.

(** The log id embedded in the metadata of a hit. *)
Definition embedded_log_id (hit : dict) : pyval :=
  get (metadata_of hit) "log_id" PNone.

(** "preferring the metadata-embedded log id over the index's own record
    id" *)
Definition resolved_id (hit : dict) : pyval :=
  or_else (embedded_log_id hit) (get hit "id" PNone).

(** The similar match made from a raw hit. *)
Definition similar_match (hit : dict) : dict :=
  [("id", resolved_id hit);
   ("similarity", get hit "similarity" (PFloat float_zero));
   ("document", get hit "document" (PStr ""));
   ("service_name", get (metadata_of hit) "service_name" (PStr "unknown"));
   ("error_level", get (metadata_of hit) "error_level" (PStr "UNKNOWN"));
   ("error_message", get (metadata_of hit) "error_message" (PStr ""))].

Definition given (exclude_id : pyval) : bool :=
  match exclude_id with PNone => false | _ => true end.

(** "skips any hit whose resolved id string-equals [exclude_id] (if
    given)" *)
Definition format_results (rt : runtime) (hits : list dict)
           (exclude_id : pyval) : list dict :=
  map similar_match
    (filter (fun hit =>
               negb (given exclude_id
                     && String.eqb (str rt (resolved_id hit))
                          (str rt exclude_id)))
       hits).

(** What the source skips: both values truthy, and the embedded log id
    string-equal to [exclude_id]. *)
Definition skipped (rt : runtime) (exclude_id : pyval) (hit : dict) : bool :=
  truthy exclude_id && truthy (embedded_log_id hit)
  && String.eqb (str rt (embedded_log_id hit)) (str rt exclude_id).

(** A hit whose metadata, when present, is a dict. *)
Definition metadata_is_dict (hit : dict) : Prop :=
  match lookup "log_metadata" hit with
  | Some (PDict _) | None => True
  | Some _ => False
  end.

(** The bullet U+2022. *)
Definition bullet : N := 8226%N.

(** "bullet/dash/tab characters", and the space that the example
    [- step one] has trimmed along with its dash. *)
Definition fix_marks : Uni.text := [bullet; 45; 9; 32]%N.

Definition is_mark (c : N) : bool := Uni.among fix_marks c.

(** "trim leading bullet/dash/tab characters" *)
Definition leading_trimmed (line : Uni.text) : Uni.text :=
  Uni.lstrip_by is_mark line.

(** Those characters trimmed from both ends of the line. *)
Definition both_ends_trimmed (line : Uni.text) : Uni.text :=
  Uni.strip_by is_mark line.

(** "split on line breaks, trim ... from each line, drop empty lines; if
    this yields nothing, return that trimmed line as a one-element list" *)
Definition fix_lines (trim : Uni.text -> Uni.text) (s : Uni.text)
  : list Uni.text :=
  match filter Uni.nonempty (map trim (Uni.splitlines s)) with
  | [] => [Uni.strip s]
  | lines => lines
  end.

(** [normalize_fix] with each line trimmed by [trim]. *)
Definition normalize_fix_with (trim : Uni.text -> Uni.text) (rt : runtime)
           (value : pyval) : list string :=
  if truthy value then
    match value with
    | PList items =>
        filter Str.nonempty (map (fun item => Str.strip (str rt item)) items)
    | PStr s => map Uni.to_string (fix_lines trim (Uni.of_string s))
    | _ => [str rt value]
    end
  else [].

(** "trim leading bullet/dash/tab characters from each line" *)
Definition normalize_fix : runtime -> pyval -> list string :=
  normalize_fix_with leading_trimmed.

(** The same with both ends of each line trimmed. *)
Definition normalize_fix_trimmed : runtime -> pyval -> list string :=
  normalize_fix_with both_ends_trimmed.

(** The bullet and the three characters the source has in its place. *)
Definition bullet_like (c : N) : bool :=
  Uni.among [bullet; 226; 8364; 162]%N c.

(** A line of spaces and tabs only, or one that holds a character which is
    neither whitespace nor a dash. *)
Definition plain_line (line : Uni.text) : bool :=
  forallb (fun c => N.eqb c 32 || N.eqb c 9) line
  || existsb (fun c => negb (Uni.isspace c) && negb (N.eqb c 45)) line.

(** A text without bullet-like characters, all of whose lines are
    plain. *)
Definition plain (s : Uni.text) : bool :=
  forallb (fun c => negb (bullet_like c)) s
  && forallb plain_line (Uni.splitlines s).

(** A float in the closed interval [0, 1]. *)
Definition in_unit_interval (f : spec_float) : Prop :=
  fle float_zero f = true /\ fle f float_one = true.

End Spec.

(* ================================================================== *)
(** ** Concrete collaborators for the examples *)
(* ================================================================== *)

Module Sample.
Import Py.
Local Open Scope string_scope.

Definition q : string := String "034" "".

(** 0.85, 0.9 and 1.4 as binary64 values *)
Definition f085 : spec_float := S754_finite false 7656119366529843 (-53).
Definition f09 : spec_float := S754_finite false 8106479329266893 (-53).
Definition f14 : spec_float := S754_finite false 6305039478318694 (-52).

(** The completion of the specification's example: confidence 1.4. *)
Definition pool_response : string :=
  "{" ++ q ++ "root_cause" ++ q ++ ":" ++ q ++ "Pool too small" ++ q ++ ","
  ++ q ++ "recommended_fix" ++ q ++ ":[" ++ q ++ "Increase pool size" ++ q
  ++ "]," ++ q ++ "confidence" ++ q ++ ":1.4}".

(** A completion whose confidence is the JSON string [high]. *)
Definition high_response : string :=
  "{" ++ q ++ "root_cause" ++ q ++ ": " ++ q ++ "Pool too small" ++ q ++ ", "
  ++ q ++ "recommended_fix" ++ q ++ ": " ++ q ++ "Increase pool size" ++ q
  ++ ", " ++ q ++ "confidence" ++ q ++ ": " ++ q ++ "high" ++ q ++ "}".

(** A runtime that knows the few literals the examples use. *)
Definition runtime : Py.runtime :=
  {| repr := fun v =>
       match v with
       | PList [] => "[]"
       | PDict [] => "{}"
       | _ => "<object>"
       end;
     float_of_str := fun s =>
       if String.eqb s "0.85" then Some f085
       else if String.eqb s "0.9" then Some f09
       else if String.eqb s "1.4" then Some f14
       else None;
     format_2f := fun v =>
       match v with
       | PFloat f =>
           Ok (if SFeqb f f09 then "0.90"
               else if SFeqb f f085 then "0.85" else "0.00")
       | PInt _ | PBool _ => Ok "0.00"
       | _ => Raise TypeError
       end;
     json_loads := fun s =>
       if String.eqb s "{}" then Ok (PDict [])
       else if String.eqb s pool_response then
         Ok (PDict [("root_cause", PStr "Pool too small");
                    ("recommended_fix", PList [PStr "Increase pool size"]);
                    ("confidence", PFloat f14)])
       else if String.eqb s high_response then
         Ok (PDict [("root_cause", PStr "Pool too small");
                    ("recommended_fix", PStr "Increase pool size");
                    ("confidence", PStr "high")])
       else Raise JSONDecodeError;
     json_dumps := fun v =>
       match v with
       | PList [] => Some "[]"
       | PList _ => Some "[...]"
       | _ => Some "{...}"
       end |}.

(** A raw hit of the index: record id [log_<n>], the log id in its
    metadata. *)
Definition hit (log_id : string) (message : string) : dict :=
  [("id", PStr ("log_" ++ log_id));
   ("distance", PFloat f09);
   ("similarity", PFloat f09);
   ("document", PStr message);
   ("log_metadata",
     PDict [("log_id", PStr log_id);
            ("service_name", PStr "payments-api");
            ("error_level", PStr "ERROR")])].

(** A raw hit that carries only the record id of the index. *)
Definition bare_hit (record_id : string) : dict := [("id", PStr record_id)].

Definition hits : list dict :=
  [hit "2" "connection pool timeout";
   hit "7" "connection pool exhausted";
   hit "9" "too many connections";
   hit "11" "connection refused"].

Definition index (response : string) : capabilities :=
  {| generate_embedding := fun _ => Ok [float_half; float_one];
     query_similar := fun _ n => Ok (firstn (Z.to_nat n) hits);
     complete := fun _ => Completion [Some response] |}.

Definition entry : Resolver.LogEntry :=
  {| Resolver.id := 7;
     Resolver.service_name := "payments-api";
     Resolver.error_level := "ERROR";
     Resolver.error_message := "Connection pool exhausted";
     Resolver.normalized_text := Some "connection pool exhausted" |}.

(** A session state: the number of stored rows and the pending rows. *)
Definition store_state : Type := (nat * list Resolver.ResolutionHistory)%type.

Definition with_id (n : nat) (r : Resolver.ResolutionHistory)
  : Resolver.ResolutionHistory :=
  {| Resolver.rh_id := Some (Z.of_nat n);
     Resolver.log_entry_id := Resolver.log_entry_id r;
     Resolver.rh_root_cause := Resolver.rh_root_cause r;
     Resolver.rh_recommended_fix := Resolver.rh_recommended_fix r;
     Resolver.confidence_score := Resolver.confidence_score r;
     Resolver.similar_log_ids := Resolver.similar_log_ids r;
     Resolver.rag_context := Resolver.rag_context r |}.

(** A session whose [commit] raises when [broken] and stores the pending
    rows otherwise. *)
Definition session (broken : bool) : Resolver.session store_state :=
  {| Resolver.add := fun r s => ((fst s, (snd s ++ [r])%list), Ok tt);
     Resolver.commit := fun s =>
       if broken then (s, Raise ExternalError)
       else ((fst s + List.length (snd s), []), Ok tt);
     Resolver.refresh := fun r s => (s, Ok (with_id (fst s) r));
     Resolver.rollback := fun s => ((fst s, []), Ok tt) |}.

(** A session in which [rollback] raises as well. *)
Definition dead_session : Resolver.session store_state :=
  {| Resolver.add := fun r s => ((fst s, (snd s ++ [r])%list), Ok tt);
     Resolver.commit := fun s => (s, Raise ExternalError);
     Resolver.refresh := fun r s => (s, Ok (with_id (fst s) r));
     Resolver.rollback := fun s => (s, Raise ExternalError) |}.

End Sample.

(* ================================================================== *)
(** ** Notions the properties are stated with *)
(* ================================================================== *)

(** The resolved id of each similar match. *)
Definition ids_of (matches : list dict) : list pyval :=
  map (fun m => Py.get m "id" PNone) matches.

Module Shape.
Import PyStr.

(** The length of the longest prefix of [s] whose characters satisfy
    [p]. *)
Fixpoint span (p : ascii -> bool) (s : list ascii) : nat :=
  match s with
  | c :: s' => if p c then S (span p s') else 0
  | [] => 0
  end.

(** Each run of whitespace replaced by one space; [in_run] tells that the
    run has begun before [s]. *)
Fixpoint squeeze (in_run : bool) (s : list ascii) : list ascii :=
  match s with
  | [] => []
  | c :: s' =>
      if isspace c
      then if in_run then squeeze true s' else " "%char :: squeeze true s'
      else c :: squeeze false s'
  end.

(** Every whitespace character of [s] is a space that follows no
    whitespace; [after_space] tells what precedes [s]. *)
Fixpoint tidy (after_space : bool) (s : list ascii) : Prop :=
  match s with
  | [] => True
  | c :: s' =>
      if isspace c
      then c = " "%char /\ after_space = false /\ tidy true s'
      else tidy false s'
  end.

(** [s] does not begin with a character satisfying [p]. *)
Definition headed (p : ascii -> bool) (s : list ascii) : Prop :=
  match s with
  | [] => True
  | c :: _ => p c = false
  end.

(** [str.lower] leaves the character as it is. *)
Definition lowered (c : ascii) : Prop := lower_char c = c.

End Shape.

From Stdlib Require DecimalZ.

(** The text [generate_resolution] hands to [json.loads]: the inside of the
    first code fence when the content has one, the content otherwise. *)
Definition json_candidate (content : string) : string :=
  if Str.contains "```json" content then RAGEngine.fenced "```json" content
  else if Str.contains "```" content then RAGEngine.fenced "```" content
  else content.

(* ================================================================== *)
(** ** [app/utils/text_cleaner.py]: the other extractors *)
(* ================================================================== *)

Module Extractors.
Import PyStr Re.

(** [str.upper] on one character.  The German sharp s becomes two letters.
    The upper-case forms of U+00B5 and U+00FF lie outside the characters of
    this model; they stand for themselves, which no test against an ASCII
    keyword can tell apart. *)
Definition upper_char (c : ascii) : list ascii :=
  if in_range 97 122 c || in_range 224 246 c || in_range 248 254 c
  then [ascii_of_N (code c - 32)]
  else if N.eqb (code c) 223 then chars "SS"
  else [c].

Definition upper (s : list ascii) : list ascii := flat_map upper_char s.

Definition has (keyword : string) (text : list ascii) : bool :=
  contains (chars keyword) text.

Definition extract_level (text : list ascii) : string :=
  let text_upper := upper text in
  if existsb (fun keyword => has keyword text_upper)
       ["CRITICAL"; "FATAL"; "PANIC"]%string
  then "CRITICAL"%string
  else if has "ERROR" text_upper || has "ERR" text_upper
  then "ERROR"%string
  else if existsb (fun keyword => has keyword text_upper)
            ["WARN"; "WARNING"]%string
  then "WARN"%string
  else if has "DEBUG" text_upper then "DEBUG"%string
  else if has "INFO" text_upper then "INFO"%string
  else "INFO"%string.

Definition extract_error_level (text : string) : string :=
  extract_level (chars text).

(** [re.findall(r, s)] for a pattern without groups. *)
Fixpoint findall_go (r : regex) (prev : option ascii) (s : list ascii)
         (skip : nat) : list (list ascii) :=
  match s with
  | [] =>
      match skip, match_len r prev [] with
      | O, Some _ => [[]]
      | _, _ => []
      end
  | c :: s' =>
      match skip with
      | S n => findall_go r (Some c) s' n
      | O =>
          match match_len r prev s with
          | Some (S n) => firstn (S n) s :: findall_go r (Some c) s' n
          | Some O => [] :: findall_go r (Some c) s' 0
          | None => findall_go r (Some c) s' 0
          end
      end
  end.

Definition findall (r : regex) (s : list ascii) : list (list ascii) :=
  findall_go r None s 0.

(** [\b\w+\b] *)
Definition word_pattern : regex := seq [WordB; plus isword; WordB].

Definition tokens (text : list ascii) : list (list ascii) :=
  findall word_pattern (lower text).

Definition tokenize (text : string) : list string :=
  map string_of_list_ascii (tokens (chars text)).

Definition stop_words : list string :=
  ["the"; "a"; "an"; "and"; "or"; "but"; "in"; "on"; "at"; "to"; "for";
   "of"; "with"; "by"; "is"; "are"; "was"; "were"; "be"; "been"; "have";
   "has"; "had"; "do"; "does"; "did"]%string.

Definition is_stop_word (token : string) : bool :=
  existsb (String.eqb token) stop_words.

Definition remove_stop_words (tokens : list string) : list string :=
  filter (fun token => negb (is_stop_word token)) tokens.

(** A pattern with one group that is a repeated character class:
    [before (inside+) after]. *)
Record group_pattern : Type := {
  before : regex;
  inside : ascii -> bool;
  after : regex
}.

(** The text of group 1 when the pattern matches at the head of [s]. *)
Definition group_at (g : group_pattern) (prev : option ascii)
           (s : list ascii) : option (list ascii) :=
  rmatch (before g) prev s
    (fun prev' rest =>
       match
         rep_class (inside g) 1 None prev' rest
           (fun p r =>
              match rmatch (after g) p r (fun _ r' => Some r') with
              | Some _ => Some r
              | None => None
              end)
       with
       | Some rest' =>
           Some (firstn (List.length rest - List.length rest') rest)
       | None => None
       end).

(** [re.search(pattern, s).group(1)], [None] when there is no match. *)
Fixpoint search_group (g : group_pattern) (prev : option ascii)
         (s : list ascii) : option (list ascii) :=
  match group_at g prev s with
  | Some found => Some found
  | None =>
      match s with
      | [] => None
      | c :: s' => search_group g (Some c) s'
      end
  end.

(** A letter under [re.IGNORECASE] *)
Definition lit_i (a : ascii) : regex :=
  Chr (fun c => Ascii.eqb (lower_char c) a).

Definition word_i (w : string) : regex := seq (map lit_i (chars w)).

(** [[a-zA-Z0-9_-]] *)
Definition name_char (c : ascii) : bool :=
  in_range 97 122 c || in_range 65 90 c || in_range 48 57 c
  || is_char "_" c || is_char "-" c.

Definition assign : regex := Chr (fun c => is_char "=" c || is_char ":" c).

Definition service_patterns : list group_pattern :=
  [ (* service[=:]\s*([a-zA-Z0-9_-]+) *)
    {| before := seq [word_i "service"; assign; star isspace];
       inside := name_char; after := Eps |};
    (* service_name[=:]\s*([a-zA-Z0-9_-]+) *)
    {| before := seq [word_i "service_name"; assign; star isspace];
       inside := name_char; after := Eps |};
    (* \[([a-zA-Z0-9_-]+)\] *)
    {| before := lit "["; inside := name_char; after := lit "]" |};
    (* <([a-zA-Z0-9_-]+)> *)
    {| before := lit "<"; inside := name_char; after := lit ">" |} ].

(** [s.split()]: the maximal runs of characters that are not whitespace. *)
Fixpoint words_go (s cur : list ascii) : list (list ascii) :=
  match s with
  | [] => match cur with [] => [] | _ => [rev cur] end
  | c :: s' =>
      if isspace c
      then match cur with
           | [] => words_go s' []
           | _ => rev cur :: words_go s' []
           end
      else words_go s' (c :: cur)
  end.

Definition words (s : list ascii) : list string :=
  map string_of_list_ascii (words_go s []).

Definition service_keywords : list string :=
  ["api"; "auth"; "db"; "cache"; "worker"; "scheduler"; "web"]%string.

(** [words.index(keyword)], when the keyword is among the words *)
Fixpoint index (keyword : string) (ws : list string) : option nat :=
  match ws with
  | [] => None
  | w :: ws' =>
      if String.eqb keyword w then Some 0
      else option_map S (index keyword ws')
  end.

(** The loop over the service keywords. *)
Fixpoint keyword_scan (keywords : list string) (ws : list string)
  : option string :=
  match keywords with
  | [] => None
  | keyword :: rest =>
      match index keyword ws with
      | Some (S i) => Some (nth i ws ""%string ++ "-" ++ keyword)%string
      | Some O => Some keyword
      | None => keyword_scan rest ws
      end
  end.

(** The loop over the patterns: the first pattern that matches decides. *)
Fixpoint first_group (patterns : list group_pattern) (s : list ascii)
  : option (list ascii) :=
  match patterns with
  | [] => None
  | g :: rest =>
      match search_group g None s with
      | Some found => Some found
      | None => first_group rest s
      end
  end.

Definition extract_service_name (text : string) : string :=
  match first_group service_patterns (chars text) with
  | Some found => string_of_list_ascii found
  | None =>
      match keyword_scan service_keywords (words (lower (chars text))) with
      | Some name => name
      | None => "unknown"%string
      end
  end.

End Extractors.

(* ================================================================== *)
(** ** [app/utils/helpers.py] *)
(* ================================================================== *)

Module Helpers.
Import PyStr.

(** [truncate_text(text, max_length)] *)
Definition truncate (text : list ascii) (max_length : Z) : list ascii :=
  if (len text <=? max_length)%Z then text
  else slice text None (Some max_length) ++ chars "...".

Definition truncate_text (text : string) (max_length : Z) : string :=
  string_of_list_ascii (truncate (chars text) max_length).

(** The [while] loop of [chunk_text]; [None] when [fuel] iterations do not
    end it. *)
Fixpoint chunk_loop (fuel : nat) (text : list ascii) (chunk_size overlap : Z)
         (start : Z) (chunks : list (list ascii))
  : option (list (list ascii)) :=
  if (start <? len text)%Z then
    match fuel with
    | O => None
    | S fuel' =>
        let stop := (start + chunk_size)%Z in
        let chunk := slice text (Some start) (Some stop) in
        chunk_loop fuel' text chunk_size overlap (stop - overlap)%Z
          (chunks ++ [chunk])
    end
  else Some chunks.

(** [chunk_text(text, chunk_size, overlap)] *)
Definition chunk_text (fuel : nat) (text : list ascii)
           (chunk_size overlap : Z) : option (list (list ascii)) :=
  if (len text <=? chunk_size)%Z then Some [text]
  else chunk_loop fuel text chunk_size overlap 0 [].

(** [d[k] = v]: the value is replaced where the key is, or the pair is
    added at the end. *)
Fixpoint set_item (k : string) (v : pyval) (d : dict) : dict :=
  match d with
  | [] => [(k, v)]
  | (k', v') :: d' =>
      if String.eqb k k' then (k, v) :: d' else (k', v') :: set_item k v d'
  end.

(** [result.update(d)] *)
Definition update (result d : dict) : dict :=
  fold_left (fun acc kv => set_item (fst kv) (snd kv) acc) d result.

(** [merge_dicts] of its arguments, in order; an argument may be [None]. *)
Definition merge_step (result : dict) (d : option dict) : dict :=
  match d with
  | Some [] | None => result
  | Some d => update result d
  end.

Definition merge_dicts (dicts : list (option dict)) : dict :=
  fold_left merge_step dicts [].

(** [https?://[^\s]+] *)
Definition url_pattern : Re.regex :=
  Re.seq [Re.lit "h"; Re.lit "t"; Re.lit "t"; Re.lit "p";
          Re.Rep (is_char "s") 0 (Some 1); Re.lit ":"; Re.lit "/";
          Re.lit "/"; Re.plus (fun c => negb (isspace c))].

Definition alnum_ascii (c : ascii) : bool :=
  in_range 65 90 c || in_range 97 122 c || in_range 48 57 c.

(** [[A-Za-z0-9._%+-]] *)
Definition local_char (c : ascii) : bool :=
  alnum_ascii c || is_char "." c || is_char "_" c || is_char "%" c
  || is_char "+" c || is_char "-" c.

(** [[A-Za-z0-9.-]] *)
Definition domain_char (c : ascii) : bool :=
  alnum_ascii c || is_char "." c || is_char "-" c.

(** [[A-Z|a-z]]: the bar is a member of the class. *)
Definition tld_char (c : ascii) : bool :=
  in_range 65 90 c || is_char "|" c || in_range 97 122 c.

(** [\b[A-Za-z0-9._%+-]+@[A-Za-z0-9.-]+\.[A-Z|a-z]{2,}\b] *)
Definition email_pattern : Re.regex :=
  Re.seq [Re.WordB; Re.plus local_char; Re.lit "@"; Re.plus domain_char;
          Re.lit "."; Re.Rep tld_char 2 None; Re.WordB].

(** The dict [extract_patterns] returns. *)
Record patterns : Type := {
  urls : list string;
  emails : list string;
  ip_addresses : list string;
  uuids : list string
}.

(** [extract_patterns(text)]; the patterns of IP addresses and UUIDs are
    those of [normalize_text]. *)
Definition extract_patterns (text : string) : patterns :=
  let found r :=
    map string_of_list_ascii (Extractors.findall r (chars text)) in
  {| urls := found url_pattern;
     emails := found email_pattern;
     ip_addresses := found TextCleaner.ip_pattern;
     uuids := found TextCleaner.uuid_pattern |}.

End Helpers.

(* ================================================================== *)
(** ** [app/models/schemas.py]: the validator of the error level *)
(* ================================================================== *)

Module Schemas.

Definition valid_levels : list string :=
  ["ERROR"; "WARN"; "WARNING"; "CRITICAL"; "FATAL"; "INFO"; "DEBUG"]%string.

(** [LogIngestionRequest.validate_error_level(v)] *)
Definition validate_error_level (v : string) : outcome string :=
  let upper_v := string_of_list_ascii (Extractors.upper (chars v)) in
  if existsb (String.eqb upper_v) valid_levels then Ok upper_v
  else Raise ValueError.

End Schemas.

(* ================================================================== *)
(** ** [app/services/log_parser.py] *)
(* ================================================================== *)

Module LogParser.
Import Py.

(** [UnstructuredLogRequest] *)
Record UnstructuredLogRequest : Type := {
  log_text : string;
  req_service_name : option string;
  req_log_metadata : option dict
}.

(** The dict a parse returns. *)
Record parsed_log : Type := {
  service_name : string;
  error_level : string;
  error_message : string;
  raw_log : string;
  normalized_text : string;
  log_metadata : option string
}.

Section WithRuntime.
Variable rt : runtime.

Definition dumps_metadata (m : option dict) : option string :=
  Resolver.safe_json_dumps rt
    match m with
    | Some d => PDict d
    | None => PNone
    end.

(** [parse_unstructured_log(request)]; the default [max_length] of
    [extract_error_message] is 500.  None of the calls raises on a text,
    so the handler that raises [LogParsingError] is not reached. *)
Definition parse_unstructured_log (request : UnstructuredLogRequest)
  : parsed_log :=
  let log_text := log_text request in
  let service_name :=
    match req_service_name request with
    | Some name =>
        if Str.nonempty name then name
        else Extractors.extract_service_name log_text
    | None => Extractors.extract_service_name log_text
    end in
  let error_level := Extractors.extract_error_level log_text in
  let error_message := TextCleaner.extract_error_message log_text 500 in
  let normalized := TextCleaner.normalize_text error_message in
  {| service_name := service_name;
     error_level := error_level;
     error_message := error_message;
     raw_log := log_text;
     normalized_text := normalized;
     log_metadata := dumps_metadata (req_log_metadata request) |}.

(** [parse_log_text(log_text, service_name)] *)
Definition parse_log_text (log_text : string) (service_name : option string)
  : parsed_log :=
  parse_unstructured_log
    {| log_text := log_text; req_service_name := service_name;
       req_log_metadata := None |}.

End WithRuntime.

(** [normalize_log_entry(log_entry)] *)
Definition normalize_log_entry (log_entry : Resolver.LogEntry)
  : Resolver.LogEntry :=
  let missing :=
    match Resolver.normalized_text log_entry with
    | Some t => negb (Str.nonempty t)
    | None => true
    end in
  if missing then
    {| Resolver.id := Resolver.id log_entry;
       Resolver.service_name := Resolver.service_name log_entry;
       Resolver.error_level := Resolver.error_level log_entry;
       Resolver.error_message := Resolver.error_message log_entry;
       Resolver.normalized_text :=
         Some (TextCleaner.normalize_text
                 (Resolver.error_message log_entry)) |}
  else log_entry.

End LogParser.

(* ================================================================== *)
(** ** [app/services/vector_store.py] *)
(* ================================================================== *)

Module VectorStore.
Import Py.
Local Open Scope string_scope.

(** What [collection.query] returns for one query embedding: a list per
    query of ids, distances, documents and metadata. *)
Record query_result : Type := {
  ids : list (list string);
  distances : option (list (list spec_float));
  documents : option (list (list (option string)));
  metadatas : option (list (list (option dict)))
}.

(** One call of [collection.add]: a single id, embedding, document and its
    metadata ([None] when there is none). *)
Record added : Type := {
  added_id : string;
  added_embedding : list spec_float;
  added_document : string;
  added_metadata : option dict
}.

Section WithRuntime.
Variable rt : runtime.

(** The metadata as Chroma gets it: every value through [str]. *)
Definition chroma_metadata (log_metadata : option dict) : dict :=
  match log_metadata with
  | Some d =>
      fold_left
        (fun acc kv =>
           Helpers.set_item (fst kv) (PStr (str rt (snd kv))) acc)
        d []
  | None => []
  end.

(** The arguments [add_embedding] passes to [collection.add]. *)
Definition add_embedding_call (embedding_id : string)
           (embedding : list spec_float) (document : string)
           (log_metadata : option dict) : added :=
  let m := chroma_metadata log_metadata in
  {| added_id := embedding_id;
     added_embedding := embedding;
     added_document := document;
     added_metadata := match m with [] => None | _ => Some m end |}.

(** [add_embedding(embedding_id, embedding, document, log_metadata)] over
    the collection's [add]: the call made, and [None] for the
    [VectorStoreError] any exception becomes. *)
Definition add_embedding (collection_add : added -> outcome unit)
           (embedding_id : string) (embedding : list spec_float)
           (document : string) (log_metadata : option dict)
  : list added * option unit :=
  let call :=
    add_embedding_call embedding_id embedding document log_metadata in
  ([call],
   match collection_add call with
   | Ok _ => Some tt
   | Raise _ => None
   end).

(** [1 - distance] *)
Definition similarity_of (distance : spec_float) : spec_float :=
  SFsub prec emax float_one distance.

(** The body of the loop of [query_similar] for index [i]; [None] is an
    [IndexError]. *)
Definition hit_at (ids : list string) (distances : list spec_float)
           (documents : list (option string))
           (metadatas : list (option dict)) (i : nat) : option dict :=
  match nth_error ids i, nth_error distances i, nth_error documents i,
        nth_error metadatas i with
  | Some id, Some distance, Some document, Some metadata =>
      Some [("id", PStr id);
            ("distance", PFloat distance);
            ("similarity", PFloat (similarity_of distance));
            ("document",
              match document with Some t => PStr t | None => PNone end);
            ("log_metadata",
              PDict match metadata with
                    | Some m => m
                    | None => []
                    end)]
  | _, _, _, _ => None
  end.

Fixpoint collect (hits : list (option dict)) : option (list dict) :=
  match hits with
  | [] => Some []
  | None :: _ => None
  | Some h :: rest => option_map (cons h) (collect rest)
  end.

(** The formatting part of [query_similar]; [None] is the
    [VectorStoreError] any exception becomes. *)
Definition format_query (results : query_result) : option (list dict) :=
  match ids results with
  | first_ids :: _ =>
      if (0 <? Z.of_nat (List.length first_ids))%Z then
        match distances results, documents results with
        | Some (first_distances :: _), Some (first_documents :: _) =>
            let first_metadatas :=
              match metadatas results with
              | Some (first_metadatas :: _) => first_metadatas
              | Some [] | None => repeat (Some []) (List.length first_ids)
              end in
            collect
              (map (hit_at first_ids first_distances first_documents
                      first_metadatas)
                 (seq 0 (List.length first_ids)))
        | _, _ => None
        end
      else Some []
  | [] => Some []
  end.

(** [query_similar(query_embedding, top_k, filter_metadata)], over the
    collection's [query]. *)
Definition query_similar
           (collection_query :
              list spec_float -> Z -> option dict -> outcome query_result)
           (query_embedding : list spec_float) (top_k : Z)
           (filter_metadata : option dict) : option (list dict) :=
  let where_ :=
    match filter_metadata with
    | Some (_ :: _) => Some (chroma_metadata filter_metadata)
    | _ => None
    end in
  match collection_query query_embedding top_k where_ with
  | Ok results => format_query results
  | Raise _ => None
  end.

End WithRuntime.

End VectorStore.

(* ================================================================== *)
(** ** [app/services/resolver.py]: ad-hoc resolution and log storage *)
(* ================================================================== *)

Module AdHoc.
Import Py.
Local Open Scope string_scope.

(** The dict [resolve_error] returns. *)
Record result : Type := {
  error_message : string;
  service_name : string;
  error_level : string;
  root_cause : pyval;
  recommended_fix : list string;
  confidence : spec_float;
  similar_logs : list dict
}.

Section WithRuntime.
Variable rt : runtime.

(** [resolve_error(log_text, service_name, top_k)]; the session argument
    is not used by the code. *)
Definition resolve_error (cfg : settings) (env : capabilities)
           (log_text : string) (service_name : option string) (top_k : Z)
  : list event * outcome result :=
  let parsed := LogParser.parse_log_text rt log_text service_name in
  match
    Retriever.retrieve_similar_logs cfg env
      (LogParser.normalized_text parsed) (Some top_k)
  with
  | (evs, Raise _) => (evs, Raise RAGError)
  | (evs, Ok similar_results) =>
      match Retriever.format_retrieval_results rt similar_results PNone with
      | Raise _ => (evs, Raise RAGError)
      | Ok similar_logs =>
          match
            RAGEngine.generate_resolution rt cfg env
              (LogParser.error_message parsed) similar_logs
              (Some ("Service: " ++ LogParser.service_name parsed
                     ++ ", Level: " ++ LogParser.error_level parsed))
          with
          | (evs', Raise _) => ((evs ++ evs')%list, Raise RAGError)
          | (evs', Ok resolution) =>
              ((evs ++ evs')%list,
               Ok {| error_message := LogParser.error_message parsed;
                     service_name := LogParser.service_name parsed;
                     error_level := LogParser.error_level parsed;
                     root_cause := RAGEngine.root_cause resolution;
                     recommended_fix :=
                       Resolver._normalize_recommended_fix rt
                         (RAGEngine.recommended_fix resolution);
                     confidence := RAGEngine.confidence resolution;
                     similar_logs := similar_logs |})
          end
      end
  end.

End WithRuntime.

End AdHoc.

Module Ingestion.
Import Py.
Local Open Scope string_scope.

(** A [LogEntry] row; [id] is [None] until the database has set it. *)
Record LogEntry : Type := {
  id : option Z;
  service_name : string;
  error_level : string;
  error_message : string;
  raw_log : string;
  normalized_text : string;
  embedding_id : option string;
  log_metadata : option string
}.

(** The SQLAlchemy session for log entries, over an arbitrary state [S].
    The entry is an object the session tracks: [assign] is what setting
    its [embedding_id] attribute does to the session. *)
Record session (S : Type) : Type := {
  add : LogEntry -> S -> S * outcome unit;
  commit : S -> S * outcome unit;
  refresh : LogEntry -> S -> S * outcome LogEntry;
  assign : LogEntry -> S -> S;
  rollback : S -> S * outcome unit
}.

(** How [store_log_with_embedding] ends: it returns the entry, raises
    [DatabaseError], or lets an exception of [rollback] escape. *)
Inductive stored : Type :=
| Stored (log_entry : LogEntry)
| DatabaseError
| RollbackRaised (e : exn).

(** [f"log_{log_entry.id}"] and [str(log_entry.id)] *)
Definition id_text (log_entry : LogEntry) : string :=
  match id log_entry with
  | Some i => str_of_int i
  | None => "None"
  end.

(** The metadata [store_log_with_embedding] files the embedding under. *)
Definition embedding_metadata (log_entry : LogEntry)
           (parsed : LogParser.parsed_log) : dict :=
  [("log_id", PStr (id_text log_entry));
   ("service_name", PStr (LogParser.service_name parsed));
   ("error_level", PStr (LogParser.error_level parsed))].

(** [LogEntry(service_name=..., ...)] of a parsed log *)
Definition new_entry (parsed : LogParser.parsed_log) : LogEntry :=
  {| id := None;
     service_name := LogParser.service_name parsed;
     error_level := LogParser.error_level parsed;
     error_message := LogParser.error_message parsed;
     raw_log := LogParser.raw_log parsed;
     normalized_text := LogParser.normalized_text parsed;
     embedding_id := None;
     log_metadata := LogParser.log_metadata parsed |}.

(** The embedding id used: the given one, or [log_<id>]. *)
Definition embedding_id_for (log_entry : LogEntry)
           (embedding_id : option string) : string :=
  match embedding_id with
  | Some e => if Str.nonempty e then e else "log_" ++ id_text log_entry
  | None => "log_" ++ id_text log_entry
  end.

Definition with_embedding_id (log_entry : LogEntry) (embedding_id : string)
  : LogEntry :=
  {| id := id log_entry;
     service_name := service_name log_entry;
     error_level := error_level log_entry;
     error_message := error_message log_entry;
     raw_log := raw_log log_entry;
     normalized_text := normalized_text log_entry;
     embedding_id := Some embedding_id;
     log_metadata := log_metadata log_entry |}.

Section WithSession.
Variable rt : runtime.
Variable S : Type.
Variable db : session S.
Variable generate_embedding : string -> outcome (list spec_float).
Variable collection_add : VectorStore.added -> outcome unit.

(** The body of the [try]: the session afterwards, the calls of
    [collection.add], and the entry or the exception. *)
Definition store_body (parsed : LogParser.parsed_log) (s : S)
           (embedding_id : option string)
  : S * list VectorStore.added * outcome LogEntry :=
  let log_entry := new_entry parsed in
  let '(s1, r1) := add db log_entry s in
  match r1 with
  | Raise e => (s1, [], Raise e)
  | Ok _ =>
  let '(s2, r2) := commit db s1 in
  match r2 with
  | Raise e => (s2, [], Raise e)
  | Ok _ =>
  let '(s3, r3) := refresh db log_entry s2 in
  match r3 with
  | Raise e => (s3, [], Raise e)
  | Ok log_entry =>
  let embedding_id := embedding_id_for log_entry embedding_id in
  match generate_embedding (LogParser.normalized_text parsed) with
  | Raise e => (s3, [], Raise e)
  | Ok embedding =>
  let '(calls, r4) :=
    VectorStore.add_embedding rt collection_add embedding_id embedding
      (LogParser.normalized_text parsed)
      (Some (embedding_metadata log_entry parsed)) in
  match r4 with
  | None => (s3, calls, Raise ExternalError)
  | Some _ =>
  let log_entry := with_embedding_id log_entry embedding_id in
  let s4 := assign db log_entry s3 in
  let '(s5, r5) := commit db s4 in
  match r5 with
  | Raise e => (s5, calls, Raise e)
  | Ok _ =>
  let '(s6, r6) := refresh db log_entry s5 in
  (s6, calls, r6)
  end end end end end end.

(** [store_log_with_embedding(parsed_log, db_session, embedding_id)] *)
Definition store_log_with_embedding (parsed : LogParser.parsed_log) (s : S)
           (embedding_id : option string)
  : S * list VectorStore.added * stored :=
  match store_body parsed s embedding_id with
  | (s', calls, Ok log_entry) => (s', calls, Stored log_entry)
  | (s', calls, Raise _) =>
      match rollback db s' with
      | (s'', Ok _) => (s'', calls, DatabaseError)
      | (s'', Raise e) => (s'', calls, RollbackRaised e)
      end
  end.

End WithSession.

End Ingestion.

(** The retriever's index, wired to a Chroma collection through
    [VectorStore.query_similar] without a metadata filter. *)
Definition over_collection (rt : Py.runtime)
           (embed : string -> outcome (list spec_float))
           (collection_query :
              list spec_float -> Z -> option dict
              -> outcome VectorStore.query_result)
           (client : string -> completion) : capabilities :=
  {| generate_embedding := embed;
     query_similar := fun embedding top_k =>
       match
         VectorStore.query_similar rt collection_query embedding top_k None
       with
       | Some hits => Ok hits
       | None => Raise ExternalError
       end;
     complete := client |}.

(* ================================================================== *)
(** ** Concrete collaborators for the examples of storage *)
(* ================================================================== *)

Module Fixture.
Import Py.
Local Open Scope string_scope.

(** A collection that holds [stored] and answers a query with its first
    [n_results] records, each at distance 0.9. *)
Definition collection (stored : list VectorStore.added)
  : list spec_float -> Z -> option dict -> outcome VectorStore.query_result :=
  fun _ n_results _ =>
    let found := firstn (Z.to_nat n_results) stored in
    Ok {| VectorStore.ids := [map VectorStore.added_id found];
          VectorStore.distances := Some [map (fun _ => Sample.f09) found];
          VectorStore.documents :=
            Some [map (fun a => Some (VectorStore.added_document a)) found];
          VectorStore.metadatas :=
            Some [map VectorStore.added_metadata found] |}.

(** A session state: the committed rows and the rows not yet committed. *)
Definition log_state : Type :=
  (list Ingestion.LogEntry * list Ingestion.LogEntry)%type.

Definition with_id (n : nat) (e : Ingestion.LogEntry) : Ingestion.LogEntry :=
  {| Ingestion.id := Some (Z.of_nat n);
     Ingestion.service_name := Ingestion.service_name e;
     Ingestion.error_level := Ingestion.error_level e;
     Ingestion.error_message := Ingestion.error_message e;
     Ingestion.raw_log := Ingestion.raw_log e;
     Ingestion.normalized_text := Ingestion.normalized_text e;
     Ingestion.embedding_id := Ingestion.embedding_id e;
     Ingestion.log_metadata := Ingestion.log_metadata e |}.

Definition same_id (a b : Ingestion.LogEntry) : bool :=
  match Ingestion.id a, Ingestion.id b with
  | Some i, Some j => Z.eqb i j
  | _, _ => false
  end.

(** The row written: in the place of the row with its id, or as a new
    row. *)
Fixpoint put (e : Ingestion.LogEntry) (rows : list Ingestion.LogEntry)
  : list Ingestion.LogEntry :=
  match rows with
  | [] => [e]
  | row :: rest => if same_id e row then e :: rest else row :: put e rest
  end.

(** A session that numbers a row when it is added, writes the pending
    rows on [commit] and drops them on [rollback]. *)
Definition session : Ingestion.session log_state :=
  {| Ingestion.add := fun e s =>
       ((fst s,
         (snd s ++ [with_id (1 + List.length (fst s) + List.length (snd s)) e])
           %list),
        Ok tt);
     Ingestion.commit := fun s =>
       ((fold_left (fun rows e => put e rows) (snd s) (fst s), []), Ok tt);
     Ingestion.refresh := fun e s =>
       (s,
        match find (same_id e) (fst s), rev (fst s) with
        | Some row, _ => Ok row
        | None, row :: _ => Ok row
        | None, [] => Raise ExternalError
        end);
     Ingestion.assign := fun e s => (fst s, (snd s ++ [e])%list);
     Ingestion.rollback := fun s => ((fst s, []), Ok tt) |}.

Definition parsed : LogParser.parsed_log :=
  {| LogParser.service_name := "payments-api";
     LogParser.error_level := "ERROR";
     LogParser.error_message := "Connection pool exhausted";
     LogParser.raw_log := "2024-01-01 ERROR Connection pool exhausted";
     LogParser.normalized_text := "connection pool exhausted";
     LogParser.log_metadata := None |}.

(** An ad-hoc resolution against the sample index. *)
Definition adhoc : list event * outcome AdHoc.result :=
  AdHoc.resolve_error Sample.runtime default_settings
    (Sample.index Sample.pool_response)
    "2024-01-01T10:00:00 [payments-api] ERROR Connection pool exhausted"
    None 3.

End Fixture.

(* ================================================================== *)
(** ** Further notions the properties are stated with *)
(* ================================================================== *)

(** A token: a non-empty run of word characters in lower case. *)
Definition plain_word (token : list ascii) : Prop :=
  token <> []
  /\ Forall (fun c => PyStr.isword c = true) token
  /\ Forall Shape.lowered token.

(** The chunks joined, each without its first [overlap] characters. *)
Definition without_overlap (overlap : Z) (pieces : list (list ascii))
  : list ascii :=
  List.concat (map (skipn (Z.to_nat overlap)) pieces).

(** The value of [k] in the last of the dicts that has the key. *)
Definition latest (k : string) (dicts : list (option dict)) : option pyval :=
  fold_left
    (fun found d =>
       match d with
       | Some d =>
           match Py.lookup k d with
           | Some v => Some v
           | None => found
           end
       | None => found
       end)
    dicts None.

(** A dict has each of its keys once. *)
Definition keys_once (d : dict) : Prop := NoDup (map fst d).

Definition each_keys_once (d : option dict) : Prop :=
  match d with
  | Some d => keys_once d
  | None => True
  end.

(** The record [store_log_with_embedding] hands to the collection for an
    entry. *)
Definition stored_call (rt : Py.runtime) (log_entry : Ingestion.LogEntry)
           (parsed : LogParser.parsed_log) (embedding_id : string)
           (embedding : list spec_float) : VectorStore.added :=
  VectorStore.add_embedding_call rt embedding_id embedding
    (LogParser.normalized_text parsed)
    (Some (Ingestion.embedding_metadata log_entry parsed)).

(** The similar match made from the record of a stored entry with id
    [i]. *)
Definition stored_match (i : Z) (distance : spec_float)
           (parsed : LogParser.parsed_log) : dict :=
  [("id"%string, PStr (Py.str_of_int i));
   ("similarity"%string, PFloat (VectorStore.similarity_of distance));
   ("document"%string, PStr (LogParser.normalized_text parsed));
   ("service_name"%string, PStr (LogParser.service_name parsed));
   ("error_level"%string, PStr (LogParser.error_level parsed));
   ("error_message"%string, PStr ""%string)].

(** The texts a pattern matches; what its anchors ask of the surroundings
    is left aside. *)
Fixpoint matched (r : Re.regex) (m : list ascii) : Prop :=
  match r with
  | Re.Chr p => exists c, m = [c] /\ p c = true
  | Re.Rep p lo hi =>
      Forall (fun c => p c = true) m
      /\ lo <= List.length m
      /\ match hi with Some h => List.length m <= h | None => True end
  | Re.WordB | Re.LineStart | Re.Eps => m = []
  | Re.Cat r1 r2 =>
      exists a b, m = (a ++ b)%list /\ matched r1 a /\ matched r2 b
  | Re.Alt r1 r2 => matched r1 m \/ matched r2 m
  | Re.Opt r1 => m = [] \/ matched r1 m
  end.

(** A run of [lo] to [hi] characters of a class. *)
Definition run (p : ascii -> bool) (lo hi : nat) (m : list ascii) : Prop :=
  Forall (fun c => p c = true) m /\ lo <= List.length m <= hi.

(** [http://] or [https://] and at least one more character, none of them
    whitespace. *)
Definition url_shape (m : list ascii) : Prop :=
  (exists rest,
      rest <> []
      /\ (m = (chars "http://" ++ rest)%list
          \/ m = (chars "https://" ++ rest)%list))
  /\ Forall (fun c => PyStr.isspace c = false) m.

(** A local part, [@], a domain, a dot and two or more letters or bars. *)
Definition email_shape (m : list ascii) : Prop :=
  exists local domain tld,
    m = (local ++ "@"%char :: domain ++ "."%char :: tld)%list
    /\ local <> [] /\ domain <> [] /\ 2 <= List.length tld
    /\ Forall (fun c => Helpers.local_char c = true) local
    /\ Forall (fun c => Helpers.domain_char c = true) domain
    /\ Forall (fun c => Helpers.tld_char c = true) tld.

(** Four runs of one to three digits, with dots between them. *)
Definition ip_shape (m : list ascii) : Prop :=
  exists a b c d,
    m = (a ++ "."%char :: b ++ "."%char :: c ++ "."%char :: d)%list
    /\ run PyStr.isdigit 1 3 a /\ run PyStr.isdigit 1 3 b
    /\ run PyStr.isdigit 1 3 c /\ run PyStr.isdigit 1 3 d.

(** Runs of 8, 4, 4, 4 and 12 hexadecimal digits, with dashes between
    them. *)
Definition uuid_shape (m : list ascii) : Prop :=
  exists a b c d e,
    m = (a ++ "-"%char :: b ++ "-"%char :: c ++ "-"%char :: d
           ++ "-"%char :: e)%list
    /\ run TextCleaner.hex_i 8 8 a /\ run TextCleaner.hex_i 4 4 b
    /\ run TextCleaner.hex_i 4 4 c /\ run TextCleaner.hex_i 4 4 d
    /\ run TextCleaner.hex_i 12 12 e.

(* ================================================================== *)
(** * Properties *)
(* ================================================================== *)

Local Open Scope string_scope.

Unset Implicit Arguments.

(** ** Strings and their characters *)

Lemma chars_of_chars (l : list ascii) : chars (Str.of_chars l) = l.
Proof. apply list_ascii_of_string_of_list_ascii. Qed.

Lemma of_chars_chars (s : string) : Str.of_chars (chars s) = s.
Proof. apply string_of_list_ascii_of_string. Qed.

Lemma of_chars_app (a b : list ascii) :
  Str.of_chars (a ++ b)%list = Str.of_chars a ++ Str.of_chars b.
Proof.
  induction a as [|c a IH]; simpl; [reflexivity|].
  unfold Str.of_chars in *; simpl; now rewrite IH.
Qed.

Lemma length_of_chars (l : list ascii) :
  String.length (Str.of_chars l) = List.length l.
Proof.
  induction l as [|c l IH]; simpl; [reflexivity|].
  unfold Str.of_chars in *; simpl; now rewrite IH.
Qed.

Lemma nonempty_of_chars (l : list ascii) :
  Str.nonempty (Str.of_chars l) = match l with [] => false | _ => true end.
Proof. destruct l; reflexivity. Qed.

(** A slice [l[:n]] with [0 <= n <= len(l)] is the first [n] elements. *)
Lemma slice_prefix {A} (l : list A) (n : Z) :
  (0 <= n <= Z.of_nat (List.length l))%Z ->
  PyStr.slice l None (Some n) = firstn (Z.to_nat n) l.
Proof.
  intros Hn. unfold PyStr.slice, PyStr.clip.
  replace (n <? 0)%Z with false by (symmetry; apply Z.ltb_ge; lia).
  rewrite Z.min_r, Z.max_r by lia.
  now rewrite Nat.sub_0_r.
Qed.

(** ** The confidence clamp *)

Lemma flt_fle (a b : spec_float) : Py.flt a b = true -> Py.fle a b = true.
Proof.
  unfold Py.flt, Py.fle, SFltb, SFleb.
  destruct (SFcompare a b) as [[]|]; congruence.
Qed.

Lemma clamp_in_unit_interval (c : spec_float) :
  Spec.in_unit_interval (Py.max Py.float_zero (Py.min Py.float_one c)).
Proof.
  unfold Spec.in_unit_interval, Py.max, Py.min.
  destruct (Py.flt c Py.float_one) eqn:Hhi.
  - destruct (Py.flt Py.float_zero c) eqn:Hlo.
    + split; now apply flt_fle.
    + split; reflexivity.
  - split; reflexivity.
Qed.

(** A float in the unit interval is a zero or a positive finite number:
    neither NaN nor an infinity. *)
Lemma in_unit_interval_finite (f : spec_float) :
  Spec.in_unit_interval f ->
  match f with
  | S754_zero _ | S754_finite false _ _ => True
  | _ => False
  end.
Proof.
  unfold Spec.in_unit_interval. intros [Hlo Hhi].
  destruct f as [[]|[]| |[] m e]; try exact I; discriminate.
Qed.

Lemma validate_in_unit_interval (rt : Py.runtime) (v : pyval)
      (r : RAGEngine.resolution) :
  RAGEngine.validate rt v = Ok r ->
  Spec.in_unit_interval (RAGEngine.confidence r).
Proof.
  unfold RAGEngine.validate. destruct (Py.as_dict v) as [d|e]; simpl;
    [|discriminate].
  destruct (Py.float rt _) as [c|e]; simpl; [|discriminate].
  intros H; injection H as <-; simpl. apply clamp_in_unit_interval.
Qed.

(** An absent confidence is read as 0.5. *)
Lemma validate_absent_confidence (rt : Py.runtime) (d : dict) :
  Py.lookup "confidence" d = None ->
  exists r, RAGEngine.validate rt (PDict d) = Ok r
            /\ RAGEngine.confidence r = Py.float_half.
Proof.
  intros H. unfold RAGEngine.validate, Py.as_dict, bind, Py.get.
  rewrite H; simpl. eexists; split; reflexivity.
Qed.

(** A confidence that is a non-numeric string makes the validation
    raise. *)
Lemma validate_non_numeric_confidence (rt : Py.runtime) (d : dict)
      (s : string) :
  Py.lookup "confidence" d = Some (PStr s) ->
  Py.float_of_str rt s = None ->
  RAGEngine.validate rt (PDict d) = Raise ValueError.
Proof.
  intros H Hs. unfold RAGEngine.validate, Py.as_dict, bind, Py.get.
  rewrite H; simpl. now rewrite Hs.
Qed.

(** In the line scan, a confidence line that is not a number leaves the
    confidence as it was. *)
Lemma scan_line_non_numeric (rt : Py.runtime) (st : RAGEngine.scan)
      (line : string) :
  Py.float_of_str rt (Str.strip (last (Str.split ":" None line) "")) = None ->
  RAGEngine.s_confidence (RAGEngine.scan_line rt st line)
  = RAGEngine.s_confidence st.
Proof.
  intros H. unfold RAGEngine.scan_line; cbv zeta.
  destruct (Str.contains "root cause" _); [reflexivity|].
  destruct (Str.contains "fix" _ || Str.contains "solution" _);
    [reflexivity|].
  destruct (Str.contains "confidence" _).
  - now rewrite H.
  - destruct (RAGEngine.current_section st) as [[]|];
      try destruct (Str.nonempty _); reflexivity.
Qed.

(** C1. Whatever the completion returns, a resolution that
    [generate_resolution] returns (rather than raising) has its confidence
    in the closed interval from 0 to 1. *)
Theorem generate_resolution_confidence_in_unit_interval
        (rt : Py.runtime) (cfg : settings) (env : capabilities)
        (error_message : string) (similar_logs : list dict)
        (context : option string) (evs : list event)
        (r : RAGEngine.resolution) :
  RAGEngine.generate_resolution rt cfg env error_message similar_logs context
  = (evs, Ok r) ->
  Spec.in_unit_interval (RAGEngine.confidence r).
Proof.
  unfold RAGEngine.generate_resolution.
  destruct (RAGEngine._build_prompt _ _ _ _) as [prompt|e]; [|discriminate].
  intros H; injection H as _ H.
  destruct (complete env _) as [|[|[content|] rest]]; try discriminate.
  destruct (Str.nonempty content); [|discriminate].
  destruct (RAGEngine.parse_response rt _) as [v|e]; simpl in H;
    [|discriminate].
  destruct (RAGEngine.validate rt v) as [r'|e] eqn:Hv; simpl in H;
    [|discriminate].
  injection H as <-. exact (validate_in_unit_interval _ _ _ Hv).
Qed.

Lemma generate_resolution_confidence_in_unit_interval_witness :
  exists r,
    snd (RAGEngine.generate_resolution Sample.runtime default_settings
           (Sample.index Sample.pool_response) "Connection pool exhausted"
           [] None) = Ok r
    /\ RAGEngine.confidence r = Py.float_one
    /\ Spec.in_unit_interval (RAGEngine.confidence r).
Proof.
  eexists. split; [vm_compute; reflexivity|]. split; [reflexivity|].
  eapply (generate_resolution_confidence_in_unit_interval
            Sample.runtime default_settings
            (Sample.index Sample.pool_response) "Connection pool exhausted"
            [] None).
  vm_compute; reflexivity.
Defined.

(** C2. When the completion parses to a dict whose confidence is a string
    that [float] rejects (such as the JSON string [high]), the JSON path
    does not fall back to 0.5: [generate_resolution] fails with
    [RAGError]. *)
Theorem generate_resolution_non_numeric_confidence_raises
        (rt : Py.runtime) (cfg : settings) (env : capabilities)
        (error_message : string) (similar_logs : list dict)
        (context : option string) (prompt content : string)
        (others : list (option string)) (d : dict) (s : string) :
  RAGEngine._build_prompt rt error_message similar_logs context = Ok prompt ->
  complete env (RAGEngine.truncate_prompt (max_context_length cfg) prompt)
  = Completion (Some content :: others) ->
  Str.nonempty content = true ->
  RAGEngine.parse_response rt (Str.strip content) = Ok (PDict d) ->
  Py.lookup "confidence" d = Some (PStr s) ->
  Py.float_of_str rt s = None ->
  snd (RAGEngine.generate_resolution rt cfg env error_message similar_logs
         context)
  = Raise RAGError.
Proof.
  intros Hb Hc Hne Hp Hd Hs. unfold RAGEngine.generate_resolution.
  rewrite Hb. cbn [snd]. rewrite Hc, Hne, Hp. cbn [bind].
  now rewrite (validate_non_numeric_confidence rt d s Hd Hs).
Qed.

Lemma generate_resolution_non_numeric_confidence_raises_witness :
  Py.json_loads Sample.runtime Sample.high_response
  = Ok (PDict [("root_cause", PStr "Pool too small");
               ("recommended_fix", PStr "Increase pool size");
               ("confidence", PStr "high")])
  /\ snd (RAGEngine.generate_resolution Sample.runtime default_settings
            (Sample.index Sample.high_response) "Connection pool exhausted"
            [] None)
     = Raise RAGError.
Proof.
  split; [vm_compute; reflexivity|].
  eapply (generate_resolution_non_numeric_confidence_raises
            Sample.runtime default_settings
            (Sample.index Sample.high_response) "Connection pool exhausted"
            [] None _ Sample.high_response [] _ "high");
    vm_compute; reflexivity.
Defined.

(** ** The prompt sent to the completion client *)



(** ** [extract_error_message] *)

Lemma split_go_not_nil (sep : list ascii) (limit : option nat)
      (s : list ascii) (skip : nat) (cur : list ascii) :
  PyStr.split_go sep limit s skip cur <> [].
Proof.
  revert limit skip cur.
  induction s as [|c s IH]; intros limit skip cur; simpl; [discriminate|].
  destruct skip; [|apply IH].
  destruct limit as [[|n]|]; try apply IH;
    destruct (PyStr.starts_with sep (c :: s)); try discriminate; apply IH.
Qed.

(** [str.split] never returns the empty list, so the final [return] of
    [extract_error_message], which truncates the raw input, is never
    reached: the message is always the first line of the cleaned text. *)
Lemma extract_message_first_line (text : list ascii) (max_length : Z) :
  exists first rest,
    PyStr.split (chars Str.nl) None
      (PyStr.strip (TextCleaner.remove_prefixes text))
    = first :: rest
    /\ TextCleaner.extract_message text max_length
       = if (PyStr.len (PyStr.strip first) >? max_length)%Z
         then (PyStr.slice (PyStr.strip first) None (Some max_length)
               ++ chars "...")%list
         else PyStr.strip first.
Proof.
  unfold TextCleaner.extract_message.
  change (chars (String "010" "")) with (chars Str.nl).
  destruct (PyStr.split _ _ _) as [|first rest] eqn:Hs.
  - exfalso. revert Hs. apply split_go_not_nil.
  - exists first, rest. split; reflexivity.
Qed.

(** C9. For a text from which prefix stripping leaves no line (the
    cleaned text is empty once trimmed), [extract_error_message] returns the
    empty message, not the raw input truncated to [max_length]. *)
Theorem extract_error_message_empty_when_nothing_survives
        (text : string) (max_length : Z) :
  (0 <= max_length)%Z ->
  PyStr.strip (TextCleaner.remove_prefixes (chars text)) = [] ->
  TextCleaner.extract_error_message text max_length = "".
Proof.
  intros Hmax Hnone.
  unfold TextCleaner.extract_error_message, TextCleaner.extract_message.
  rewrite Hnone.
  change (PyStr.split (chars (String "010" "")) None []) with [@nil ascii].
  cbv iota zeta.
  change (PyStr.len (PyStr.strip [])) with 0%Z.
  replace (0 >? max_length)%Z with false
    by (symmetry; rewrite Z.gtb_ltb; apply Z.ltb_ge; lia).
  reflexivity.
Qed.

Lemma extract_error_message_empty_when_nothing_survives_witness :
  TextCleaner.extract_error_message "ERROR " 500 = ""
  /\ TextCleaner.extract_error_message "ERROR " 500 <> "ERROR ".
Proof.
  split.
  - apply (extract_error_message_empty_when_nothing_survives "ERROR " 500);
      [lia | vm_compute; reflexivity].
  - vm_compute; discriminate.
Defined.

(** ** [format_retrieval_results] *)

Lemma format_one_ok (rt : Py.runtime) (hit : dict) (exclude_id : pyval) :
  Spec.metadata_is_dict hit ->
  Retriever.format_one rt hit exclude_id
  = Ok (if Spec.skipped rt exclude_id hit then None
        else Some (Spec.similar_match hit)).
Proof.
  unfold Spec.metadata_is_dict, Retriever.format_one, Spec.skipped,
    Spec.similar_match, Spec.resolved_id, Spec.embedded_log_id,
    Spec.metadata_of, Py.get at 1.
  destruct (Py.lookup "log_metadata" hit) as [[| | | | | |m]|]; simpl;
    intros H; try contradiction;
    match goal with |- context [if ?b then _ else _] => destruct b end;
    reflexivity.
Qed.

Lemma format_one_dict (rt : Py.runtime) (hit : dict) (exclude_id : pyval)
      (e : option dict) :
  Retriever.format_one rt hit exclude_id = Ok e -> Spec.metadata_is_dict hit.
Proof.
  unfold Spec.metadata_is_dict, Retriever.format_one, Py.get at 1.
  destruct (Py.lookup "log_metadata" hit) as [[| | | | | |m]|]; simpl;
    intros H; try discriminate; exact I.
Qed.

Lemma format_loop_ok (rt : Py.runtime) (exclude_id : pyval)
      (results : list dict) :
  Forall Spec.metadata_is_dict results ->
  forall formatted,
    Retriever.format_loop rt results exclude_id formatted
    = Ok (formatted
          ++ map Spec.similar_match
               (filter (fun hit => negb (Spec.skipped rt exclude_id hit))
                  results))%list.
Proof.
  induction 1 as [|hit results Hhit _ IH]; intros formatted; simpl.
  - now rewrite app_nil_r.
  - rewrite (format_one_ok rt hit exclude_id Hhit). simpl.
    destruct (Spec.skipped rt exclude_id hit); simpl.
    + apply IH.
    + rewrite IH, <- app_assoc. reflexivity.
Qed.

Lemma format_loop_dicts (rt : Py.runtime) (exclude_id : pyval)
      (results : list dict) :
  forall formatted out,
    Retriever.format_loop rt results exclude_id formatted = Ok out ->
    Forall Spec.metadata_is_dict results.
Proof.
  induction results as [|hit results IH]; intros formatted out; simpl.
  - constructor.
  - destruct (Retriever.format_one rt hit exclude_id) as [e|x] eqn:He;
      simpl; [|discriminate].
    intros H. constructor.
    + exact (format_one_dict _ _ _ _ He).
    + destruct e; exact (IH _ _ H).
Qed.

(** C5, as stated, fails: three hits that carry only the record ids "2",
    "7" and "9" of the index are all kept with [exclude_id] "7", although
    the resolved id of the second string-equals it. *)
Lemma format_retrieval_results_keeps_hit_without_embedded_id :
  exists out,
    Retriever.format_retrieval_results Sample.runtime
      [Sample.bare_hit "2"; Sample.bare_hit "7"; Sample.bare_hit "9"]
      (PStr "7") = Ok out
    /\ ids_of out = [PStr "2"; PStr "7"; PStr "9"]
    /\ ids_of (Spec.format_results Sample.runtime
                 [Sample.bare_hit "2"; Sample.bare_hit "7";
                  Sample.bare_hit "9"] (PStr "7"))
       = [PStr "2"; PStr "9"].
Proof. eexists; repeat split; vm_compute; reflexivity. Qed.

(** C5, amended. For raw hits whose metadata is a dict (or absent),
    [format_retrieval_results] returns, in the original order, the similar
    matches of exactly the hits it does not skip; it skips a hit when
    [exclude_id] and the log id embedded in the hit's metadata are both
    truthy and string-equal. *)
Theorem format_retrieval_results_filters_embedded_log_id
        (rt : Py.runtime) (results : list dict) (exclude_id : pyval) :
  Forall Spec.metadata_is_dict results ->
  Retriever.format_retrieval_results rt results exclude_id
  = Ok (map Spec.similar_match
          (filter (fun hit => negb (Spec.skipped rt exclude_id hit))
             results)).
Proof.
  intros H. unfold Retriever.format_retrieval_results.
  now rewrite (format_loop_ok rt exclude_id results H).
Qed.

Lemma format_retrieval_results_filters_embedded_log_id_witness :
  Forall Spec.metadata_is_dict (firstn 3 Sample.hits)
  /\ ids_of (map Spec.similar_match
               (filter (fun hit =>
                          negb (Spec.skipped Sample.runtime (PStr "7") hit))
                  (firstn 3 Sample.hits)))
     = [PStr "2"; PStr "9"]
  /\ Retriever.format_retrieval_results Sample.runtime
       (firstn 3 Sample.hits) (PStr "7")
     = Ok (map Spec.similar_match
             (filter (fun hit =>
                        negb (Spec.skipped Sample.runtime (PStr "7") hit))
                (firstn 3 Sample.hits))).
Proof.
  assert (H : Forall Spec.metadata_is_dict (firstn 3 Sample.hits))
    by (repeat constructor).
  split; [exact H|]. split; [vm_compute; reflexivity|].
  exact (format_retrieval_results_filters_embedded_log_id
           Sample.runtime (firstn 3 Sample.hits) (PStr "7") H).
Defined.

Lemma skipped_needs_both (rt : Py.runtime) (exclude_id : pyval) (hit : dict) :
  Py.truthy exclude_id = false \/ Py.truthy (Spec.embedded_log_id hit) = false ->
  Spec.skipped rt exclude_id hit = false.
Proof.
  unfold Spec.skipped. intros [H|H]; rewrite H; simpl; [reflexivity|].
  now rewrite andb_false_r.
Qed.

(** C10. [format_retrieval_results] excludes a hit only when [exclude_id]
    and the log id embedded in the hit's metadata are both truthy: with a
    falsy [exclude_id] (such as 0) every hit is kept, and a hit without an
    embedded log id is kept whatever [exclude_id] and its own record id
    are. *)
Theorem format_retrieval_results_excludes_only_when_both_truthy
        (rt : Py.runtime) (results : list dict) (exclude_id : pyval)
        (out : list dict) :
  Retriever.format_retrieval_results rt results exclude_id = Ok out ->
  (Py.truthy exclude_id = false -> out = map Spec.similar_match results)
  /\ (forall hit,
         In hit results ->
         Py.truthy (Spec.embedded_log_id hit) = false ->
         In (Spec.similar_match hit) out).
Proof.
  intros H.
  pose proof (format_loop_dicts _ _ _ _ _ H) as Hd.
  unfold Retriever.format_retrieval_results in H.
  rewrite (format_loop_ok rt exclude_id results Hd []) in H.
  injection H as <-. split.
  - intros Hex. f_equal.
    rewrite <- (filter_true results) at 2. apply filter_ext. intros hit.
    rewrite skipped_needs_both; auto.
  - intros hit Hin Hid. apply in_map, filter_In. split; [exact Hin|].
    rewrite skipped_needs_both; auto.
Qed.

Lemma format_retrieval_results_excludes_only_when_both_truthy_witness :
  exists out,
    Retriever.format_retrieval_results Sample.runtime
      [Sample.bare_hit "7"; Sample.hit "7" "connection pool exhausted"]
      (PInt 7) = Ok out
    /\ ids_of out = [PStr "7"]
    /\ In (Spec.similar_match (Sample.bare_hit "7")) out.
Proof.
  eexists. split; [vm_compute; reflexivity|]. split; [reflexivity|].
  refine (proj2 (format_retrieval_results_excludes_only_when_both_truthy
                   Sample.runtime
                   [Sample.bare_hit "7";
                    Sample.hit "7" "connection pool exhausted"]
                   (PInt 7) _ _) (Sample.bare_hit "7") _ _).
  - vm_compute; reflexivity.
  - left; reflexivity.
  - reflexivity.
Defined.

(** With [exclude_id] 0 nothing is excluded, not even a hit whose embedded
    log id is "0". *)
Lemma format_retrieval_results_exclude_zero :
  exists out,
    Retriever.format_retrieval_results Sample.runtime
      [Sample.hit "0" "connection refused"; Sample.hit "7" "disk full"]
      (PInt 0) = Ok out
    /\ ids_of out = [PStr "0"; PStr "7"].
Proof. eexists; split; vm_compute; reflexivity. Qed.

(** ** [resolve_log_entry] *)

(** A slice [l[:n]] with [0 <= n] is the first [n] elements (all of them
    when there are fewer). *)
Lemma slice_upto {A} (l : list A) (n : Z) :
  (0 <= n)%Z -> PyStr.slice l None (Some n) = firstn (Z.to_nat n) l.
Proof.
  intros Hn.
  destruct (Z_le_gt_dec n (Z.of_nat (List.length l))) as [Hle|Hgt].
  - apply slice_prefix; lia.
  - unfold PyStr.slice, PyStr.clip.
    replace (n <? 0)%Z with false by (symmetry; apply Z.ltb_ge; lia).
    rewrite Z.min_l, Z.max_r, Nat2Z.id, Nat.sub_0_r by lia.
    simpl. rewrite !firstn_all2; [reflexivity| lia | lia].
Qed.

(** What a successful retrieval for an entry did: it asked the index for
    [top_k + 1] hits, formatted them leaving the entry's own id out, and
    sliced the result at [top_k]. *)
Lemma retrieve_for_entry_ok (rt : Py.runtime) (cfg : settings)
      (env : capabilities) (log_entry : Resolver.LogEntry) (top_k : Z)
      (evs : list event) (similar_logs : list dict) :
  Resolver.retrieve_for_entry rt cfg env log_entry top_k
  = (evs, Ok similar_logs) ->
  (0 <= top_k)%Z ->
  exists embedding hits formatted,
    In (Queried (top_k + 1)) evs
    /\ query_similar env embedding (top_k + 1) = Ok hits
    /\ Retriever.format_retrieval_results rt hits
         (PInt (Resolver.id log_entry)) = Ok formatted
    /\ similar_logs = firstn (Z.to_nat top_k) formatted.
Proof.
  intros H Hk. unfold Resolver.retrieve_for_entry in H.
  unfold Retriever.retrieve_similar_logs in H.
  replace (top_k + 1 =? 0)%Z with false in H
    by (symmetry; apply Z.eqb_neq; lia).
  destruct (generate_embedding env _) as [embedding|e]; [|discriminate].
  destruct (query_similar env embedding (top_k + 1)) as [hits|e] eqn:Hq;
    [|discriminate].
  injection H as <- H. simpl in H.
  destruct (Retriever.format_retrieval_results rt hits _) as [formatted|e]
    eqn:Hf; simpl in H; [|discriminate].
  injection H as <-.
  exists embedding, hits, formatted.
  split; [right; left; reflexivity|].
  split; [exact Hq|]. split; [exact Hf|].
  now apply slice_upto.
Qed.

(** The similar logs of a result are those of the retrieval step. *)
Lemma resolve_log_entry_similar_logs (rt : Py.runtime) (S : Type)
      (db : Resolver.session S) (cfg : settings) (env : capabilities)
      (log_entry : Resolver.LogEntry) (top_k : Z) (db_session : option S)
      (after : option S) (evs : list event) (r : Resolver.result) :
  Resolver.resolve_log_entry rt db cfg env log_entry top_k db_session
  = (after, evs, Ok r) ->
  exists evs1 evs2,
    evs = (evs1 ++ evs2)%list
    /\ Resolver.retrieve_for_entry rt cfg env log_entry top_k
       = (evs1, Ok (Resolver.r_similar_logs r)).
Proof.
  unfold Resolver.resolve_log_entry.
  destruct (Resolver.retrieve_for_entry rt cfg env log_entry top_k)
    as [evs1 [similar_logs|e]]; [|discriminate].
  destruct (RAGEngine.generate_resolution _ _ _ _ _ _)
    as [evs2 [resolution|e]]; [|discriminate].
  destruct (Resolver.persist _ _ _) as [after' [rid|e]]; [|discriminate].
  intros H; injection H as _ <- <-. simpl.
  exists evs1, evs2. split; reflexivity.
Qed.

(** C4. A successful [resolve_log_entry] with [top_k >= 0] returns at most
    [top_k] similar logs: it asked the index for [top_k + 1] hits, formatted
    them with the entry's own id excluded, and kept the first [top_k]. *)
Theorem resolve_log_entry_similar_logs_bounded
        (rt : Py.runtime) (S : Type) (db : Resolver.session S)
        (cfg : settings) (env : capabilities)
        (log_entry : Resolver.LogEntry) (top_k : Z) (db_session : option S)
        (after : option S) (evs : list event) (r : Resolver.result) :
  Resolver.resolve_log_entry rt db cfg env log_entry top_k db_session
  = (after, evs, Ok r) ->
  (0 <= top_k)%Z ->
  (Z.of_nat (List.length (Resolver.r_similar_logs r)) <= top_k)%Z
  /\ In (Queried (top_k + 1)) evs
  /\ exists embedding hits formatted,
       query_similar env embedding (top_k + 1) = Ok hits
       /\ Retriever.format_retrieval_results rt hits
            (PInt (Resolver.id log_entry)) = Ok formatted
       /\ Resolver.r_similar_logs r = firstn (Z.to_nat top_k) formatted.
Proof.
  intros H Hk.
  destruct (resolve_log_entry_similar_logs _ _ _ _ _ _ _ _ _ _ _ H)
    as (evs1 & evs2 & -> & Hr).
  destruct (retrieve_for_entry_ok _ _ _ _ _ _ _ Hr Hk)
    as (embedding & hits & formatted & Hin & Hq & Hf & Hs).
  split; [|split].
  - rewrite Hs, length_firstn. lia.
  - apply in_or_app; now left.
  - now exists embedding, hits, formatted.
Qed.

Lemma resolve_log_entry_similar_logs_bounded_witness :
  exists after evs r,
    Resolver.resolve_log_entry Sample.runtime (Sample.session false)
      default_settings (Sample.index Sample.pool_response) Sample.entry 2
      (Some (3%nat, [])) = (after, evs, Ok r)
    /\ ids_of (Resolver.r_similar_logs r) = [PStr "2"; PStr "9"]
    /\ (Z.of_nat (List.length (Resolver.r_similar_logs r)) <= 2)%Z.
Proof.
  eexists _, _, _. split; [vm_compute; reflexivity|].
  split; [reflexivity|].
  refine (proj1 (resolve_log_entry_similar_logs_bounded
                   Sample.runtime _ (Sample.session false) default_settings
                   (Sample.index Sample.pool_response) Sample.entry 2
                   (Some (3%nat, [])) _ _ _ _ _)).
  - vm_compute; reflexivity.
  - lia.
Defined.

(** C3, as stated, fails: in this call retrieval and generation succeed
    and storing the record raises (in [commit]), but [rollback] raises as
    well; that exception leaves the inner handler, the outer one turns it
    into [RAGError], and the computed resolution is not returned. *)
Lemma resolve_log_entry_rollback_raises :
  snd (Resolver.retrieve_for_entry Sample.runtime default_settings
         (Sample.index Sample.pool_response) Sample.entry 2)
  = Ok (firstn 2 (Spec.format_results Sample.runtime
                    (firstn 3 Sample.hits) (PStr "7")))
  /\ snd (RAGEngine.generate_resolution Sample.runtime default_settings
            (Sample.index Sample.pool_response) "Connection pool exhausted"
            (firstn 2 (Spec.format_results Sample.runtime
                         (firstn 3 Sample.hits) (PStr "7")))
            (Some "Service: payments-api, Level: ERROR"))
     = Ok {| RAGEngine.root_cause := PStr "Pool too small";
             RAGEngine.recommended_fix := PList [PStr "Increase pool size"];
             RAGEngine.confidence := Py.float_one |}
  /\ snd (Resolver.store Sample.dead_session
            (Resolver.new_record Sample.runtime Sample.entry 2
               {| RAGEngine.root_cause := PStr "Pool too small";
                  RAGEngine.recommended_fix :=
                    PList [PStr "Increase pool size"];
                  RAGEngine.confidence := Py.float_one |}
               ["Increase pool size"]
               (firstn 2 (Spec.format_results Sample.runtime
                            (firstn 3 Sample.hits) (PStr "7"))))
            (3%nat, []))
     = Raise ExternalError
  /\ snd (Resolver.rollback Sample.dead_session
            (fst (Resolver.store Sample.dead_session
                    (Resolver.new_record Sample.runtime Sample.entry 2
                       {| RAGEngine.root_cause := PStr "Pool too small";
                          RAGEngine.recommended_fix :=
                            PList [PStr "Increase pool size"];
                          RAGEngine.confidence := Py.float_one |}
                       ["Increase pool size"]
                       (firstn 2 (Spec.format_results Sample.runtime
                                    (firstn 3 Sample.hits) (PStr "7"))))
                    (3%nat, []))))
     = Raise ExternalError
  /\ Resolver.resolve_log_entry Sample.runtime Sample.dead_session
       default_settings (Sample.index Sample.pool_response) Sample.entry 2
       (Some (3%nat, []))
     = (Some (3%nat,
              [Resolver.new_record Sample.runtime Sample.entry 2
                 {| RAGEngine.root_cause := PStr "Pool too small";
                    RAGEngine.recommended_fix :=
                      PList [PStr "Increase pool size"];
                    RAGEngine.confidence := Py.float_one |}
                 ["Increase pool size"]
                 (firstn 2 (Spec.format_results Sample.runtime
                              (firstn 3 Sample.hits) (PStr "7")))]),
        ([Embedded "connection pool exhausted"; Queried 3]
         ++ fst (RAGEngine.generate_resolution Sample.runtime
                   default_settings (Sample.index Sample.pool_response)
                   "Connection pool exhausted"
                   (firstn 2 (Spec.format_results Sample.runtime
                                (firstn 3 Sample.hits) (PStr "7")))
                   (Some "Service: payments-api, Level: ERROR")))%list,
        Raise RAGError).
Proof. repeat split; vm_compute; reflexivity. Qed.

(** C3, amended. When retrieval and generation succeed, storing the
    resolution record raises (in [add], [commit] or [refresh]) and the
    rollback that follows returns, the session is the rolled-back one and
    [resolve_log_entry] still returns the computed resolution, with
    [resolution_id] [None]. *)
Theorem resolve_log_entry_absorbs_persistence_failure
        (rt : Py.runtime) (S : Type) (db : Resolver.session S)
        (cfg : settings) (env : capabilities)
        (log_entry : Resolver.LogEntry) (top_k : Z) (s s' s'' : S)
        (evs evs' : list event) (similar_logs : list dict)
        (resolution : RAGEngine.resolution) (e : exn) :
  Resolver.retrieve_for_entry rt cfg env log_entry top_k
  = (evs, Ok similar_logs) ->
  RAGEngine.generate_resolution rt cfg env (Resolver.error_message log_entry)
    similar_logs (Some (Resolver.context_line log_entry))
  = (evs', Ok resolution) ->
  Resolver.store db
    (Resolver.new_record rt log_entry top_k resolution
       (Resolver._normalize_recommended_fix rt
          (RAGEngine.recommended_fix resolution))
       similar_logs) s
  = (s', Raise e) ->
  Resolver.rollback db s' = (s'', Ok tt) ->
  exists r,
    Resolver.resolve_log_entry rt db cfg env log_entry top_k (Some s)
    = (Some s'', (evs ++ evs')%list, Ok r)
    /\ Resolver.resolution_id r = None
    /\ Resolver.r_root_cause r = RAGEngine.root_cause resolution
    /\ Resolver.r_recommended_fix r
       = Resolver._normalize_recommended_fix rt
           (RAGEngine.recommended_fix resolution)
    /\ Resolver.r_confidence r = RAGEngine.confidence resolution
    /\ Resolver.r_similar_logs r = similar_logs.
Proof.
  intros Hr Hg Hs Hb.
  unfold Resolver.resolve_log_entry. rewrite Hr, Hg.
  unfold Resolver.persist. rewrite Hs, Hb.
  eexists. split; [reflexivity|]. repeat split.
Qed.

Lemma resolve_log_entry_absorbs_persistence_failure_witness :
  exists r,
    Resolver.resolve_log_entry Sample.runtime (Sample.session true)
      default_settings (Sample.index Sample.pool_response) Sample.entry 2
      (Some (3%nat, []))
    = (Some (3%nat, []),
       ([Embedded "connection pool exhausted"; Queried 3]
        ++ fst (RAGEngine.generate_resolution Sample.runtime default_settings
                  (Sample.index Sample.pool_response)
                  "Connection pool exhausted"
                  (firstn 2 (Spec.format_results Sample.runtime
                               (firstn 3 Sample.hits) (PStr "7")))
                  (Some "Service: payments-api, Level: ERROR")))%list,
       Ok r)
    /\ Resolver.resolution_id r = None
    /\ Resolver.r_root_cause r = PStr "Pool too small"
    /\ Resolver.r_recommended_fix r = ["Increase pool size"]
    /\ Resolver.r_confidence r = Py.float_one
    /\ ids_of (Resolver.r_similar_logs r) = [PStr "2"; PStr "9"].
Proof.
  destruct (resolve_log_entry_absorbs_persistence_failure
              Sample.runtime Sample.store_state (Sample.session true)
              default_settings (Sample.index Sample.pool_response)
              Sample.entry 2 (3%nat, [])
              (3%nat,
               [Resolver.new_record Sample.runtime Sample.entry 2
                  {| RAGEngine.root_cause := PStr "Pool too small";
                     RAGEngine.recommended_fix :=
                       PList [PStr "Increase pool size"];
                     RAGEngine.confidence := Py.float_one |}
                  ["Increase pool size"]
                  (firstn 2 (Spec.format_results Sample.runtime
                               (firstn 3 Sample.hits) (PStr "7")))])
              (3%nat, [])
              [Embedded "connection pool exhausted"; Queried 3]
              (fst (RAGEngine.generate_resolution Sample.runtime
                      default_settings (Sample.index Sample.pool_response)
                      "Connection pool exhausted"
                      (firstn 2 (Spec.format_results Sample.runtime
                                   (firstn 3 Sample.hits) (PStr "7")))
                      (Some "Service: payments-api, Level: ERROR")))
              (firstn 2 (Spec.format_results Sample.runtime
                           (firstn 3 Sample.hits) (PStr "7")))
              {| RAGEngine.root_cause := PStr "Pool too small";
                 RAGEngine.recommended_fix :=
                   PList [PStr "Increase pool size"];
                 RAGEngine.confidence := Py.float_one |}
              ExternalError)
    as (r & Hr & Hid & Hrc & Hfix & Hc & Hl);
    try (vm_compute; reflexivity).
  exists r. split; [exact Hr|]. rewrite Hid, Hrc, Hfix, Hc, Hl.
  repeat split; vm_compute; reflexivity.
Defined.

(** With a negative [top_k] the slice drops hits from the end instead, and
    the bound of C4 has no meaning. *)
Lemma resolve_log_entry_negative_top_k :
  exists r,
    snd (Resolver.resolve_log_entry Sample.runtime (Sample.session false)
           default_settings (Sample.index Sample.pool_response) Sample.entry
           (-1) (Some (3%nat, []))) = Ok r
    /\ List.length (Resolver.r_similar_logs r) = 2%nat.
Proof. eexists; split; vm_compute; reflexivity. Qed.

(** ** [_normalize_recommended_fix] *)

Lemma filter_after_map {A B} (f : A -> B) (p : B -> bool) (l : list A) :
  map f (filter (fun x => p (f x)) l) = filter p (map f l).
Proof.
  induction l as [|x l IH]; simpl; [reflexivity|].
  destruct (p (f x)); simpl; now rewrite IH.
Qed.

(** Where [f] and [g] agree on the elements of a list, and [p] holds of an
    element when [q] holds of its image, mapping the filtered list is
    filtering the mapped one. *)
Lemma map_filter_agree {A B} (f g : A -> B) (p : A -> bool) (q : B -> bool)
      (l : list A) :
  (forall x, In x l -> f x = g x /\ p x = q (g x)) ->
  map f (filter p l) = filter q (map g l).
Proof.
  induction l as [|x l IH]; intros H; simpl; [reflexivity|].
  destruct (H x (or_introl eq_refl)) as [Hf Hp].
  rewrite Hp. destruct (q (g x)); simpl.
  - rewrite Hf, IH; [reflexivity|]. intros y Hy. apply H. now right.
  - apply IH. intros y Hy. apply H. now right.
Qed.

(** Induction on a list two elements at a time. *)
Lemma list_pair_ind {A} (P : list A -> Prop) :
  P [] ->
  (forall c, P [c]) ->
  (forall c d s, P s -> P (d :: s) -> P (c :: d :: s)) ->
  forall s, P s.
Proof.
  intros Hnil Hone Hstep s.
  assert (H : P s /\ P (tl s)).
  { induction s as [|c s [IH1 IH2]]; [now split|].
    split; [|exact IH1].
    destruct s as [|d s]; [apply Hone | now apply Hstep]. }
  exact (proj1 H).
Qed.

(** *** Latin-1 strings among the texts of any characters *)

Lemma isspace_code (c : ascii) : Uni.isspace (PyStr.code c) = PyStr.isspace c.
Proof. destruct c as [[] [] [] [] [] [] [] []]; reflexivity. Qed.

Lemma is_linebreak_code (c : ascii) :
  Uni.is_linebreak (PyStr.code c) = PyStr.is_linebreak c.
Proof. destruct c as [[] [] [] [] [] [] [] []]; reflexivity. Qed.

Lemma dropwhile_code (p : N -> bool) (s : list ascii) :
  Uni.of_chars (PyStr.dropwhile (fun c => p (PyStr.code c)) s)
  = Uni.dropwhile p (Uni.of_chars s).
Proof.
  induction s as [|c s IH]; simpl; [reflexivity|].
  destruct (p (PyStr.code c)); [exact IH | reflexivity].
Qed.

Lemma strip_by_code (p : N -> bool) (s : list ascii) :
  Uni.of_chars (PyStr.strip_by (fun c => p (PyStr.code c)) s)
  = Uni.strip_by p (Uni.of_chars s).
Proof.
  unfold PyStr.strip_by, PyStr.rstrip_by, PyStr.lstrip_by, Uni.strip_by,
    Uni.rstrip_by, Uni.lstrip_by.
  rewrite <- (dropwhile_code p s).
  unfold Uni.of_chars at 1. rewrite map_rev. f_equal.
  fold (Uni.of_chars
          (PyStr.dropwhile (fun c => p (PyStr.code c))
             (rev (PyStr.dropwhile (fun c => p (PyStr.code c)) s)))).
  rewrite dropwhile_code. f_equal.
  unfold Uni.of_chars. now rewrite map_rev.
Qed.

Lemma pystr_dropwhile_ext (p q : ascii -> bool) (s : list ascii) :
  (forall c, p c = q c) -> PyStr.dropwhile p s = PyStr.dropwhile q s.
Proof.
  intros H. induction s as [|c s IH]; simpl; [reflexivity|].
  rewrite H, IH. reflexivity.
Qed.

Lemma strip_code (s : list ascii) :
  Uni.of_chars (PyStr.strip s) = Uni.strip (Uni.of_chars s).
Proof.
  unfold Uni.strip. rewrite <- strip_by_code.
  unfold PyStr.strip, PyStr.strip_by, PyStr.rstrip_by, PyStr.lstrip_by.
  rewrite !(pystr_dropwhile_ext PyStr.isspace
              (fun c => Uni.isspace (PyStr.code c)))
    by (intros c; symmetry; apply isspace_code).
  reflexivity.
Qed.

Lemma splitlines_go_code (s : list ascii) :
  forall cur,
    map Uni.of_chars (PyStr.splitlines_go s cur)
    = Uni.splitlines_go (Uni.of_chars s) (Uni.of_chars cur).
Proof.
  unfold Uni.of_chars.
  induction s as [|c|c d s IH1 IH2] using list_pair_ind; intros cur.
  - destruct cur as [|x cur]; [reflexivity|].
    cbn [PyStr.splitlines_go Uni.splitlines_go map]. f_equal.
    exact (map_rev PyStr.code (x :: cur)).
  - cbn [PyStr.splitlines_go map Uni.splitlines_go].
    rewrite is_linebreak_code.
    destruct (PyStr.is_linebreak c).
    + cbn [map]. f_equal. apply map_rev.
    + cbn [map]. f_equal. exact (map_rev PyStr.code (c :: cur)).
  - cbn [PyStr.splitlines_go map Uni.splitlines_go].
    rewrite is_linebreak_code.
    destruct (PyStr.is_linebreak c).
    + cbn [map]. f_equal; [apply map_rev|].
      destruct (N.eqb (PyStr.code c) 13 && N.eqb (PyStr.code d) 10).
      * exact (IH1 []).
      * exact (IH2 []).
    + exact (IH2 (c :: cur)).
Qed.

Lemma nonempty_code (s : list ascii) :
  Uni.nonempty (Uni.of_chars s) = match s with [] => false | _ => true end.
Proof. destruct s; reflexivity. Qed.

Lemma to_string_of_string (s : string) : Uni.to_string (Uni.of_string s) = s.
Proof.
  unfold Uni.to_string, Uni.of_string, Uni.of_chars. rewrite map_map.
  rewrite (map_ext _ (fun c => c)) by (intros c; apply ascii_N_embedding).
  rewrite map_id. apply of_chars_chars.
Qed.

(** On a Latin-1 string, [_normalize_recommended_fix] is the branch for
    strings of any characters. *)
Lemma normalize_recommended_fix_latin1 (rt : Py.runtime) (s : string) :
  s <> "" ->
  map Uni.of_string (Resolver._normalize_recommended_fix rt (PStr s))
  = Resolver._normalize_recommended_fix_str (Uni.of_string s).
Proof.
  intros Hs. unfold Resolver._normalize_recommended_fix,
    Resolver._normalize_recommended_fix_str.
  replace (Py.truthy (PStr s)) with true
    by (destruct s; [congruence | reflexivity]).
  cbn [negb].
  assert (Hlines :
            map Uni.of_string
              (map Resolver.strip_fix_chars
                 (filter (fun line => Str.nonempty (Str.strip line))
                    (Str.splitlines s)))
            = map (Uni.strip_chars Resolver.fix_strip_chars)
                (filter (fun line => Uni.nonempty (Uni.strip line))
                   (Uni.splitlines (Uni.of_string s)))).
  { unfold Uni.splitlines, Uni.of_string, Str.splitlines, PyStr.splitlines.
    change (@nil N) with (Uni.of_chars []).
    rewrite <- splitlines_go_code.
    set (L := PyStr.splitlines_go (chars s) []).
    rewrite <- (filter_after_map Str.of_chars
                  (fun line => Str.nonempty (Str.strip line))).
    rewrite <- (filter_after_map Uni.of_chars
                  (fun line => Uni.nonempty (Uni.strip line))).
    rewrite (filter_ext
               (fun x => Str.nonempty (Str.strip (Str.of_chars x)))
               (fun x => Uni.nonempty (Uni.strip (Uni.of_chars x)))).
    2:{ intros x. unfold Str.strip. rewrite chars_of_chars, nonempty_of_chars.
        rewrite <- strip_code, nonempty_code. reflexivity. }
    rewrite !map_map. apply map_ext. intros x.
    unfold Resolver.strip_fix_chars, Uni.of_string, Uni.strip_chars.
    rewrite !chars_of_chars. apply strip_by_code. }
  destruct (map Resolver.strip_fix_chars _) as [|l ls] eqn:Hl.
  - cbn [map] in Hlines. rewrite <- Hlines. cbn [map]. f_equal.
    unfold Str.strip, Uni.of_string. rewrite chars_of_chars.
    apply strip_code.
  - rewrite <- Hlines. reflexivity.
Qed.

(** *** Trimming, on texts of any characters *)

Lemma uni_dropwhile_subset (p : N -> bool) (s : Uni.text) (c : N) :
  In c (Uni.dropwhile p s) -> In c s.
Proof.
  induction s as [|d s IH]; simpl; [tauto|].
  destruct (p d); [intros H; right; exact (IH H) | simpl; tauto].
Qed.

Lemma uni_dropwhile_ext_in (p q : N -> bool) (s : Uni.text) :
  (forall c, In c s -> p c = q c) -> Uni.dropwhile p s = Uni.dropwhile q s.
Proof.
  induction s as [|d s IH]; intros H; simpl; [reflexivity|].
  rewrite <- (H d (or_introl eq_refl)).
  destruct (p d); [|reflexivity].
  apply IH. intros c Hc. apply H. now right.
Qed.

Lemma uni_strip_by_ext_in (p q : N -> bool) (s : Uni.text) :
  (forall c, In c s -> p c = q c) -> Uni.strip_by p s = Uni.strip_by q s.
Proof.
  intros H. unfold Uni.strip_by, Uni.rstrip_by, Uni.lstrip_by.
  rewrite (uni_dropwhile_ext_in p q s H). f_equal.
  apply uni_dropwhile_ext_in. intros c Hc. apply H.
  apply in_rev in Hc. exact (uni_dropwhile_subset _ _ _ Hc).
Qed.

Lemma uni_dropwhile_all (p : N -> bool) (s : Uni.text) :
  (forall c, In c s -> p c = true) -> Uni.dropwhile p s = [].
Proof.
  induction s as [|d s IH]; intros H; simpl; [reflexivity|].
  rewrite (H d (or_introl eq_refl)). apply IH.
  intros c Hc. apply H. now right.
Qed.

Lemma uni_strip_by_all (p : N -> bool) (s : Uni.text) :
  (forall c, In c s -> p c = true) -> Uni.strip_by p s = [].
Proof.
  intros H. unfold Uni.strip_by, Uni.rstrip_by, Uni.lstrip_by.
  now rewrite (uni_dropwhile_all p s H).
Qed.

Lemma uni_dropwhile_keeps (p : N -> bool) (s : Uni.text) (c : N) :
  In c s -> p c = false -> In c (Uni.dropwhile p s).
Proof.
  intros Hin Hc. induction s as [|d s IH]; simpl in *; [tauto|].
  destruct (p d) eqn:Hd.
  - destruct Hin as [->|Hin]; [congruence | exact (IH Hin)].
  - exact Hin.
Qed.

Lemma uni_strip_by_keeps (p : N -> bool) (s : Uni.text) (c : N) :
  In c s -> p c = false -> In c (Uni.strip_by p s).
Proof.
  intros Hin Hc. unfold Uni.strip_by, Uni.rstrip_by, Uni.lstrip_by.
  apply in_rev. rewrite rev_involutive.
  apply uni_dropwhile_keeps; [|exact Hc].
  apply -> in_rev. now apply uni_dropwhile_keeps.
Qed.

Lemma uni_nonempty_In (s : Uni.text) (c : N) :
  In c s -> Uni.nonempty s = true.
Proof. destruct s; [intros [] | reflexivity]. Qed.

(** The characters of a line are characters of the text. *)
Lemma uni_splitlines_go_subset (s : Uni.text) :
  forall cur line c,
    In line (Uni.splitlines_go s cur) -> In c line -> In c s \/ In c cur.
Proof.
  induction s as [|a|a d s IH1 IH2] using list_pair_ind;
    intros cur line c.
  - destruct cur as [|x cur]; [intros []|].
    intros [<-|[]] Hc. right. now apply in_rev.
  - cbn [Uni.splitlines_go]. destruct (Uni.is_linebreak a).
    + intros [<-|[]] Hc. right. now apply in_rev.
    + intros [<-|[]] Hc. cbn [rev] in Hc. apply in_app_or in Hc.
      destruct Hc as [Hc|[<-|[]]]; [right; now apply in_rev | left; now left].
  - cbn [Uni.splitlines_go]. destruct (Uni.is_linebreak a).
    + intros [<-|Hin] Hc; [right; now apply in_rev|].
      destruct (N.eqb a 13 && N.eqb d 10).
      * destruct (IH1 _ _ _ Hin Hc) as [H|[]]. left. now right; right.
      * destruct (IH2 _ _ _ Hin Hc) as [H|[]]. left. now right.
    + intros Hin Hc. destruct (IH2 _ _ _ Hin Hc) as [H|[<-|H]].
      * left. now right.
      * left. now left.
      * now right.
Qed.

Lemma fix_strip_chars_marks (c : N) :
  Spec.bullet_like c = false ->
  Uni.among Resolver.fix_strip_chars c = Spec.is_mark c.
Proof.
  unfold Spec.bullet_like, Spec.is_mark, Uni.among, Spec.fix_marks,
    Resolver.fix_strip_chars, Spec.bullet. cbn [existsb].
  destruct (N.eqb c 8226), (N.eqb c 226), (N.eqb c 8364), (N.eqb c 162),
    (N.eqb c 32), (N.eqb c 45), (N.eqb c 9);
    cbn; congruence.
Qed.

(** On a plain line without bullet-like characters the two ways of
    trimming give the same, and the line is blank exactly when nothing is
    left of it. *)
Lemma plain_line_trimmed (line : Uni.text) :
  (forall c, In c line -> Spec.bullet_like c = false) ->
  Spec.plain_line line = true ->
  Uni.strip_chars Resolver.fix_strip_chars line
  = Spec.both_ends_trimmed line
  /\ Uni.nonempty (Uni.strip line)
     = Uni.nonempty (Spec.both_ends_trimmed line).
Proof.
  intros Hb Hp. split.
  - apply uni_strip_by_ext_in. intros c Hc.
    exact (fix_strip_chars_marks c (Hb c Hc)).
  - unfold Spec.plain_line in Hp. apply orb_true_iff in Hp.
    destruct Hp as [Hall|Hex].
    + rewrite forallb_forall in Hall.
      unfold Uni.strip, Spec.both_ends_trimmed.
      rewrite !uni_strip_by_all; [reflexivity| |].
      * intros c Hc. specialize (Hall c Hc).
        apply orb_true_iff in Hall.
        destruct Hall as [E|E]; apply N.eqb_eq in E; subst; reflexivity.
      * intros c Hc. specialize (Hall c Hc).
        apply orb_true_iff in Hall.
        destruct Hall as [E|E]; apply N.eqb_eq in E; subst; reflexivity.
    + apply existsb_exists in Hex. destruct Hex as (c & Hc & Hcond).
      apply andb_true_iff in Hcond. destruct Hcond as [Hw Hd].
      apply negb_true_iff in Hw, Hd.
      assert (Hm : Spec.is_mark c = false).
      { rewrite <- (fix_strip_chars_marks c (Hb c Hc)).
        unfold Uni.among, Resolver.fix_strip_chars. cbn [existsb].
        pose proof (Hb c Hc) as Hl.
        unfold Spec.bullet_like, Uni.among, Spec.bullet in Hl.
        cbn [existsb] in Hl. rewrite !orb_false_iff in Hl.
        destruct Hl as (_ & H226 & H8364 & H162 & _).
        rewrite Hd, H226, H8364, H162.
        destruct (N.eqb_spec c 32) as [->|_]; [discriminate Hw|].
        destruct (N.eqb_spec c 9) as [->|_]; [discriminate Hw|].
        reflexivity. }
      unfold Uni.strip, Spec.both_ends_trimmed.
      rewrite (uni_nonempty_In _ c
                 (uni_strip_by_keeps Uni.isspace _ _ Hc Hw)).
      now rewrite (uni_nonempty_In _ c
                     (uni_strip_by_keeps Spec.is_mark _ _ Hc Hm)).
Qed.

(** On a plain text, the branch for strings does what the wording with
    both ends trimmed says. *)
Lemma normalize_recommended_fix_str_refines (s : Uni.text) :
  Spec.plain s = true ->
  Resolver._normalize_recommended_fix_str s
  = Spec.fix_lines Spec.both_ends_trimmed s.
Proof.
  unfold Spec.plain. intros H. apply andb_true_iff in H.
  destruct H as [Hb Hl]. rewrite forallb_forall in Hb, Hl.
  unfold Resolver._normalize_recommended_fix_str, Spec.fix_lines.
  rewrite (map_filter_agree (Uni.strip_chars Resolver.fix_strip_chars)
             Spec.both_ends_trimmed
             (fun line => Uni.nonempty (Uni.strip line)) Uni.nonempty).
  - destruct (filter Uni.nonempty _); reflexivity.
  - intros line Hline. apply plain_line_trimmed; [|exact (Hl line Hline)].
    intros c Hc.
    destruct (uni_splitlines_go_subset s [] line c Hline Hc) as [Hin|[]].
    apply negb_true_iff. exact (Hb c Hin).
Qed.

(** The same for a value: the source agrees with the wording that trims
    both ends of a line, on every value that is not a string and on every
    string that is plain. *)
Lemma normalize_recommended_fix_refines (rt : Py.runtime) (v : pyval) :
  (forall s, v = PStr s -> Spec.plain (Uni.of_string s) = true) ->
  Resolver._normalize_recommended_fix rt v = Spec.normalize_fix_trimmed rt v.
Proof.
  intros Hplain.
  destruct v as [| b | z | f | s | items | d];
    try (unfold Resolver._normalize_recommended_fix,
           Spec.normalize_fix_trimmed, Spec.normalize_fix_with;
         destruct (Py.truthy _); reflexivity).
  - destruct s as [|c s]; [reflexivity|].
    assert (Hs : String c s <> "") by discriminate.
    pose proof (normalize_recommended_fix_latin1 rt (String c s) Hs) as Hl.
    rewrite (normalize_recommended_fix_str_refines _
               (Hplain (String c s) eq_refl)) in Hl.
    apply (f_equal (map Uni.to_string)) in Hl.
    rewrite map_map in Hl.
    rewrite (map_ext _ (fun x => x)) in Hl
      by (intros x; apply to_string_of_string).
    rewrite map_id in Hl. rewrite Hl. reflexivity.
  - unfold Resolver._normalize_recommended_fix, Spec.normalize_fix_trimmed,
      Spec.normalize_fix_with.
    destruct (Py.truthy (PList items)); cbn [negb]; [|reflexivity].
    apply (filter_after_map (fun item => Str.strip (Py.str rt item))
             Str.nonempty).
Qed.

(** C7, as stated, fails: a dash at the end of a line is trimmed as well,
    where trimming the leading characters alone would keep it.  The line
    is plain: it holds no bullet, and more than dashes and spaces. *)
Lemma normalize_recommended_fix_trims_line_end :
  Resolver._normalize_recommended_fix Sample.runtime
    (PStr "restart the worker -") = ["restart the worker"]
  /\ Spec.normalize_fix Sample.runtime (PStr "restart the worker -")
     = ["restart the worker -"]
  /\ Spec.plain (Uni.of_string "restart the worker -") = true.
Proof. repeat split; vm_compute; reflexivity. Qed.

(** C7, amended.  [_normalize_recommended_fix] maps a falsy value to the
    empty list and a list to its elements stringified and trimmed, the
    empty results dropped.  A string that is plain (it holds neither the
    bullet U+2022 nor one of the three characters the strip set of the
    source has in its place, and each of its lines is made of spaces and
    tabs or holds a character that is neither whitespace nor a dash) it
    maps to its lines with the bullet, dash, tab and space characters
    trimmed from both of their ends, the empty ones dropped, or to the
    one-element list of the trimmed string when no line is left.  This
    holds for strings of any characters, and the function on Latin-1
    strings is its restriction.  The three examples of the specification
    hold. *)
Theorem normalize_recommended_fix_trims_both_ends (rt : Py.runtime) :
  (forall v,
      (forall s, v = PStr s -> Spec.plain (Uni.of_string s) = true) ->
      Resolver._normalize_recommended_fix rt v
      = Spec.normalize_fix_trimmed rt v)
  /\ (forall s,
         Spec.plain s = true ->
         Resolver._normalize_recommended_fix_str s
         = Spec.fix_lines Spec.both_ends_trimmed s)
  /\ (forall s,
         s <> "" ->
         map Uni.of_string (Resolver._normalize_recommended_fix rt (PStr s))
         = Resolver._normalize_recommended_fix_str (Uni.of_string s))
  /\ Resolver._normalize_recommended_fix rt
       (PStr ("- step one" ++ Str.nl ++ "- step two" ++ Str.nl))
     = ["step one"; "step two"]
  /\ Resolver._normalize_recommended_fix rt (PStr "single line fix")
     = ["single line fix"]
  /\ Resolver._normalize_recommended_fix rt
       (PList [PStr "a"; PStr " "; PStr "b"])
     = ["a"; "b"].
Proof.
  split; [intros v; apply normalize_recommended_fix_refines|].
  split; [exact normalize_recommended_fix_str_refines|].
  split; [intros s; apply normalize_recommended_fix_latin1|].
  repeat split; vm_compute; reflexivity.
Qed.

Lemma normalize_recommended_fix_trims_both_ends_witness :
  Spec.plain
    (Uni.of_string ("- step one" ++ Str.nl ++ "restart the worker -")) = true
  /\ Resolver._normalize_recommended_fix_str
       (Uni.of_string ("- step one" ++ Str.nl ++ "restart the worker -"))
     = [Uni.of_string "step one"; Uni.of_string "restart the worker"].
Proof.
  split; [vm_compute; reflexivity|].
  rewrite (proj1 (proj2 (normalize_recommended_fix_trims_both_ends
                           Sample.runtime))
             (Uni.of_string
                ("- step one" ++ Str.nl ++ "restart the worker -")))
    by (vm_compute; reflexivity).
  vm_compute. reflexivity.
Defined.

(** ** [normalize_text] *)

Section Stripping.
Variable p : ascii -> bool.

Lemma dropwhile_headed (s : list ascii) :
  Shape.headed p (PyStr.dropwhile p s).
Proof.
  induction s as [|c s IH]; simpl; [exact I|].
  destruct (p c) eqn:Hc; [exact IH | exact Hc].
Qed.

Lemma headed_dropwhile (s : list ascii) :
  Shape.headed p s -> PyStr.dropwhile p s = s.
Proof. destruct s as [|c s]; simpl; [reflexivity|]. now intros ->. Qed.

Lemma dropwhile_suffix (s : list ascii) :
  exists w, s = (w ++ PyStr.dropwhile p s)%list.
Proof.
  induction s as [|c s [w IH]]; simpl.
  - now exists [].
  - destruct (p c).
    + exists (c :: w). simpl. now rewrite <- IH.
    + now exists [].
Qed.

Lemma rstrip_prefix (s : list ascii) :
  exists w, s = (PyStr.rstrip_by p s ++ w)%list.
Proof.
  unfold PyStr.rstrip_by.
  destruct (dropwhile_suffix (rev s)) as [w Hw].
  exists (rev w).
  rewrite <- rev_app_distr, <- Hw. now rewrite rev_involutive.
Qed.

Lemma strip_by_fixed (s : list ascii) :
  PyStr.strip_by p (PyStr.strip_by p s) = PyStr.strip_by p s.
Proof.
  unfold PyStr.strip_by, PyStr.lstrip_by.
  set (y := PyStr.dropwhile p s).
  assert (Hy : Shape.headed p y) by apply dropwhile_headed.
  assert (Hz : Shape.headed p (PyStr.rstrip_by p y)).
  { destruct (rstrip_prefix y) as [w Hw].
    destruct (PyStr.rstrip_by p y) as [|c z]; [exact I|].
    rewrite Hw in Hy. exact Hy. }
  rewrite (headed_dropwhile _ Hz).
  unfold PyStr.rstrip_by at 1. unfold PyStr.rstrip_by at 1.
  rewrite rev_involutive.
  rewrite (headed_dropwhile _ (dropwhile_headed (rev y))).
  reflexivity.
Qed.

Lemma dropwhile_Forall (P : ascii -> Prop) (s : list ascii) :
  Forall P s -> Forall P (PyStr.dropwhile p s).
Proof.
  induction 1 as [|c s Hc Hs IH]; simpl; [constructor|].
  destruct (p c); [exact IH | now constructor].
Qed.

Lemma strip_by_Forall (P : ascii -> Prop) (s : list ascii) :
  Forall P s -> Forall P (PyStr.strip_by p s).
Proof.
  intros H. unfold PyStr.strip_by, PyStr.rstrip_by, PyStr.lstrip_by.
  apply Forall_rev, dropwhile_Forall, Forall_rev, dropwhile_Forall, H.
Qed.

End Stripping.

Lemma lower_char_fixed (c : ascii) :
  PyStr.lower_char (PyStr.lower_char c) = PyStr.lower_char c.
Proof.
  destruct c as [[] [] [] [] [] [] [] []]; vm_compute; reflexivity.
Qed.

Lemma lower_lowered (s : list ascii) : Forall Shape.lowered (PyStr.lower s).
Proof.
  unfold PyStr.lower. apply Forall_map, Forall_forall.
  intros c _. apply lower_char_fixed.
Qed.

Lemma lowered_lower (s : list ascii) :
  Forall Shape.lowered s -> PyStr.lower s = s.
Proof.
  unfold PyStr.lower.
  induction 1 as [|c s Hc _ IH]; simpl; [reflexivity|].
  now rewrite Hc, IH.
Qed.

(** A substitution keeps a property that its input and its replacement
    text both have. *)
Lemma sub_go_Forall (P : ascii -> Prop) (r : Re.regex) (repl : list ascii) :
  Forall P repl ->
  forall s prev skip,
    Forall P s -> Forall P (Re.sub_go r repl prev s skip).
Proof.
  intros Hrepl. induction s as [|c s IH]; intros prev skip Hs; simpl.
  - destruct skip; [|constructor].
    destruct (Re.match_len r prev []); [exact Hrepl | constructor].
  - inversion Hs as [|? ? Hc Hs']; subst.
    destruct skip; [|now apply IH].
    destruct (Re.match_len r prev (c :: s)) as [[|n]|].
    + apply Forall_app; split; [exact Hrepl|]. constructor; auto.
    + apply Forall_app; split; auto.
    + constructor; auto.
Qed.

Lemma substitute_placeholders_lowered (s : list ascii) :
  Forall Shape.lowered s ->
  Forall Shape.lowered (TextCleaner.substitute_placeholders s).
Proof.
  intros H. unfold TextCleaner.substitute_placeholders, Re.sub.
  repeat (apply sub_go_Forall;
          [repeat constructor; vm_compute; reflexivity|]).
  exact H.
Qed.

Lemma span_le (p : ascii -> bool) (s : list ascii) :
  Shape.span p s <= List.length s.
Proof.
  induction s as [|c s IH]; simpl; [lia|]. destruct (p c); lia.
Qed.

(** With nothing left to match afterwards, a greedy repetition of a class
    takes the whole run, provided the run reaches the lower bound. *)
Lemma rep_class_greedy (p : ascii -> bool) (s : list ascii) :
  forall lo prev,
    Re.rep_class p lo None prev s (fun _ rest => Some rest)
    = if Nat.leb lo (Shape.span p s) then Some (skipn (Shape.span p s) s)
      else None.
Proof.
  induction s as [|c s IH]; intros lo prev; simpl.
  - destruct lo; reflexivity.
  - destruct (p c); simpl.
    + rewrite IH. destruct lo as [|lo]; simpl; [reflexivity|].
      destruct (Nat.leb lo (Shape.span p s)); reflexivity.
    + destruct lo; reflexivity.
Qed.

Lemma match_len_plus (p : ascii -> bool) (prev : option ascii)
      (s : list ascii) :
  Re.match_len (Re.plus p) prev s
  = match Shape.span p s with
    | O => None
    | S n => Some (S n)
    end.
Proof.
  unfold Re.match_len, Re.plus. cbn [Re.rmatch]. rewrite rep_class_greedy.
  pose proof (span_le p s) as Hle.
  destruct (Shape.span p s) as [|n] eqn:Hn; [reflexivity|].
  change (Nat.leb 1 (S n)) with true. cbv iota.
  rewrite length_skipn. f_equal. lia.
Qed.

(** [re.sub(r"\s+", " ", s)] squeezes each run of whitespace to one
    space. *)
Lemma sub_whitespace_squeeze (s : list ascii) :
  forall prev,
    Re.sub_go TextCleaner.whitespace_run (chars " ") prev s 0
    = Shape.squeeze false s
    /\ Re.sub_go TextCleaner.whitespace_run (chars " ") prev s
         (Shape.span PyStr.isspace s)
       = Shape.squeeze true s.
Proof.
  unfold TextCleaner.whitespace_run.
  induction s as [|c s IH]; intros prev.
  - split; reflexivity.
  - assert (H0 : Re.sub_go (Re.plus PyStr.isspace) (chars " ") prev
                   (c :: s) 0 = Shape.squeeze false (c :: s)).
    { cbn [Re.sub_go]. rewrite match_len_plus. cbn [Shape.span Shape.squeeze].
      destruct (PyStr.isspace c).
      - simpl. f_equal. apply IH.
      - f_equal. apply IH. }
    split; [exact H0|].
    cbn [Shape.span]. destruct (PyStr.isspace c) eqn:Hc.
    + cbn [Re.sub_go Shape.squeeze]. rewrite Hc. apply IH.
    + rewrite H0. cbn [Shape.squeeze]. now rewrite Hc.
Qed.

Lemma squeeze_tidy (s : list ascii) :
  forall b, Shape.tidy b (Shape.squeeze b s).
Proof.
  induction s as [|c s IH]; intros b; simpl; [exact I|].
  destruct (PyStr.isspace c) eqn:Hc.
  - destruct b; [apply IH|].
    simpl. repeat split. apply IH.
  - simpl. rewrite Hc. apply IH.
Qed.

Lemma tidy_squeeze (s : list ascii) :
  forall b, Shape.tidy b s -> Shape.squeeze b s = s.
Proof.
  induction s as [|c s IH]; intros b; simpl; [reflexivity|].
  destruct (PyStr.isspace c).
  - intros (-> & -> & H). f_equal. now apply IH.
  - intros H. f_equal. now apply IH.
Qed.

Lemma tidy_dropwhile (s : list ascii) :
  forall b b', Shape.tidy b s -> Shape.tidy b' (PyStr.dropwhile PyStr.isspace s).
Proof.
  induction s as [|c s IH]; intros b b'; simpl; [trivial|].
  destruct (PyStr.isspace c) eqn:Hc.
  - intros (_ & _ & H). now apply IH with (b := true).
  - intros H. simpl. now rewrite Hc.
Qed.

Lemma tidy_prefix (x y : list ascii) :
  forall b, Shape.tidy b (x ++ y)%list -> Shape.tidy b x.
Proof.
  induction x as [|c x IH]; intros b; simpl; [trivial|].
  destruct (PyStr.isspace c).
  - intros (H1 & H2 & H). repeat split; auto.
  - apply IH.
Qed.

Lemma tidy_strip (s : list ascii) :
  forall b, Shape.tidy b s -> Shape.tidy false (PyStr.strip s).
Proof.
  intros b H. unfold PyStr.strip, PyStr.strip_by, PyStr.lstrip_by.
  pose proof (tidy_dropwhile s b false H) as Hd.
  destruct (rstrip_prefix PyStr.isspace (PyStr.dropwhile PyStr.isspace s))
    as [w Hw].
  rewrite Hw in Hd. exact (tidy_prefix _ _ _ Hd).
Qed.

(** [normalize_text] is the same pipeline on the empty text. *)
Lemma normalize_pipeline (text : list ascii) :
  TextCleaner.normalize text
  = PyStr.strip
      (Re.sub TextCleaner.whitespace_run (chars " ")
         (TextCleaner.substitute_placeholders (PyStr.lower text))).
Proof. destruct text; [vm_compute; reflexivity | reflexivity]. Qed.

(** A normalized text is in lower case, has single spaces as its only
    whitespace, and none at its ends. *)
Lemma normalize_shape (text : list ascii) :
  Forall Shape.lowered (TextCleaner.normalize text)
  /\ Shape.tidy false (TextCleaner.normalize text)
  /\ PyStr.strip (TextCleaner.normalize text) = TextCleaner.normalize text.
Proof.
  rewrite normalize_pipeline. split; [|split].
  - apply strip_by_Forall. unfold Re.sub.
    apply sub_go_Forall; [repeat constructor; vm_compute; reflexivity|].
    apply substitute_placeholders_lowered, lower_lowered.
  - unfold Re.sub.
    rewrite (proj1 (sub_whitespace_squeeze _ None)).
    exact (tidy_strip _ _ (squeeze_tidy _ false)).
  - apply strip_by_fixed.
Qed.

(** Lower-casing, whitespace squeezing and trimming do nothing to a
    normalized text: a second pass changes it only through the placeholder
    substitutions. *)
Lemma normalize_again (text : list ascii) :
  TextCleaner.normalize (TextCleaner.normalize text)
  = PyStr.strip
      (Re.sub TextCleaner.whitespace_run (chars " ")
         (TextCleaner.substitute_placeholders (TextCleaner.normalize text))).
Proof.
  destruct (normalize_shape text) as (Hl & _ & _).
  rewrite (normalize_pipeline (TextCleaner.normalize text)).
  now rewrite (lowered_lower _ Hl).
Qed.

Lemma normalize_fixed_when_stable (text : list ascii) :
  TextCleaner.substitute_placeholders (TextCleaner.normalize text)
  = TextCleaner.normalize text ->
  TextCleaner.normalize (TextCleaner.normalize text)
  = TextCleaner.normalize text.
Proof.
  intros H. destruct (normalize_shape text) as (_ & Ht & Hs).
  rewrite normalize_again, H. unfold Re.sub.
  rewrite (proj1 (sub_whitespace_squeeze _ None)).
  now rewrite (tidy_squeeze _ _ Ht).
Qed.

(** C6, as stated, fails: a date and a time two spaces apart are no
    timestamp on the first pass, but the squeezed result is one on the
    second. *)
Lemma normalize_text_not_idempotent :
  TextCleaner.normalize_text "2024-01-01  10:00:00" = "2024-01-01 10:00:00"
  /\ TextCleaner.normalize_text
       (TextCleaner.normalize_text "2024-01-01  10:00:00") = "<timestamp>".
Proof. split; vm_compute; reflexivity. Qed.

(** The same without any whitespace to squeeze: replacing the timestamp
    uncovers the word boundary an IP address needs. *)
Lemma normalize_text_not_idempotent_boundary :
  TextCleaner.normalize_text "2024-01-01 10:00:00+05:3011.2.3.4"
  = "<timestamp>11.2.3.4"
  /\ TextCleaner.normalize_text
       (TextCleaner.normalize_text "2024-01-01 10:00:00+05:3011.2.3.4")
     = "<timestamp><ip>".
Proof. split; vm_compute; reflexivity. Qed.

(** C6, amended. Normalizing a normalized text again changes nothing
    whenever the five placeholder substitutions leave the normalized text
    as it is (no placeholder pattern matches it). *)
Theorem normalize_text_idempotent_when_stable (t : string) :
  TextCleaner.substitute_placeholders (chars (TextCleaner.normalize_text t))
  = chars (TextCleaner.normalize_text t) ->
  TextCleaner.normalize_text (TextCleaner.normalize_text t)
  = TextCleaner.normalize_text t.
Proof.
  unfold TextCleaner.normalize_text.
  change (string_of_list_ascii (TextCleaner.normalize (chars t)))
    with (Str.of_chars (TextCleaner.normalize (chars t))).
  rewrite chars_of_chars. intros H.
  change (Str.of_chars (TextCleaner.normalize
                          (TextCleaner.normalize (chars t)))
          = Str.of_chars (TextCleaner.normalize (chars t))).
  now rewrite (normalize_fixed_when_stable _ H).
Qed.

Lemma normalize_text_idempotent_when_stable_witness :
  TextCleaner.normalize_text "Request  from 10.0.0.1 FAILED "
  = "request from <ip> failed"
  /\ TextCleaner.normalize_text
       (TextCleaner.normalize_text "Request  from 10.0.0.1 FAILED ")
     = TextCleaner.normalize_text "Request  from 10.0.0.1 FAILED ".
Proof.
  split; [vm_compute; reflexivity|].
  apply (normalize_text_idempotent_when_stable
           "Request  from 10.0.0.1 FAILED ").
  vm_compute; reflexivity.
Defined.

(* ================================================================== *)
(** * Further properties of the code *)
(* ================================================================== *)

(** ** The shape of a normalized text *)

(** X1. A normalized text is in lower case, its only whitespace is single
    spaces, and it neither begins nor ends with whitespace. *)
Theorem normalize_text_shape (t : string) :
  Forall Shape.lowered (chars (TextCleaner.normalize_text t))
  /\ Shape.tidy false (chars (TextCleaner.normalize_text t))
  /\ Str.strip (TextCleaner.normalize_text t) = TextCleaner.normalize_text t.
Proof.
  unfold TextCleaner.normalize_text, Str.strip.
  change (string_of_list_ascii (TextCleaner.normalize (chars t)))
    with (Str.of_chars (TextCleaner.normalize (chars t))).
  rewrite chars_of_chars.
  destruct (normalize_shape (chars t)) as (Hl & Ht & Hs).
  repeat split; [exact Hl | exact Ht | now rewrite Hs].
Qed.

(** ** The extracted message *)

Lemma split_head_no_separator (a : ascii) (s : list ascii) :
  forall cur,
    ~ In a cur ->
    match PyStr.split_go [a] None s 0 cur with
    | first :: _ => ~ In a first
    | [] => True
    end.
Proof.
  induction s as [|c s IH]; intros cur Hcur; simpl.
  - now rewrite <- in_rev.
  - destruct (Ascii.eqb a c) eqn:Hac; simpl.
    + now rewrite <- in_rev.
    + apply IH. intros [->|H]; [|auto].
      now rewrite Ascii.eqb_refl in Hac.
Qed.

Lemma firstn_subset {A} (n : nat) (l : list A) (x : A) :
  In x (firstn n l) -> In x l.
Proof.
  intros H. rewrite <- (firstn_skipn n l). apply in_or_app; now left.
Qed.

Lemma skipn_subset {A} (n : nat) (l : list A) (x : A) :
  In x (skipn n l) -> In x l.
Proof.
  intros H. rewrite <- (firstn_skipn n l). apply in_or_app; now right.
Qed.

Lemma slice_subset {A} (l : list A) (start stop : option Z) (x : A) :
  In x (PyStr.slice l start stop) -> In x l.
Proof.
  unfold PyStr.slice. intros H.
  exact (skipn_subset _ _ _ (firstn_subset _ _ _ H)).
Qed.

Lemma strip_subset (s : list ascii) (c : ascii) :
  In c (PyStr.strip s) -> In c s.
Proof.
  intros H.
  assert (Hall : Forall (fun x => In x s) (PyStr.strip s)).
  { apply strip_by_Forall, Forall_forall. auto. }
  rewrite Forall_forall in Hall. auto.
Qed.

(** The message is cut from the first line of the cleaned text. *)
Lemma extract_message_one_bounded_line (text : list ascii) (max_length : Z) :
  (0 <= max_length)%Z ->
  ~ In "010"%char (TextCleaner.extract_message text max_length)
  /\ (PyStr.len (TextCleaner.extract_message text max_length)
      <= max_length + 3)%Z.
Proof.
  intros Hmax.
  destruct (extract_message_first_line text max_length)
    as (first & rest & Hsplit & ->).
  assert (Hfirst : ~ In "010"%char first).
  { pose proof (split_head_no_separator "010"
                  (PyStr.strip (TextCleaner.remove_prefixes text))
                  [] (fun H => H)) as Hh.
    unfold PyStr.split in Hsplit. change (chars Str.nl) with ["010"%char] in Hsplit.
    now rewrite Hsplit in Hh. }
  assert (Hmsg : ~ In "010"%char (PyStr.strip first))
    by (intros H; apply Hfirst, strip_subset, H).
  unfold PyStr.len.
  destruct (Z.of_nat (List.length (PyStr.strip first)) >? max_length)%Z
    eqn:Hlong.
  - apply Z.gtb_lt in Hlong. split.
    + intros H. apply in_app_or in H. destruct H as [H|H].
      * apply Hmsg. exact (slice_subset _ _ _ _ H).
      * simpl in H. repeat (destruct H as [H|H]; [discriminate|]).
        exact H.
    + rewrite slice_prefix by lia.
      rewrite length_app, length_firstn. simpl. lia.
  - split; [exact Hmsg|].
    rewrite Z.gtb_ltb in Hlong. apply Z.ltb_ge in Hlong. lia.
Qed.

(** X2. The message [extract_error_message] returns is one line (it holds
    no line feed) and has at most [max_length + 3] characters. *)
Theorem extract_error_message_one_bounded_line (text : string)
        (max_length : Z) :
  (0 <= max_length)%Z ->
  ~ In "010"%char (chars (TextCleaner.extract_error_message text max_length))
  /\ (Str.len (TextCleaner.extract_error_message text max_length)
      <= max_length + 3)%Z.
Proof.
  intros Hmax. unfold TextCleaner.extract_error_message, Str.len.
  change (string_of_list_ascii ?l) with (Str.of_chars l).
  rewrite chars_of_chars.
  exact (extract_message_one_bounded_line (chars text) max_length Hmax).
Qed.

Lemma extract_error_message_one_bounded_line_witness :
  TextCleaner.extract_error_message
    ("2024-01-01T10:00:00 [api] ERROR Connection timeout" ++ Str.nl
     ++ "  at pool.py line 12") 10
  = "Connection..."
  /\ ~ In "010"%char (chars "Connection...")
  /\ (Str.len "Connection..." <= 10 + 3)%Z.
Proof.
  assert (E : TextCleaner.extract_error_message
                ("2024-01-01T10:00:00 [api] ERROR Connection timeout"
                 ++ Str.nl ++ "  at pool.py line 12") 10
              = "Connection...") by (vm_compute; reflexivity).
  split; [exact E|]. rewrite <- E.
  apply extract_error_message_one_bounded_line. lia.
Defined.

(** ** The fallback parse of a completion *)

Lemma parse_response_candidate (rt : Py.runtime) (content : string) :
  RAGEngine.parse_response rt content
  = match Py.json_loads rt (json_candidate content) with
    | Ok result => Ok result
    | Raise JSONDecodeError =>
        Ok (PDict (RAGEngine._parse_unstructured_response rt
                     (json_candidate content)))
    | Raise e => Raise e
    end.
Proof. reflexivity. Qed.

(** The fallback parse always has the three keys, with strings for the
    root cause and the fix and a float for the confidence. *)
Lemma parse_unstructured_response_keys (rt : Py.runtime) (content : string) :
  exists cause remedy c,
    RAGEngine._parse_unstructured_response rt content
    = [("root_cause", PStr cause); ("recommended_fix", PStr remedy);
       ("confidence", PFloat c)].
Proof.
  unfold RAGEngine._parse_unstructured_response.
  match goal with
  | |- context [let '(a, b) := ?p in _] => destruct p as [cause remedy]
  end.
  now eexists cause, remedy, _.
Qed.

Lemma validate_three_keys (rt : Py.runtime) (cause remedy : string)
      (c : spec_float) :
  RAGEngine.validate rt
    (PDict [("root_cause", PStr cause); ("recommended_fix", PStr remedy);
            ("confidence", PFloat c)])
  = Ok {| RAGEngine.root_cause := PStr cause;
          RAGEngine.recommended_fix := PStr remedy;
          RAGEngine.confidence :=
            Py.max Py.float_zero (Py.min Py.float_one c) |}.
Proof. reflexivity. Qed.

(** X3. When [json.loads] rejects the completion with a decode error, the
    line-scan fallback always yields a resolution: [generate_resolution]
    returns, with a root cause and a fix that are strings; it cannot fail on
    a completion that is not JSON. *)
Theorem generate_resolution_fallback_returns
        (rt : Py.runtime) (cfg : settings) (env : capabilities)
        (error_message : string) (similar_logs : list dict)
        (context : option string) (prompt content : string)
        (others : list (option string)) :
  RAGEngine._build_prompt rt error_message similar_logs context = Ok prompt ->
  complete env (RAGEngine.truncate_prompt (max_context_length cfg) prompt)
  = Completion (Some content :: others) ->
  Str.nonempty content = true ->
  Py.json_loads rt (json_candidate (Str.strip content))
  = Raise JSONDecodeError ->
  exists r cause remedy,
    snd (RAGEngine.generate_resolution rt cfg env error_message similar_logs
           context) = Ok r
    /\ RAGEngine.root_cause r = PStr cause
    /\ RAGEngine.recommended_fix r = PStr remedy.
Proof.
  intros Hb Hc Hne Hj. unfold RAGEngine.generate_resolution.
  rewrite Hb. cbn [snd]. rewrite Hc, Hne, parse_response_candidate, Hj.
  destruct (parse_unstructured_response_keys rt
              (json_candidate (Str.strip content)))
    as (cause & remedy & c & ->).
  cbn [bind]. rewrite validate_three_keys.
  eexists _, cause, remedy. repeat split.
Qed.

Lemma generate_resolution_fallback_returns_witness :
  exists r cause remedy,
    snd (RAGEngine.generate_resolution Sample.runtime default_settings
           (Sample.index ("Root cause: pool too small" ++ Str.nl
                          ++ "Fix: raise the pool size" ++ Str.nl
                          ++ "Confidence: high"))
           "Connection pool exhausted" [] None) = Ok r
    /\ RAGEngine.root_cause r = PStr cause
    /\ RAGEngine.recommended_fix r = PStr remedy.
Proof.
  refine (generate_resolution_fallback_returns Sample.runtime
            default_settings
            (Sample.index ("Root cause: pool too small" ++ Str.nl
                           ++ "Fix: raise the pool size" ++ Str.nl
                           ++ "Confidence: high"))
            "Connection pool exhausted" [] None
            (match RAGEngine._build_prompt Sample.runtime
                     "Connection pool exhausted" [] None with
             | Ok prompt => prompt
             | Raise _ => ""
             end)
            ("Root cause: pool too small" ++ Str.nl
             ++ "Fix: raise the pool size" ++ Str.nl ++ "Confidence: high")
            [] _ _ _ _);
    vm_compute; reflexivity.
Defined.

(** ** More of [resolve_log_entry] *)

(** What a successful retrieval for an entry returns is a slice of the
    similar matches of the hits the index gave and
    [format_retrieval_results] did not skip. *)
Lemma retrieve_for_entry_formatted (rt : Py.runtime) (cfg : settings)
      (env : capabilities) (log_entry : Resolver.LogEntry) (top_k : Z)
      (evs : list event) (similar_logs : list dict) :
  Resolver.retrieve_for_entry rt cfg env log_entry top_k
  = (evs, Ok similar_logs) ->
  exists embedding hits,
    query_similar env embedding
      (if (top_k + 1 =? 0)%Z then top_k_similar_logs cfg else (top_k + 1)%Z)
    = Ok hits
    /\ similar_logs
       = PyStr.slice
           (map Spec.similar_match
              (filter (fun hit =>
                         negb (Spec.skipped rt (PInt (Resolver.id log_entry))
                                 hit))
                 hits))
           None (Some top_k).
Proof.
  unfold Resolver.retrieve_for_entry, Retriever.retrieve_similar_logs.
  destruct (generate_embedding env _) as [embedding|e]; [|discriminate].
  destruct (query_similar env embedding _) as [hits|e] eqn:Hq;
    [|discriminate].
  intros H; injection H as _ H; simpl in H.
  destruct (Retriever.format_retrieval_results rt hits _) as [formatted|e]
    eqn:Hf; simpl in H; [|discriminate].
  injection H as <-. exists embedding, hits. split; [exact Hq|].
  unfold Retriever.format_retrieval_results in Hf.
  pose proof (format_loop_dicts _ _ _ _ _ Hf) as Hd.
  rewrite (format_loop_ok rt _ hits Hd []) in Hf.
  injection Hf as <-. reflexivity.
Qed.

(** X4. A similar log returned for an entry (with a non-zero id) never
    repeats the entry itself, as far as the stored metadata can tell: each
    returned match is the similar match of one of the hits the index gave
    for the query, a hit that [format_retrieval_results] did not skip; and
    when that hit carries a truthy embedded log id, the match has that id
    and it differs, as a string, from the entry's id. *)
Theorem resolve_log_entry_excludes_own_id
        (rt : Py.runtime) (S : Type) (db : Resolver.session S)
        (cfg : settings) (env : capabilities)
        (log_entry : Resolver.LogEntry) (top_k : Z) (db_session : option S)
        (after : option S) (evs : list event) (r : Resolver.result)
        (m : dict) :
  Resolver.resolve_log_entry rt db cfg env log_entry top_k db_session
  = (after, evs, Ok r) ->
  Resolver.id log_entry <> 0%Z ->
  In m (Resolver.r_similar_logs r) ->
  exists embedding hits hit,
    query_similar env embedding
      (if (top_k + 1 =? 0)%Z then top_k_similar_logs cfg else (top_k + 1)%Z)
    = Ok hits
    /\ In hit hits
    /\ Spec.skipped rt (PInt (Resolver.id log_entry)) hit = false
    /\ m = Spec.similar_match hit
    /\ (Py.truthy (Spec.embedded_log_id hit) = true ->
        Py.get m "id" PNone = Spec.embedded_log_id hit
        /\ Py.str rt (Py.get m "id" PNone)
           <> Py.str_of_int (Resolver.id log_entry)).
Proof.
  intros H Hid Hm.
  destruct (resolve_log_entry_similar_logs _ _ _ _ _ _ _ _ _ _ _ H)
    as (evs1 & evs2 & _ & Hr).
  destruct (retrieve_for_entry_formatted _ _ _ _ _ _ _ Hr)
    as (embedding & hits & Hq & Hs).
  rewrite Hs in Hm. apply slice_subset in Hm.
  apply in_map_iff in Hm. destruct Hm as (hit & <- & Hin).
  apply filter_In in Hin. destruct Hin as [Hin Hkeep].
  apply negb_true_iff in Hkeep.
  exists embedding, hits, hit.
  split; [exact Hq|]. split; [exact Hin|]. split; [exact Hkeep|].
  split; [reflexivity|]. intros Ht.
  assert (Hget : Py.get (Spec.similar_match hit) "id" PNone
                 = Spec.embedded_log_id hit).
  { change (Py.get (Spec.similar_match hit) "id" PNone)
      with (Spec.resolved_id hit).
    unfold Spec.resolved_id, Py.or_else. now rewrite Ht. }
  split; [exact Hget|]. rewrite Hget.
  unfold Spec.skipped in Hkeep. rewrite Ht in Hkeep.
  replace (Py.truthy (PInt (Resolver.id log_entry))) with true in Hkeep
    by (symmetry; simpl; apply negb_true_iff, Z.eqb_neq, Hid).
  simpl in Hkeep. apply String.eqb_neq in Hkeep.
  exact Hkeep.
Qed.

Lemma resolve_log_entry_excludes_own_id_witness :
  exists embedding hits hit,
    query_similar (Sample.index Sample.pool_response) embedding
      (if (2 + 1 =? 0)%Z then top_k_similar_logs default_settings
       else (2 + 1)%Z)
    = Ok hits
    /\ In hit hits
    /\ Spec.skipped Sample.runtime (PInt (Resolver.id Sample.entry)) hit
       = false
    /\ Spec.similar_match (Sample.hit "9" "too many connections")
       = Spec.similar_match hit
    /\ (Py.truthy (Spec.embedded_log_id hit) = true ->
        Py.get (Spec.similar_match (Sample.hit "9" "too many connections"))
          "id" PNone = Spec.embedded_log_id hit
        /\ Py.str Sample.runtime
             (Py.get (Spec.similar_match
                        (Sample.hit "9" "too many connections")) "id" PNone)
           <> Py.str_of_int (Resolver.id Sample.entry)).
Proof.
  refine (resolve_log_entry_excludes_own_id
            Sample.runtime Sample.store_state (Sample.session false)
            default_settings (Sample.index Sample.pool_response)
            Sample.entry 2 (Some (3%nat, []))
            (fst (fst (Resolver.resolve_log_entry Sample.runtime
                         (Sample.session false) default_settings
                         (Sample.index Sample.pool_response) Sample.entry 2
                         (Some (3%nat, [])))))
            (snd (fst (Resolver.resolve_log_entry Sample.runtime
                         (Sample.session false) default_settings
                         (Sample.index Sample.pool_response) Sample.entry 2
                         (Some (3%nat, [])))))
            _ _ _ _ _).
  - vm_compute. reflexivity.
  - discriminate.
  - vm_compute. right; left; reflexivity.
Defined.

(** X5. [resolve_log_entry] fails with [RAGError] only, and a failure
    leaves the session as it was, unless it is the failure of [rollback]
    after a failed attempt to store the resolution. *)
Theorem resolve_log_entry_failure
        (rt : Py.runtime) (S : Type) (db : Resolver.session S)
        (cfg : settings) (env : capabilities)
        (log_entry : Resolver.LogEntry) (top_k : Z) (db_session : option S)
        (after : option S) (evs : list event) (e : exn) :
  Resolver.resolve_log_entry rt db cfg env log_entry top_k db_session
  = (after, evs, Raise e) ->
  e = RAGError
  /\ (after = db_session
      \/ exists s record s1 e1 s2 e2,
           db_session = Some s
           /\ Resolver.store db record s = (s1, Raise e1)
           /\ Resolver.rollback db s1 = (s2, Raise e2)
           /\ after = Some s2).
Proof.
  unfold Resolver.resolve_log_entry.
  destruct (Resolver.retrieve_for_entry rt cfg env log_entry top_k)
    as [evs1 [similar_logs|x]].
  2: { intros H; injection H as <- _ <-. split; [reflexivity | now left]. }
  destruct (RAGEngine.generate_resolution _ _ _ _ _ _)
    as [evs2 [resolution|x]].
  2: { intros H; injection H as <- _ <-. split; [reflexivity | now left]. }
  unfold Resolver.persist.
  destruct db_session as [s|]; [|discriminate].
  destruct (Resolver.store db _ s) as [s1 [rid|e1]] eqn:Hstore;
    [discriminate|].
  destruct (Resolver.rollback db s1) as [s2 [u|e2]] eqn:Hback;
    [discriminate|].
  intros H; injection H as <- _ <-. split; [reflexivity|].
  right. exists s. eexists. exists s1, e1, s2, e2.
  repeat split; [exact Hstore | exact Hback].
Qed.

Lemma resolve_log_entry_failure_witness :
  RAGError = RAGError
  /\ (Some (3%nat, [Resolver.new_record Sample.runtime Sample.entry 2
                      {| RAGEngine.root_cause := PStr "Pool too small";
                         RAGEngine.recommended_fix :=
                           PList [PStr "Increase pool size"];
                         RAGEngine.confidence := Py.float_one |}
                      ["Increase pool size"]
                      (firstn 2 (Spec.format_results Sample.runtime
                                   (firstn 3 Sample.hits) (PStr "7")))])
      = Some (3%nat, [])
      \/ exists s record s1 e1 s2 e2,
           Some (3%nat, []) = Some s
           /\ Resolver.store Sample.dead_session record s = (s1, Raise e1)
           /\ Resolver.rollback Sample.dead_session s1 = (s2, Raise e2)
           /\ Some (3%nat,
                    [Resolver.new_record Sample.runtime Sample.entry 2
                       {| RAGEngine.root_cause := PStr "Pool too small";
                          RAGEngine.recommended_fix :=
                            PList [PStr "Increase pool size"];
                          RAGEngine.confidence := Py.float_one |}
                       ["Increase pool size"]
                       (firstn 2 (Spec.format_results Sample.runtime
                                    (firstn 3 Sample.hits) (PStr "7")))])
              = Some s2).
Proof.
  refine (resolve_log_entry_failure
            Sample.runtime Sample.store_state Sample.dead_session
            default_settings (Sample.index Sample.pool_response)
            Sample.entry 2 (Some (3%nat, [])) _
            (snd (fst (Resolver.resolve_log_entry Sample.runtime
                         Sample.dead_session default_settings
                         (Sample.index Sample.pool_response) Sample.entry 2
                         (Some (3%nat, [])))))
            RAGError _).
  vm_compute. reflexivity.
Defined.

(** ** [extract_error_level] *)

Lemma chars_app (a b : string) : chars (a ++ b) = (chars a ++ chars b)%list.
Proof. induction a as [|c a IH]; simpl; [reflexivity|]. now rewrite IH. Qed.

Lemma starts_with_app (sub rest : list ascii) :
  PyStr.starts_with sub (sub ++ rest)%list = true.
Proof.
  induction sub as [|c sub IH]; simpl; [reflexivity|].
  now rewrite Ascii.eqb_refl, IH.
Qed.

Lemma contains_here (sub s : list ascii) :
  PyStr.starts_with sub s = true -> PyStr.contains sub s = true.
Proof. intros H. destruct s; simpl in *; now rewrite H. Qed.

Lemma contains_later (sub a s : list ascii) :
  PyStr.contains sub s = true -> PyStr.contains sub (a ++ s)%list = true.
Proof.
  intros H. induction a as [|c a IH]; simpl; [exact H|].
  rewrite IH. apply orb_true_r.
Qed.

Lemma contains_middle (sub a b : list ascii) :
  PyStr.contains sub (a ++ sub ++ b)%list = true.
Proof. apply contains_later, contains_here, starts_with_app. Qed.

Lemma upper_app (a b : list ascii) :
  Extractors.upper (a ++ b)%list
  = (Extractors.upper a ++ Extractors.upper b)%list.
Proof. apply flat_map_app. Qed.

(** X6. A text that holds [critical], [fatal] or [panic] anywhere, in any
    letter case, is classified CRITICAL whatever else it holds. *)
Theorem extract_error_level_critical_first (a k b : string) :
  In (Extractors.upper (chars k))
     [chars "CRITICAL"; chars "FATAL"; chars "PANIC"] ->
  Extractors.extract_error_level (a ++ k ++ b) = "CRITICAL".
Proof.
  intros Hk. unfold Extractors.extract_error_level, Extractors.extract_level.
  rewrite !chars_app, !upper_app. cbv zeta.
  replace (existsb _ ["CRITICAL"; "FATAL"; "PANIC"]) with true; [reflexivity|].
  symmetry. unfold Extractors.has. cbn [existsb].
  destruct Hk as [Hk|[Hk|[Hk|[]]]]; rewrite <- Hk, contains_middle;
    rewrite ?orb_true_r; reflexivity.
Qed.

Lemma extract_error_level_critical_first_witness :
  Extractors.extract_error_level
    ("2024 ERROR downstream, " ++ "Panic" ++ " in worker (debug info)")
  = "CRITICAL".
Proof.
  apply (extract_error_level_critical_first
           "2024 ERROR downstream, " "Panic" " in worker (debug info)").
  right; right; left. vm_compute. reflexivity.
Defined.

Lemma extract_level_range (text : list ascii) :
  In (Extractors.extract_level text)
     ["CRITICAL"; "ERROR"; "WARN"; "DEBUG"; "INFO"].
Proof.
  unfold Extractors.extract_level.
  cbv zeta.
  repeat match goal with
         | |- context [if ?c then _ else _] => destruct c
         end; simpl; auto 6.
Qed.

(** X7. [extract_error_level] returns one of five names: CRITICAL, ERROR,
    WARN, DEBUG or INFO (never WARNING or FATAL). *)
Theorem extract_error_level_range (text : string) :
  In (Extractors.extract_error_level text)
     ["CRITICAL"; "ERROR"; "WARN"; "DEBUG"; "INFO"].
Proof.
  exact (extract_level_range (chars text)).
Qed.

(** ** [tokenize] and [remove_stop_words] *)

(** A match hands to the continuation what is left after it, and returns
    what the continuation returns. *)
Lemma rep_class_span (p : ascii -> bool) (k : Re.cont) (s : list ascii) :
  forall lo hi prev r,
    Re.rep_class p lo hi prev s k = Some r ->
    exists j prev',
      lo <= j <= Shape.span p s /\ k prev' (skipn j s) = Some r.
Proof.
  induction s as [|c s IH]; intros lo hi prev r; simpl.
  - destruct lo; [|discriminate]. intros H. exists 0, prev. split; [lia|exact H].
  - destruct (p c); simpl.
    + destruct (Re.may_take hi); simpl.
      * destruct (Re.rep_class p (pred lo) (option_map pred hi) (Some c) s k)
          as [r'|] eqn:Hrec.
        -- intros H; injection H as <-.
           destruct (IH _ _ _ _ Hrec) as (j & prev' & Hj & Hk).
           exists (S j), prev'. split; [lia | exact Hk].
        -- destruct lo; [|discriminate]. intros H.
           exists 0, prev. split; [lia | exact H].
      * destruct lo; [|discriminate]. intros H.
        exists 0, prev. split; [lia | exact H].
    + destruct lo; [|discriminate]. intros H.
      exists 0, prev. split; [lia | exact H].
Qed.

Lemma span_firstn (p : ascii -> bool) (s : list ascii) :
  forall j, j <= Shape.span p s ->
            Forall (fun c => p c = true) (firstn j s).
Proof.
  induction s as [|c s IH]; intros j Hj; simpl in Hj.
  - replace j with 0 by lia. constructor.
  - destruct j as [|j]; [constructor|]. simpl.
    destruct (p c) eqn:Hc; [|lia].
    constructor; [exact Hc | apply IH; lia].
Qed.

(** A match of [\b\w+\b] is a non-empty run of word characters. *)
Lemma match_len_word (prev : option ascii) (s : list ascii) (n : nat) :
  Re.match_len Extractors.word_pattern prev s = Some n ->
  1 <= n /\ Forall (fun c => PyStr.isword c = true) (firstn n s).
Proof.
  unfold Re.match_len, Extractors.word_pattern, Re.plus.
  cbn [Re.seq Re.rmatch].
  destruct (xorb _ _); [|discriminate].
  destruct (Re.rep_class _ _ _ _ _ _) as [rest|] eqn:Hrep; [|discriminate].
  intros H; injection H as <-.
  destruct (rep_class_span _ _ _ _ _ _ _ Hrep) as (j & prev' & Hj & Hk).
  destruct (xorb _ _); [|discriminate]. injection Hk as <-.
  pose proof (span_le PyStr.isword s) as Hle.
  rewrite length_skipn.
  replace (List.length s - (List.length s - j)) with j by lia.
  split; [lia | apply span_firstn; lia].
Qed.

Lemma firstn_Forall {A} (P : A -> Prop) (n : nat) (l : list A) :
  Forall P l -> Forall P (firstn n l).
Proof.
  intros H. apply Forall_forall. intros x Hx.
  rewrite Forall_forall in H. exact (H x (firstn_subset _ _ _ Hx)).
Qed.

Lemma findall_words (s : list ascii) :
  Forall Shape.lowered s ->
  forall prev skip,
    Forall plain_word (Extractors.findall_go Extractors.word_pattern prev s skip).
Proof.
  induction s as [|c s IH]; intros Hs prev skip; simpl.
  - destruct skip; [|constructor].
    destruct (Re.match_len _ prev []) as [n|] eqn:Hm; [|constructor].
    destruct (match_len_word _ _ _ Hm) as [Hn _].
    unfold Re.match_len in Hm.
    destruct (Re.rmatch _ _ _ _); [|discriminate].
    injection Hm as <-. simpl in Hn. lia.
  - inversion Hs as [|? ? Hc Hs']; subst.
    destruct skip; [|now apply IH].
    destruct (Re.match_len _ prev (c :: s)) as [[|n]|] eqn:Hm.
    + destruct (match_len_word _ _ _ Hm). lia.
    + constructor; [|now apply IH].
      destruct (match_len_word _ _ _ Hm) as [_ Hw].
      repeat split; [discriminate | exact Hw |].
      exact (firstn_Forall Shape.lowered (S n) (c :: s) Hs).
    + now apply IH.
Qed.

(** X8. Every token of [tokenize] is a non-empty run of word characters in
    lower case, and after [remove_stop_words] none of them is a stop word,
    in whatever letter case the text had it. *)
Theorem tokenize_plain_words (text : string) :
  Forall (fun token => plain_word (chars token)) (Extractors.tokenize text)
  /\ Forall (fun token => Extractors.is_stop_word token = false)
       (Extractors.remove_stop_words (Extractors.tokenize text))
  /\ incl (Extractors.remove_stop_words (Extractors.tokenize text))
       (Extractors.tokenize text).
Proof.
  split; [|split].
  - unfold Extractors.tokenize, Extractors.tokens, Extractors.findall.
    apply Forall_map.
    pose proof (findall_words (PyStr.lower (chars text))
                  (lower_lowered (chars text)) None 0) as H.
    eapply Forall_impl; [|exact H].
    intros token Ht. change (string_of_list_ascii token)
      with (Str.of_chars token). now rewrite chars_of_chars.
  - unfold Extractors.remove_stop_words. apply Forall_forall.
    intros token Hin. apply filter_In in Hin.
    now apply negb_true_iff.
  - unfold Extractors.remove_stop_words. apply incl_filter.
Qed.

(** ** [truncate_text] *)

(** X9. [truncate_text] returns a text that fits as it is; a longer one is
    cut to its first [max_length] characters and given three dots, so the
    result has [max_length + 3] characters (which can be more than the
    text had). *)
Theorem truncate_text_length (text : string) (max_length : Z) :
  (0 <= max_length)%Z ->
  ((Str.len text <= max_length)%Z ->
   Helpers.truncate_text text max_length = text)
  /\ ((max_length < Str.len text)%Z ->
      exists kept rest,
        text = kept ++ rest
        /\ Z.of_nat (String.length kept) = max_length
        /\ Helpers.truncate_text text max_length = kept ++ "...").
Proof.
  intros Hmax. unfold Helpers.truncate_text, Helpers.truncate, Str.len.
  split; intros Hlen.
  - replace (_ <=? _)%Z with true by (symmetry; apply Z.leb_le; exact Hlen).
    apply of_chars_chars.
  - replace (_ <=? _)%Z with false by (symmetry; apply Z.leb_gt; exact Hlen).
    unfold PyStr.len in Hlen.
    exists (Str.of_chars (firstn (Z.to_nat max_length) (chars text))),
           (Str.of_chars (skipn (Z.to_nat max_length) (chars text))).
    split; [|split].
    + now rewrite <- of_chars_app, firstn_skipn, of_chars_chars.
    + rewrite length_of_chars, length_firstn. lia.
    + rewrite slice_prefix by lia.
      change (string_of_list_ascii ?l) with (Str.of_chars l).
      now rewrite of_chars_app.
Qed.

Lemma truncate_text_length_witness :
  exists kept rest,
    "timeout!" = kept ++ rest
    /\ Z.of_nat (String.length kept) = 7%Z
    /\ Helpers.truncate_text "timeout!" 7 = kept ++ "...".
Proof.
  apply (proj2 (truncate_text_length "timeout!" 7 ltac:(lia))).
  vm_compute. reflexivity.
Defined.

(** ** [chunk_text] *)

(** A slice [l[a:b]] with [0 <= a <= b]. *)
Lemma slice_between {A} (l : list A) (a b : Z) :
  (0 <= a <= b)%Z ->
  PyStr.slice l (Some a) (Some b)
  = firstn (Z.to_nat b - Z.to_nat a) (skipn (Z.to_nat a) l).
Proof.
  intros Hab. unfold PyStr.slice, PyStr.clip.
  replace (a <? 0)%Z with false by (symmetry; apply Z.ltb_ge; lia).
  replace (b <? 0)%Z with false by (symmetry; apply Z.ltb_ge; lia).
  replace (Z.to_nat (Z.max 0 (Z.min (Z.of_nat (List.length l)) a)))
    with (Nat.min (List.length l) (Z.to_nat a)) by lia.
  replace (Z.to_nat (Z.max 0 (Z.min (Z.of_nat (List.length l)) b)))
    with (Nat.min (List.length l) (Z.to_nat b)) by lia.
  destruct (Nat.le_gt_cases (List.length l) (Z.to_nat a)) as [Hge|Hlt].
  - rewrite Nat.min_l by lia. rewrite !skipn_all2 by lia.
    now rewrite !firstn_nil.
  - rewrite (Nat.min_r _ (Z.to_nat a)) by lia.
    destruct (Nat.le_gt_cases (Z.to_nat b) (List.length l)) as [Hb|Hb].
    + now rewrite Nat.min_r by lia.
    + rewrite Nat.min_l by lia.
      rewrite !firstn_all2; [reflexivity | |]; rewrite length_skipn; lia.
Qed.

Section Chunking.
Variable text : list ascii.
Variables chunk_size overlap : Z.
Hypothesis overlap_bounds : (0 <= overlap < chunk_size)%Z.

Lemma chunk_loop_pieces (fuel : nat) :
  forall start chunks,
    (0 <= start)%Z ->
    Z.to_nat (PyStr.len text - start) <= fuel ->
    exists pieces,
      Helpers.chunk_loop fuel text chunk_size overlap start chunks
      = Some (chunks ++ pieces)%list
      /\ Forall (fun c => (PyStr.len c <= chunk_size)%Z) pieces
      /\ without_overlap overlap pieces = skipn (Z.to_nat (start + overlap)) text
      /\ ((start < PyStr.len text)%Z ->
          exists rest,
            pieces
            = PyStr.slice text (Some start) (Some (start + chunk_size)%Z)
              :: rest
            /\ without_overlap overlap rest = skipn (Z.to_nat (start + chunk_size)) text).
Proof.
  unfold PyStr.len.
  assert (Hdone : forall fuel' start chunks,
             (0 <= start)%Z ->
             ~ (start < Z.of_nat (List.length text))%Z ->
             exists pieces,
               Helpers.chunk_loop fuel' text chunk_size overlap start chunks
               = Some (chunks ++ pieces)%list
               /\ Forall (fun c => (PyStr.len c <= chunk_size)%Z) pieces
               /\ without_overlap overlap pieces = skipn (Z.to_nat (start + overlap)) text
               /\ ((start < Z.of_nat (List.length text))%Z ->
                   exists rest,
                     pieces
                     = PyStr.slice text (Some start)
                         (Some (start + chunk_size)%Z) :: rest
                     /\ without_overlap overlap rest
                        = skipn (Z.to_nat (start + chunk_size)) text)).
  { intros fuel' start chunks H0 Hge. exists [].
    assert (E : Helpers.chunk_loop fuel' text chunk_size overlap start chunks
                = Some chunks).
    { destruct fuel'; simpl; unfold PyStr.len;
        replace (start <? _)%Z with false
          by (symmetry; apply Z.ltb_ge; lia); reflexivity. }
    rewrite E, app_nil_r. repeat split; [constructor| |lia].
    unfold without_overlap. simpl. symmetry. apply skipn_all2. lia. }
  induction fuel as [|fuel IH]; intros start chunks H0 Hfuel.
  - apply Hdone; [exact H0 | lia].
  - destruct (Z_lt_ge_dec start (Z.of_nat (List.length text))) as [Hlt|Hge].
    2: { apply Hdone; [exact H0 | lia]. }
    simpl. unfold PyStr.len.
    replace (start <? _)%Z with true by (symmetry; apply Z.ltb_lt; lia).
    destruct (IH (start + chunk_size - overlap)%Z
                 (chunks ++ [PyStr.slice text (Some start)
                               (Some (start + chunk_size)%Z)])%list)
      as (pieces & E & Hall & Htrim & _); [lia | lia |].
    exists (PyStr.slice text (Some start) (Some (start + chunk_size)%Z)
            :: pieces).
    rewrite E, <- app_assoc. simpl.
    assert (Hnext : without_overlap overlap pieces
                    = skipn (Z.to_nat (start + chunk_size)) text).
    { rewrite Htrim. f_equal. lia. }
    repeat split.
    + constructor; [|exact Hall].
      rewrite slice_between by lia. unfold PyStr.len.
      rewrite length_firstn. lia.
    + unfold without_overlap in *. simpl. rewrite Hnext.
      rewrite slice_between by lia.
      rewrite skipn_firstn_comm, skipn_skipn.
      set (X := skipn (Z.to_nat overlap + Z.to_nat start) text).
      replace (skipn (Z.to_nat (start + chunk_size)) text)
        with (skipn (Z.to_nat (start + chunk_size) - Z.to_nat start
                     - Z.to_nat overlap) X)
        by (unfold X; rewrite skipn_skipn; f_equal; lia).
      replace (skipn (Z.to_nat (start + overlap)) text) with X
        by (unfold X; f_equal; lia).
      apply firstn_skipn.
    + intros _. exists pieces. split; [reflexivity | exact Hnext].
Qed.

(** [chunk_text] ends on every text when the overlap is smaller than the
    chunk size: as many iterations as the text has characters are enough.
    No chunk is longer than [chunk_size], and the first chunk followed by
    the other chunks without their first [overlap] characters is the
    text. *)
Lemma chunk_text_pieces (fuel : nat) :
  List.length text <= fuel ->
  exists first rest,
    Helpers.chunk_text fuel text chunk_size overlap = Some (first :: rest)
    /\ Forall (fun c => (PyStr.len c <= chunk_size)%Z) (first :: rest)
    /\ (first ++ without_overlap overlap rest)%list = text.
Proof.
  intros Hfuel. unfold Helpers.chunk_text.
  destruct (PyStr.len text <=? chunk_size)%Z eqn:Hfit.
  - apply Z.leb_le in Hfit. exists text, []. repeat split.
    + constructor; [exact Hfit | constructor].
    + apply app_nil_r.
  - apply Z.leb_gt in Hfit.
    destruct (chunk_loop_pieces fuel 0 []) as (pieces & E & Hall & _ & Hhead);
      [lia | unfold PyStr.len; lia |].
    destruct Hhead as (rest & -> & Hrest); [lia|].
    exists (PyStr.slice text (Some 0%Z) (Some (0 + chunk_size)%Z)), rest.
    simpl in E. repeat split; [exact E | exact Hall |].
    rewrite Hrest, slice_between by lia.
    simpl. rewrite Nat.sub_0_r. apply firstn_skipn.
Qed.

End Chunking.

(** X10. With [0 <= overlap < chunk_size], [chunk_text] terminates (within
    as many iterations as the text has characters), no chunk is longer than
    [chunk_size], and the text is the first chunk followed by the other
    chunks without their first [overlap] characters. *)
Theorem chunk_text_covers (text : list ascii) (chunk_size overlap : Z)
        (fuel : nat) :
  (0 <= overlap < chunk_size)%Z ->
  List.length text <= fuel ->
  exists first rest,
    Helpers.chunk_text fuel text chunk_size overlap = Some (first :: rest)
    /\ Forall (fun c => (PyStr.len c <= chunk_size)%Z) (first :: rest)
    /\ (first ++ without_overlap overlap rest)%list = text.
Proof. intros Hb Hf. exact (chunk_text_pieces text chunk_size overlap Hb fuel Hf). Qed.

Lemma chunk_text_covers_witness :
  exists first rest,
    Helpers.chunk_text 10 (chars "0123456789") 6 2 = Some (first :: rest)
    /\ Forall (fun c => (PyStr.len c <= 6)%Z) (first :: rest)
    /\ (first ++ without_overlap 2 rest)%list = chars "0123456789".
Proof.
  apply (chunk_text_covers (chars "0123456789") 6 2 10); [lia | simpl; lia].
Defined.

Lemma chunk_loop_stuck (text : list ascii) (chunk_size overlap : Z)
      (fuel : nat) :
  (chunk_size <= overlap)%Z ->
  (0 < PyStr.len text)%Z ->
  forall start chunks,
    (start <= 0)%Z ->
    Helpers.chunk_loop fuel text chunk_size overlap start chunks = None.
Proof.
  intros Hov Hlen. induction fuel as [|fuel IH]; intros start chunks Hs;
    simpl; replace (start <? PyStr.len text)%Z with true
      by (symmetry; apply Z.ltb_lt; lia); [reflexivity|].
  apply IH. lia.
Qed.

(** X11. With [overlap >= chunk_size] the loop of [chunk_text] never ends
    on a text longer than [chunk_size]: the start of the next chunk does
    not advance, and no number of iterations yields a result. *)
Theorem chunk_text_never_ends (text : list ascii) (chunk_size overlap : Z)
        (fuel : nat) :
  (0 <= chunk_size <= overlap)%Z ->
  (chunk_size < PyStr.len text)%Z ->
  Helpers.chunk_text fuel text chunk_size overlap = None.
Proof.
  intros Hov Hlen. unfold Helpers.chunk_text.
  replace (_ <=? _)%Z with false by (symmetry; apply Z.leb_gt; lia).
  apply chunk_loop_stuck; lia.
Qed.

Lemma chunk_text_never_ends_witness :
  Helpers.chunk_text 1000 (chars "0123456789") 5 5 = None.
Proof.
  apply (chunk_text_never_ends (chars "0123456789") 5 5 1000);
    [lia | vm_compute; reflexivity].
Defined.

(** ** [merge_dicts] *)

Lemma lookup_set_item (k k' : string) (v : pyval) (d : dict) :
  Py.lookup k (Helpers.set_item k' v d)
  = if String.eqb k k' then Some v else Py.lookup k d.
Proof.
  induction d as [|[k0 v0] d IH]; simpl.
  - destruct (String.eqb k k'); reflexivity.
  - destruct (String.eqb_spec k' k0) as [->|Hne]; simpl.
    + destruct (String.eqb k k0); reflexivity.
    + destruct (String.eqb_spec k k0) as [->|Hk].
      * destruct (String.eqb_spec k0 k') as [E|_]; [now subst|reflexivity].
      * exact IH.
Qed.

Lemma keys_set_item (k : string) (v : pyval) (d : dict) (x : string) :
  In x (map fst (Helpers.set_item k v d)) <-> x = k \/ In x (map fst d).
Proof.
  induction d as [|[k0 v0] d IH]; simpl.
  - intuition.
  - destruct (String.eqb_spec k k0) as [->|Hne]; simpl.
    + intuition.
    + rewrite IH. intuition.
Qed.

Lemma set_item_keys_once (k : string) (v : pyval) (d : dict) :
  keys_once d -> keys_once (Helpers.set_item k v d).
Proof.
  unfold keys_once. induction d as [|[k0 v0] d IH]; simpl; intros H.
  - repeat constructor. intros [].
  - inversion H as [|? ? Hnot Hrest]; subst.
    destruct (String.eqb_spec k k0) as [->|Hne]; simpl.
    + now constructor.
    + constructor; [|auto].
      rewrite keys_set_item. intros [E|Hin]; [now subst | auto].
Qed.

Lemma lookup_absent (k : string) (d : dict) :
  ~ In k (map fst d) -> Py.lookup k d = None.
Proof.
  induction d as [|[k0 v0] d IH]; simpl; intros H; [reflexivity|].
  destruct (String.eqb_spec k k0) as [->|Hne]; [tauto | apply IH; tauto].
Qed.

Lemma update_spec (k : string) (d : dict) :
  keys_once d ->
  forall result,
    keys_once result ->
    keys_once (Helpers.update result d)
    /\ Py.lookup k (Helpers.update result d)
       = match Py.lookup k d with
         | Some v => Some v
         | None => Py.lookup k result
         end.
Proof.
  unfold Helpers.update, keys_once.
  induction d as [|[k0 v0] d IH]; simpl; intros Hd result Hr.
  - split; [exact Hr | reflexivity].
  - inversion Hd as [|? ? Hnot Hrest]; subst.
    destruct (IH Hrest (Helpers.set_item k0 v0 result)
                (set_item_keys_once k0 v0 result Hr)) as [Hk Hl].
    split; [exact Hk|]. rewrite Hl, lookup_set_item.
    destruct (String.eqb_spec k k0) as [->|Hne].
    + now rewrite (lookup_absent k0 d Hnot).
    + reflexivity.
Qed.

Lemma merge_fold (k : string) (dicts : list (option dict)) :
  Forall each_keys_once dicts ->
  forall result found,
    keys_once result ->
    Py.lookup k result = found ->
    keys_once (fold_left Helpers.merge_step dicts result)
    /\ Py.lookup k (fold_left Helpers.merge_step dicts result)
       = fold_left
           (fun found d =>
              match d with
              | Some d =>
                  match Py.lookup k d with
                  | Some v => Some v
                  | None => found
                  end
              | None => found
              end) dicts found.
Proof.
  induction 1 as [|d dicts Hd _ IH]; intros result found Hr Hf; simpl.
  - split; [exact Hr | exact Hf].
  - destruct d as [[|kv d]|]; try (apply IH; assumption).
    destruct (update_spec k (kv :: d) Hd result Hr) as [Hk Hl].
    apply IH; [exact Hk|].
    unfold Helpers.merge_step. rewrite Hl, Hf. reflexivity.
Qed.

(** X12. In the dict [merge_dicts] returns, a key has the value of the last
    argument that has the key (later dicts override earlier ones, [None] and
    empty arguments are passed over), and each key occurs once. *)
Theorem merge_dicts_latest (k : string) (dicts : list (option dict)) :
  Forall each_keys_once dicts ->
  Py.lookup k (Helpers.merge_dicts dicts) = latest k dicts
  /\ keys_once (Helpers.merge_dicts dicts).
Proof.
  intros H. unfold Helpers.merge_dicts, latest.
  destruct (merge_fold k dicts H [] None) as [Hk Hl];
    [constructor | reflexivity |].
  split; [exact Hl | exact Hk].
Qed.

Lemma merge_dicts_latest_witness :
  Py.lookup "level"
    (Helpers.merge_dicts
       [Some [("level", PStr "WARN"); ("host", PStr "a1")]; None;
        Some [("level", PStr "ERROR")]; Some []])
  = latest "level"
      [Some [("level", PStr "WARN"); ("host", PStr "a1")]; None;
       Some [("level", PStr "ERROR")]; Some []]
  /\ keys_once
       (Helpers.merge_dicts
          [Some [("level", PStr "WARN"); ("host", PStr "a1")]; None;
           Some [("level", PStr "ERROR")]; Some []]).
Proof.
  apply (merge_dicts_latest "level").
  repeat constructor; simpl; intuition discriminate.
Defined.

(** ** [extract_service_name] *)

Lemma rep_class_result (p : ascii -> bool) (k : Re.cont) (s : list ascii) :
  forall lo hi prev x,
    Re.rep_class p lo hi prev s k = Some x ->
    exists prev' rest, k prev' rest = Some x.
Proof.
  intros lo hi prev x H.
  destruct (rep_class_span _ _ _ _ _ _ _ H) as (j & prev' & _ & Hk).
  now exists prev', (skipn j s).
Qed.

Lemma rmatch_result (r : Re.regex) :
  forall prev s (k : Re.cont) x,
    Re.rmatch r prev s k = Some x ->
    exists prev' rest, k prev' rest = Some x.
Proof.
  induction r as [p|p lo hi| | |r1 IH1 r2 IH2|r1 IH1 r2 IH2|r1 IH1|];
    intros prev s k x; simpl.
  - destruct s as [|c s]; [discriminate|].
    destruct (p c); [|discriminate]. intros H. now exists (Some c), s.
  - apply rep_class_result.
  - destruct (xorb _ _); [|discriminate]. intros H. now exists prev, s.
  - destruct prev as [c|].
    + destruct (N.eqb _ _); [|discriminate]. intros H. now exists (Some c), s.
    + intros H. now exists None, s.
  - intros H. destruct (IH1 _ _ _ _ H) as (prev1 & rest1 & H1).
    exact (IH2 _ _ _ _ H1).
  - destruct (Re.rmatch r1 prev s k) as [y|] eqn:H1.
    + intros H; injection H as <-. exact (IH1 _ _ _ _ H1).
    + apply IH2.
  - destruct (Re.rmatch r1 prev s k) as [y|] eqn:H1.
    + intros H; injection H as <-. exact (IH1 _ _ _ _ H1).
    + intros H. now exists prev, s.
  - intros H. now exists prev, s.
Qed.

(** The group of a match is a non-empty run of the group's class. *)
Lemma group_at_run (g : Extractors.group_pattern) (prev : option ascii)
      (s found : list ascii) :
  Extractors.group_at g prev s = Some found ->
  found <> [] /\ Forall (fun c => Extractors.inside g c = true) found.
Proof.
  unfold Extractors.group_at. intros H.
  destruct (rmatch_result _ _ _ _ _ H) as (prev' & rest & Hk).
  cbv beta in Hk.
  destruct (Re.rep_class _ _ _ _ _ _) as [rest'|] eqn:Hrep; [|discriminate].
  injection Hk as <-.
  destruct (rep_class_span _ _ _ _ _ _ _ Hrep) as (j & p' & Hj & Hafter).
  cbv beta in Hafter.
  destruct (Re.rmatch (Extractors.after g) p' (skipn j rest) _);
    [|discriminate].
  injection Hafter as <-.
  pose proof (span_le (Extractors.inside g) rest) as Hle.
  rewrite length_skipn.
  replace (List.length rest - (List.length rest - j)) with j by lia.
  split.
  - intros E. apply (f_equal (@List.length ascii)) in E.
    rewrite length_firstn in E. simpl in E. lia.
  - apply span_firstn. lia.
Qed.

Lemma search_group_run (g : Extractors.group_pattern) (s : list ascii) :
  forall prev found,
    Extractors.search_group g prev s = Some found ->
    found <> [] /\ Forall (fun c => Extractors.inside g c = true) found.
Proof.
  induction s as [|c s IH]; intros prev found; simpl.
  - destruct (Extractors.group_at g prev []) as [f|] eqn:Hg; [|discriminate].
    intros H; injection H as <-. exact (group_at_run _ _ _ _ Hg).
  - destruct (Extractors.group_at g prev (c :: s)) as [f|] eqn:Hg.
    + intros H; injection H as <-. exact (group_at_run _ _ _ _ Hg).
    + apply IH.
Qed.

Lemma first_group_name (patterns : list Extractors.group_pattern)
      (s found : list ascii) :
  Forall (fun g => Extractors.inside g = Extractors.name_char) patterns ->
  Extractors.first_group patterns s = Some found ->
  found <> []
  /\ Forall (fun c => Extractors.name_char c = true) found.
Proof.
  induction 1 as [|g patterns Hg _ IH]; simpl; [discriminate|].
  destruct (Extractors.search_group g None s) as [f|] eqn:Hs.
  - intros H; injection H as <-. rewrite <- Hg.
    exact (search_group_run _ _ _ _ Hs).
  - exact IH.
Qed.

Lemma keyword_scan_nonempty (keywords ws : list string) (name : string) :
  Forall (fun keyword => keyword <> "") keywords ->
  Extractors.keyword_scan keywords ws = Some name ->
  name <> "".
Proof.
  induction 1 as [|keyword keywords Hk _ IH]; simpl; [discriminate|].
  destruct (Extractors.index keyword ws) as [[|i]|].
  - intros H; injection H as <-. exact Hk.
  - intros H; injection H as <-.
    destruct (nth i ws ""); discriminate.
  - exact IH.
Qed.

Lemma service_patterns_inside :
  Forall (fun g => Extractors.inside g = Extractors.name_char)
    Extractors.service_patterns.
Proof. repeat constructor. Qed.

Lemma extract_service_name_not_empty (text : string) :
  Extractors.extract_service_name text <> "".
Proof.
  unfold Extractors.extract_service_name.
  destruct (Extractors.first_group _ _) as [found|] eqn:Hf.
  - destruct (first_group_name _ _ _ service_patterns_inside Hf) as [Hne _].
    destruct found; [congruence | discriminate].
  - destruct (Extractors.keyword_scan _ _) as [name|] eqn:Hs;
      [|discriminate].
    refine (keyword_scan_nonempty Extractors.service_keywords _ _ _ Hs).
    repeat constructor; discriminate.
Qed.

(** X13. [extract_service_name] never returns the empty string: a name
    taken from the text by a pattern is a non-empty run of letters, digits,
    [_] and [-]; otherwise it is a keyword, a word and a keyword joined by
    [-], or [unknown]. *)
Theorem extract_service_name_nonempty (text : string) :
  Extractors.extract_service_name text <> ""
  /\ (forall found,
         Extractors.first_group Extractors.service_patterns (chars text)
         = Some found ->
         Extractors.extract_service_name text = Str.of_chars found
         /\ Forall (fun c => Extractors.name_char c = true) found).
Proof.
  split; [apply extract_service_name_not_empty|].
  intros found Hf. unfold Extractors.extract_service_name. rewrite Hf.
  split; [reflexivity|].
  exact (proj2 (first_group_name _ _ _ service_patterns_inside Hf)).
Qed.

(** ** What a parse of raw text hands to storage *)

(** X14. Whatever the text, the parse of an unstructured log has a service
    name that is not empty (the requested one when it is given and not
    empty), one of the five level names, a message of one line and at most
    503 characters, the normalized form of that message, and the text
    itself as raw log. *)
Theorem parse_unstructured_log_fields (rt : Py.runtime)
        (request : LogParser.UnstructuredLogRequest) :
  LogParser.service_name (LogParser.parse_unstructured_log rt request) <> ""
  /\ (forall name,
         LogParser.req_service_name request = Some name -> name <> "" ->
         LogParser.service_name (LogParser.parse_unstructured_log rt request)
         = name)
  /\ In (LogParser.error_level (LogParser.parse_unstructured_log rt request))
       ["CRITICAL"; "ERROR"; "WARN"; "DEBUG"; "INFO"]
  /\ ~ In "010"%char
       (chars (LogParser.error_message
                 (LogParser.parse_unstructured_log rt request)))
  /\ (Str.len (LogParser.error_message
                 (LogParser.parse_unstructured_log rt request)) <= 503)%Z
  /\ Shape.tidy false
       (chars (LogParser.normalized_text
                 (LogParser.parse_unstructured_log rt request)))
  /\ Forall Shape.lowered
       (chars (LogParser.normalized_text
                 (LogParser.parse_unstructured_log rt request)))
  /\ LogParser.raw_log (LogParser.parse_unstructured_log rt request)
     = LogParser.log_text request.
Proof.
  unfold LogParser.parse_unstructured_log. cbn [LogParser.service_name
    LogParser.error_level LogParser.error_message LogParser.normalized_text
    LogParser.raw_log].
  split.
  { destruct (LogParser.req_service_name request) as [[|c name]|]; simpl;
      try apply extract_service_name_not_empty.
    discriminate. }
  split.
  { intros name -> Hname. destruct name; [congruence | reflexivity]. }
  split; [exact (extract_level_range _)|].
  unfold TextCleaner.extract_error_message, TextCleaner.normalize_text,
    Str.len.
  change (string_of_list_ascii ?l) with (Str.of_chars l).
  rewrite !chars_of_chars.
  destruct (extract_message_one_bounded_line
              (chars (LogParser.log_text request)) 500 ltac:(lia))
    as [Hline Hlen].
  destruct (normalize_shape
              (TextCleaner.extract_message
                 (chars (LogParser.log_text request)) 500))
    as (Hl & Ht & _).
  repeat split; assumption.
Qed.

(** ** The hits of the vector store *)

Lemma collect_all (options : list (option dict)) (hits : list dict) :
  VectorStore.collect options = Some hits -> options = map Some hits.
Proof.
  revert hits. induction options as [|[h|] options IH]; simpl; intros hits H.
  - injection H as <-. reflexivity.
  - destruct (VectorStore.collect options) as [rest|]; [|discriminate].
    injection H as <-. simpl. now rewrite (IH rest).
  - discriminate.
Qed.

Lemma hit_at_fields (ids : list string) (distances : list spec_float)
      (documents : list (option string)) (metadatas : list (option dict))
      (i : nat) (hit : dict) :
  VectorStore.hit_at ids distances documents metadatas i = Some hit ->
  exists id distance metadata,
    nth_error ids i = Some id
    /\ nth_error distances i = Some distance
    /\ Py.lookup "id" hit = Some (PStr id)
    /\ Py.lookup "distance" hit = Some (PFloat distance)
    /\ Py.lookup "similarity" hit
       = Some (PFloat (VectorStore.similarity_of distance))
    /\ Py.lookup "log_metadata" hit = Some (PDict metadata).
Proof.
  unfold VectorStore.hit_at.
  destruct (nth_error ids i) as [id|]; [|discriminate].
  destruct (nth_error distances i) as [distance|]; [|discriminate].
  destruct (nth_error documents i) as [document|]; [|discriminate].
  destruct (nth_error metadatas i) as [metadata|]; [|discriminate].
  intros H; injection H as <-.
  exists id, distance, match metadata with Some m => m | None => [] end.
  repeat split; reflexivity.
Qed.

Lemma format_query_hits (results : VectorStore.query_result)
      (hits : list dict) :
  VectorStore.format_query results = Some hits ->
  List.length hits = List.length (hd [] (VectorStore.ids results))
  /\ Forall Spec.metadata_is_dict hits
  /\ Forall (fun hit =>
               exists distance,
                 Py.lookup "distance" hit = Some (PFloat distance)
                 /\ Py.lookup "similarity" hit
                    = Some (PFloat (VectorStore.similarity_of distance)))
       hits.
Proof.
  unfold VectorStore.format_query.
  destruct (VectorStore.ids results) as [|first_ids rest].
  { intros H; injection H as <-. repeat split; constructor. }
  cbn [hd].
  destruct (0 <? Z.of_nat (List.length first_ids))%Z eqn:Hn.
  2:{ intros H; injection H as <-. apply Z.ltb_ge in Hn.
      split; [simpl; lia|]. split; constructor. }
  destruct (VectorStore.distances results)
    as [[|first_distances ?]|]; try discriminate.
  destruct (VectorStore.documents results)
    as [[|first_documents ?]|]; try discriminate.
  match goal with
  | |- VectorStore.collect (map (VectorStore.hit_at _ _ _ ?m) _) = _ -> _ =>
      set (first_metadatas := m)
  end.
  intros H. apply collect_all in H.
  assert (Hlen : List.length hits = List.length first_ids).
  { apply (f_equal (@List.length _)) in H.
    now rewrite !length_map, length_seq in H. }
  split; [exact Hlen|].
  assert (Hall : forall hit, In hit hits ->
                   exists i,
                     VectorStore.hit_at first_ids first_distances
                       first_documents first_metadatas i = Some hit).
  { intros hit Hin.
    assert (Hs : In (Some hit) (map Some hits)) by now apply in_map.
    rewrite <- H in Hs. apply in_map_iff in Hs.
    destruct Hs as (i & Hi & _). now exists i. }
  split; apply Forall_forall; intros hit Hin;
    destruct (Hall hit Hin) as (i & Hi);
    destruct (hit_at_fields _ _ _ _ _ _ Hi)
      as (id & distance & metadata & _ & _ & _ & Hd & Hs & Hm).
  - unfold Spec.metadata_is_dict. now rewrite Hm.
  - now exists distance.
Qed.

Lemma skipped_none (rt : Py.runtime) (hit : dict) :
  Spec.skipped rt PNone hit = false.
Proof. reflexivity. Qed.

Lemma filter_all {A} (p : A -> bool) (l : list A) :
  (forall x, p x = true) -> filter p l = l.
Proof.
  intros H. induction l as [|x l IH]; simpl; [reflexivity|].
  now rewrite H, IH.
Qed.

(** X15. What [query_similar] returns can always be formatted: it has one
    hit per id of the first result list, each with a dict (possibly empty)
    as metadata and with similarity [1 - distance], so
    [format_retrieval_results] does not raise on it, and without an
    [exclude_id] it yields the similar match of every hit. *)
Theorem query_similar_hits_can_be_formatted (rt : Py.runtime)
        (collection_query :
           list spec_float -> Z -> option dict
           -> outcome VectorStore.query_result)
        (embedding : list spec_float) (top_k : Z)
        (filter_metadata : option dict) (hits : list dict) :
  VectorStore.query_similar rt collection_query embedding top_k
    filter_metadata = Some hits ->
  (exists where_ results,
      collection_query embedding top_k where_ = Ok results
      /\ List.length hits = List.length (hd [] (VectorStore.ids results)))
  /\ Forall (fun hit =>
               exists distance,
                 Py.lookup "distance" hit = Some (PFloat distance)
                 /\ Py.lookup "similarity" hit
                    = Some (PFloat (VectorStore.similarity_of distance)))
       hits
  /\ (forall exclude_id,
         Retriever.format_retrieval_results rt hits exclude_id
         = Ok (map Spec.similar_match
                 (filter (fun hit => negb (Spec.skipped rt exclude_id hit))
                    hits)))
  /\ Retriever.format_retrieval_results rt hits PNone
     = Ok (map Spec.similar_match hits).
Proof.
  unfold VectorStore.query_similar.
  match goal with
  | |- match collection_query _ _ ?w with _ => _ end = _ -> _ =>
      set (where_ := w)
  end.
  destruct (collection_query embedding top_k where_) as [results|e] eqn:Hq;
    [|discriminate].
  intros H. destruct (format_query_hits results hits H) as (Hlen & Hd & Hs).
  split; [now exists where_, results|].
  split; [exact Hs|].
  assert (Hf : forall exclude_id,
             Retriever.format_retrieval_results rt hits exclude_id
             = Ok (map Spec.similar_match
                     (filter
                        (fun hit => negb (Spec.skipped rt exclude_id hit))
                        hits))).
  { intros exclude_id. unfold Retriever.format_retrieval_results.
    now rewrite (format_loop_ok rt exclude_id hits Hd). }
  split; [exact Hf|].
  rewrite Hf, filter_all; [reflexivity|].
  intros hit. now rewrite skipped_none.
Qed.

Lemma query_similar_hits_can_be_formatted_witness :
  exists hits,
    VectorStore.query_similar Sample.runtime
      (Fixture.collection
         [VectorStore.add_embedding_call Sample.runtime "log_1"
            [Py.float_one] "connection pool exhausted" None;
          VectorStore.add_embedding_call Sample.runtime "log_2"
            [Py.float_half] "disk full"
            (Some [("log_id", PInt 2)])])
      [Py.float_one] 5 None = Some hits
    /\ List.length hits = 2%nat
    /\ Retriever.format_retrieval_results Sample.runtime hits PNone
       = Ok (map Spec.similar_match hits).
Proof.
  eexists. split; [vm_compute; reflexivity|]. split; [reflexivity|].
  refine (proj2 (proj2 (proj2
    (query_similar_hits_can_be_formatted Sample.runtime
       (Fixture.collection
          [VectorStore.add_embedding_call Sample.runtime "log_1"
             [Py.float_one] "connection pool exhausted" None;
           VectorStore.add_embedding_call Sample.runtime "log_2"
             [Py.float_half] "disk full"
             (Some [("log_id", PInt 2)])])
       [Py.float_one] 5 None _ _)))).
  vm_compute. reflexivity.
Defined.

(** ** The metadata an embedding is filed under *)





(** ** A stored log, found again *)

Lemma to_int_proper (z : Z) :
  Z.to_int z <> Decimal.Pos Decimal.Nil
  /\ Z.to_int z <> Decimal.Neg Decimal.Nil.
Proof.
  split; intros H; pose proof (DecimalZ.of_to z) as E; rewrite H in E;
    simpl in E; subst z; discriminate H.
Qed.

Lemma str_of_int_inj (a b : Z) : Py.str_of_int a = Py.str_of_int b -> a = b.
Proof.
  unfold Py.str_of_int. intros H.
  apply DecimalZ.to_int_inj.
  destruct (to_int_proper a) as [Ha1 Ha2].
  destruct (to_int_proper b) as [Hb1 Hb2].
  pose proof (NilZero.isi (Z.to_int a) Ha1 Ha2) as Ea.
  pose proof (NilZero.isi (Z.to_int b) Hb1 Hb2) as Eb.
  rewrite H in Ea. congruence.
Qed.

Lemma str_of_int_nonempty (z : Z) : Str.nonempty (Py.str_of_int z) = true.
Proof.
  unfold Py.str_of_int. destruct (Z.to_int z) as [d|d]; simpl;
    [destruct d|]; reflexivity.
Qed.

Lemma stored_hit (rt : Py.runtime)
      (log_entry : Ingestion.LogEntry) (parsed : LogParser.parsed_log)
      (i : Z) (embedding_id : string) (embedding : list spec_float)
      (ids : list string) (distances : list spec_float)
      (documents : list (option string)) (metadatas : list (option dict))
      (k : nat) (distance : spec_float) :
  Ingestion.id log_entry = Some i ->
  nth_error ids k = Some embedding_id ->
  nth_error distances k = Some distance ->
  nth_error documents k
  = Some (Some (VectorStore.added_document
                  (stored_call rt log_entry parsed embedding_id embedding))) ->
  nth_error metadatas k
  = Some (VectorStore.added_metadata
            (stored_call rt log_entry parsed embedding_id embedding)) ->
  exists hit,
    VectorStore.hit_at ids distances documents metadatas k = Some hit
    /\ Spec.metadata_is_dict hit
    /\ Spec.embedded_log_id hit = PStr (Py.str_of_int i)
    /\ Spec.similar_match hit = stored_match i distance parsed.
Proof.
  intros Hid Hi Hd Hdoc Hm. unfold VectorStore.hit_at.
  rewrite Hi, Hd, Hdoc, Hm. eexists. split; [reflexivity|].
  unfold stored_call, VectorStore.add_embedding_call,
    Ingestion.embedding_metadata, Ingestion.id_text, stored_match.
  rewrite Hid.
  split; [exact I|]. split; [reflexivity|].
  unfold Spec.similar_match, Spec.resolved_id, Spec.embedded_log_id,
    Py.or_else. simpl. now rewrite str_of_int_nonempty.
Qed.

Lemma skipped_by_id (rt : Py.runtime) (hit : dict) (i exclude_id : Z) :
  Spec.embedded_log_id hit = PStr (Py.str_of_int i) ->
  Spec.skipped rt (PInt exclude_id) hit
  = (exclude_id =? i)%Z && negb (exclude_id =? 0)%Z.
Proof.
  intros H. unfold Spec.skipped. rewrite H. simpl.
  rewrite str_of_int_nonempty, andb_true_r.
  destruct (Z.eqb_spec exclude_id i) as [->|Hne].
  - now rewrite String.eqb_refl, andb_true_r.
  - destruct (String.eqb_spec (Py.str_of_int i) (Py.str_of_int exclude_id))
      as [E|_].
    + apply str_of_int_inj in E. congruence.
    + now rewrite andb_false_r.
Qed.

(** X17. A log stored by [store_log_with_embedding] and found again by the
    vector store is left out of the similar logs exactly when [exclude_id]
    is its own id and that id is not 0; under every other [exclude_id] it
    is kept, with its id, service name and level and an empty error
    message (the message is not part of the stored metadata). *)
Theorem stored_log_excluded_by_own_id (rt : Py.runtime)
        (log_entry : Ingestion.LogEntry) (parsed : LogParser.parsed_log)
        (i : Z) (embedding_id : string) (embedding : list spec_float)
        (ids : list string) (distances : list spec_float)
        (documents : list (option string)) (metadatas : list (option dict))
        (k : nat) (distance : spec_float) :
  Ingestion.id log_entry = Some i ->
  nth_error ids k = Some embedding_id ->
  nth_error distances k = Some distance ->
  nth_error documents k
  = Some (Some (VectorStore.added_document
                  (stored_call rt log_entry parsed embedding_id embedding))) ->
  nth_error metadatas k
  = Some (VectorStore.added_metadata
            (stored_call rt log_entry parsed embedding_id embedding)) ->
  exists hit,
    VectorStore.hit_at ids distances documents metadatas k = Some hit
    /\ (i <> 0%Z ->
        Retriever.format_retrieval_results rt [hit] (PInt i) = Ok [])
    /\ (forall exclude_id : Z,
           exclude_id <> i ->
           Retriever.format_retrieval_results rt [hit] (PInt exclude_id)
           = Ok [stored_match i distance parsed])
    /\ Retriever.format_retrieval_results rt [hit] PNone
       = Ok [stored_match i distance parsed].
Proof.
  intros Hid Hi Hd Hdoc Hm.
  destruct (stored_hit rt log_entry parsed i embedding_id embedding
              ids distances documents metadatas k distance Hid Hi Hd Hdoc Hm)
    as (hit & Hhit & Hdict & Hlog & Hmatch).
  exists hit. split; [exact Hhit|].
  unfold Retriever.format_retrieval_results, Retriever.format_loop, bind.
  split; [|split].
  - intros Hnz. rewrite (format_one_ok rt hit _ Hdict).
    rewrite (skipped_by_id rt hit i i Hlog), Z.eqb_refl.
    destruct (Z.eqb_spec i 0); [contradiction | reflexivity].
  - intros exclude_id Hne. rewrite (format_one_ok rt hit _ Hdict).
    rewrite (skipped_by_id rt hit i exclude_id Hlog).
    destruct (Z.eqb_spec exclude_id i); [contradiction|].
    simpl. now rewrite Hmatch.
  - rewrite (format_one_ok rt hit _ Hdict), skipped_none.
    simpl. now rewrite Hmatch.
Qed.

Lemma stored_log_excluded_by_own_id_witness :
  exists hit,
    VectorStore.hit_at ["log_7"] [Sample.f09]
      [Some "connection pool exhausted"]
      [Some [("log_id", PStr "7"); ("service_name", PStr "payments-api");
             ("error_level", PStr "ERROR")]] 0 = Some hit
    /\ (7 <> 0 ->
        Retriever.format_retrieval_results Sample.runtime [hit] (PInt 7)
        = Ok [])%Z
    /\ (forall exclude_id : Z,
           exclude_id <> 7%Z ->
           Retriever.format_retrieval_results Sample.runtime [hit]
             (PInt exclude_id)
           = Ok [stored_match 7 Sample.f09 Fixture.parsed])
    /\ Retriever.format_retrieval_results Sample.runtime [hit] PNone
       = Ok [stored_match 7 Sample.f09 Fixture.parsed].
Proof.
  exact (stored_log_excluded_by_own_id Sample.runtime
           (Fixture.with_id 7 (Ingestion.new_entry Fixture.parsed))
           Fixture.parsed 7 "log_7" [Py.float_one]
           ["log_7"] [Sample.f09] [Some "connection pool exhausted"]
           [Some [("log_id", PStr "7"); ("service_name", PStr "payments-api");
                  ("error_level", PStr "ERROR")]] 0 Sample.f09
           eq_refl eq_refl eq_refl eq_refl eq_refl).
Defined.

(** X18. In the prompt, the line of a stored log carries its number,
    similarity, service and level and no text at all: the formatted match
    always has an [error_message] key, here empty, so [_build_prompt] does
    not fall back on the document. *)
Theorem stored_log_prompt_line_has_no_text (rt : Py.runtime)
        (n i : Z) (distance : spec_float) (parsed : LogParser.parsed_log)
        (similarity : string) :
  Py.format_2f rt (PFloat (VectorStore.similarity_of distance))
  = Ok similarity ->
  RAGEngine.similar_line rt n (stored_match i distance parsed)
  = Ok (Py.str_of_int n ++ ". [Similarity: " ++ similarity ++ "] ["
        ++ LogParser.service_name parsed ++ "] ["
        ++ LogParser.error_level parsed ++ "]: ").
Proof.
  intros H. unfold RAGEngine.similar_line.
  change (Py.get (stored_match i distance parsed) "similarity"
            (PFloat Py.float_zero))
    with (PFloat (VectorStore.similarity_of distance)).
  rewrite H. reflexivity.
Qed.

Lemma stored_log_prompt_line_has_no_text_witness :
  RAGEngine.similar_line Sample.runtime 1
    (stored_match 7 Sample.f09 Fixture.parsed)
  = Ok "1. [Similarity: 0.00] [payments-api] [ERROR]: ".
Proof.
  exact (stored_log_prompt_line_has_no_text Sample.runtime 1 7 Sample.f09
           Fixture.parsed "0.00" eq_refl).
Defined.

(** ** Storing a log *)

(** X19. [store_log_with_embedding] commits the row before it asks for the
    embedding.  When the row is committed and the embedding or its storage
    then fails, the session is rolled back from the state the commit left
    and [DatabaseError] is raised (or the exception of [rollback] escapes):
    nothing takes the committed row back, and at most one record has been
    handed to the collection. *)
Theorem store_log_with_embedding_fails_after_commit (rt : Py.runtime)
        (S : Type) (db : Ingestion.session S)
        (generate_embedding : string -> outcome (list spec_float))
        (collection_add : VectorStore.added -> outcome unit)
        (parsed : LogParser.parsed_log) (s s1 s2 s3 : S)
        (embedding_id : option string) (log_entry : Ingestion.LogEntry) :
  Ingestion.add db (Ingestion.new_entry parsed) s = (s1, Ok tt) ->
  Ingestion.commit db s1 = (s2, Ok tt) ->
  Ingestion.refresh db (Ingestion.new_entry parsed) s2
  = (s3, Ok log_entry) ->
  (forall e,
      generate_embedding (LogParser.normalized_text parsed) = Raise e ->
      Ingestion.store_log_with_embedding rt db generate_embedding
        collection_add parsed s embedding_id
      = (fst (Ingestion.rollback db s3), [],
         match snd (Ingestion.rollback db s3) with
         | Ok _ => Ingestion.DatabaseError
         | Raise x => Ingestion.RollbackRaised x
         end))
  /\ (forall embedding e,
         generate_embedding (LogParser.normalized_text parsed)
         = Ok embedding ->
         collection_add
           (stored_call rt log_entry parsed
              (Ingestion.embedding_id_for log_entry embedding_id) embedding)
         = Raise e ->
         Ingestion.store_log_with_embedding rt db generate_embedding
           collection_add parsed s embedding_id
         = (fst (Ingestion.rollback db s3),
            [stored_call rt log_entry parsed
               (Ingestion.embedding_id_for log_entry embedding_id) embedding],
            match snd (Ingestion.rollback db s3) with
            | Ok _ => Ingestion.DatabaseError
            | Raise x => Ingestion.RollbackRaised x
            end)).
Proof.
  intros Hadd Hcommit Hrefresh.
  unfold Ingestion.store_log_with_embedding, Ingestion.store_body.
  rewrite Hadd, Hcommit, Hrefresh. split.
  - intros e He. rewrite He.
    destruct (Ingestion.rollback db s3) as [s4 [[]|x]]; reflexivity.
  - intros embedding e He Hc. rewrite He.
    unfold VectorStore.add_embedding. fold (stored_call rt log_entry parsed
      (Ingestion.embedding_id_for log_entry embedding_id) embedding).
    unfold stored_call in Hc |- *. rewrite Hc.
    destruct (Ingestion.rollback db s3) as [s4 [[]|x]]; reflexivity.
Qed.

Lemma store_log_with_embedding_fails_after_commit_witness :
  Ingestion.store_log_with_embedding Sample.runtime Fixture.session
    (fun _ => Raise ExternalError) (fun _ => Ok tt) Fixture.parsed
    ([], []) None
  = (([Fixture.with_id 1 (Ingestion.new_entry Fixture.parsed)], []), [],
     Ingestion.DatabaseError).
Proof.
  exact (proj1
    (store_log_with_embedding_fails_after_commit Sample.runtime
       Fixture.log_state Fixture.session (fun _ => Raise ExternalError)
       (fun _ => Ok tt) Fixture.parsed ([], [])
       ([], [Fixture.with_id 1 (Ingestion.new_entry Fixture.parsed)])
       ([Fixture.with_id 1 (Ingestion.new_entry Fixture.parsed)], [])
       ([Fixture.with_id 1 (Ingestion.new_entry Fixture.parsed)], [])
       None (Fixture.with_id 1 (Ingestion.new_entry Fixture.parsed))
       eq_refl eq_refl eq_refl)
    ExternalError eq_refl).
Defined.

(** ** Resolution of a raw text *)

(** X20. A successful [resolve_error] embedded the normalized form of the
    extracted message, asked the index for [top_k] hits (for the configured
    number when [top_k] is 0), and returns the similar match of every hit
    the index gave, none left out and none cut off. *)
Theorem resolve_error_keeps_every_hit (rt : Py.runtime) (cfg : settings)
        (env : capabilities) (log_text : string)
        (service_name : option string) (top_k : Z) (evs : list event)
        (r : AdHoc.result) :
  AdHoc.resolve_error rt cfg env log_text service_name top_k = (evs, Ok r) ->
  exists embedding hits,
    generate_embedding env
      (TextCleaner.normalize_text
         (TextCleaner.extract_error_message log_text 500)) = Ok embedding
    /\ query_similar env embedding
         (if (top_k =? 0)%Z then top_k_similar_logs cfg else top_k) = Ok hits
    /\ AdHoc.similar_logs r = map Spec.similar_match hits
    /\ AdHoc.error_message r = TextCleaner.extract_error_message log_text 500.
Proof.
  unfold AdHoc.resolve_error, Retriever.retrieve_similar_logs,
    LogParser.parse_log_text, LogParser.parse_unstructured_log.
  cbn [LogParser.normalized_text LogParser.error_message LogParser.log_text
       LogParser.service_name LogParser.error_level
       LogParser.req_service_name].
  destruct (generate_embedding env _) as [embedding|e] eqn:He;
    [|discriminate].
  destruct (query_similar env embedding _) as [hits|e] eqn:Hq;
    [|discriminate].
  destruct (Retriever.format_retrieval_results rt hits PNone)
    as [similar_logs|e] eqn:Hf; [|discriminate].
  destruct (RAGEngine.generate_resolution _ _ _ _ _ _)
    as [evs' [resolution|e]]; [|discriminate].
  intros H; injection H as _ <-. cbn [AdHoc.similar_logs AdHoc.error_message].
  exists embedding, hits. split; [reflexivity|]. split; [exact Hq|].
  split; [|reflexivity].
  unfold Retriever.format_retrieval_results in Hf.
  pose proof (format_loop_dicts rt PNone hits [] similar_logs Hf) as Hd.
  rewrite (format_loop_ok rt PNone hits Hd) in Hf.
  injection Hf as <-. cbn [app]. rewrite filter_all; [reflexivity|].
  intros hit. reflexivity.
Qed.

Lemma resolve_error_keeps_every_hit_witness :
  exists r embedding hits,
    snd Fixture.adhoc = Ok r
    /\ query_similar (Sample.index Sample.pool_response) embedding 3 = Ok hits
    /\ AdHoc.similar_logs r = map Spec.similar_match hits
    /\ List.length (AdHoc.similar_logs r) = 3%nat.
Proof.
  assert (H : exists evs r, Fixture.adhoc = (evs, Ok r)).
  { vm_compute. eexists. eexists. reflexivity. }
  destruct H as (evs & r & H).
  destruct (resolve_error_keeps_every_hit Sample.runtime default_settings
              (Sample.index Sample.pool_response)
              "2024-01-01T10:00:00 [payments-api] ERROR Connection pool exhausted"
              None 3 evs r H) as (embedding & hits & _ & Hq & Hs & _).
  exists r, embedding, hits.
  split; [now rewrite H|]. split; [exact Hq|]. split; [exact Hs|].
  rewrite Hs, length_map. simpl in Hq. injection Hq as <-. reflexivity.
Defined.

(** ** The steps of a recommended fix *)

(** X21. From a list, [_normalize_recommended_fix] returns only steps that
    are not empty and have no whitespace at either end; from a string that
    is not empty it returns at least one step. *)
Theorem normalize_recommended_fix_steps (rt : Py.runtime) :
  (forall items,
      Forall (fun step => Str.nonempty step = true /\ Str.strip step = step)
        (Resolver._normalize_recommended_fix rt (PList items)))
  /\ (forall s,
         s <> "" ->
         Resolver._normalize_recommended_fix rt (PStr s) <> []).
Proof.
  split.
  - intros items. unfold Resolver._normalize_recommended_fix.
    destruct (Py.truthy (PList items)); simpl; [|constructor].
    apply Forall_forall. intros step Hin.
    apply in_map_iff in Hin. destruct Hin as (item & <- & Hin).
    apply filter_In in Hin. destruct Hin as [_ Hne].
    split; [exact Hne|].
    unfold Str.strip. rewrite chars_of_chars.
    unfold PyStr.strip. now rewrite strip_by_fixed.
  - intros s Hs. unfold Resolver._normalize_recommended_fix.
    destruct s as [|c s]; [congruence|]. cbn [Py.truthy Str.nonempty negb].
    cbv iota.
    destruct (map _ _); discriminate.
Qed.

(** ** What the patterns of [extract_patterns] find *)

Lemma rep_class_bounded (p : ascii -> bool) (k : Re.cont) (s : list ascii) :
  forall lo hi prev r,
    Re.rep_class p lo hi prev s k = Some r ->
    exists j prev',
      lo <= j <= Shape.span p s
      /\ match hi with Some h => j <= h | None => True end
      /\ k prev' (skipn j s) = Some r.
Proof.
  assert (Hzero : forall hi : option nat,
             match hi with Some h => 0 <= h | None => True end)
    by (intros [h|]; [lia | exact I]).
  induction s as [|c s IH]; intros lo hi prev r; simpl.
  - destruct lo; [|discriminate]. intros H. exists 0, prev.
    split; [lia|]. split; [apply Hzero | exact H].
  - destruct (p c); simpl.
    + destruct (Re.may_take hi) eqn:Htake; simpl.
      * destruct (Re.rep_class p (pred lo) (option_map pred hi) (Some c) s k)
          as [r'|] eqn:Hrec.
        -- intros H; injection H as <-.
           destruct (IH _ _ _ _ Hrec) as (j & prev' & Hj & Hhi & Hk).
           exists (S j), prev'. split; [lia|]. split; [|exact Hk].
           destruct hi as [[|h]|]; simpl in *; [discriminate | lia | exact I].
        -- destruct lo; [|discriminate]. intros H.
           exists 0, prev. split; [lia|]. split; [apply Hzero | exact H].
      * destruct lo; [|discriminate]. intros H.
        exists 0, prev. split; [lia|]. split; [apply Hzero | exact H].
    + destruct lo; [|discriminate]. intros H.
      exists 0, prev. split; [lia|]. split; [apply Hzero | exact H].
Qed.

(** What the matcher consumes is a text the pattern matches. *)
Lemma rmatch_matched (r : Re.regex) :
  forall prev s (k : Re.cont) x,
    Re.rmatch r prev s k = Some x ->
    exists m rest prev',
      s = (m ++ rest)%list /\ matched r m /\ k prev' rest = Some x.
Proof.
  induction r as [p|p lo hi| | |r1 IH1 r2 IH2|r1 IH1 r2 IH2|r1 IH1|];
    intros prev s k x; simpl.
  - destruct s as [|c s]; [discriminate|].
    destruct (p c) eqn:Hc; [|discriminate]. intros H.
    exists [c], s, (Some c). split; [reflexivity|].
    split; [now exists c | exact H].
  - intros H.
    destruct (rep_class_bounded _ _ _ _ _ _ _ H)
      as (j & prev' & Hj & Hhi & Hk).
    pose proof (span_le p s) as Hle.
    exists (firstn j s), (skipn j s), prev'.
    split; [now rewrite firstn_skipn|]. split; [|exact Hk].
    rewrite length_firstn, Nat.min_l by lia.
    split; [apply span_firstn; lia|]. split; [lia | exact Hhi].
  - destruct (xorb _ _); [|discriminate]. intros H.
    now exists [], s, prev.
  - destruct prev as [c|].
    + destruct (N.eqb _ _); [|discriminate]. intros H.
      now exists [], s, (Some c).
    + intros H. now exists [], s, None.
  - intros H.
    destruct (IH1 _ _ _ _ H) as (m1 & rest1 & prev1 & -> & Hm1 & H1).
    destruct (IH2 _ _ _ _ H1) as (m2 & rest2 & prev2 & -> & Hm2 & H2).
    exists (m1 ++ m2)%list, rest2, prev2.
    split; [now rewrite app_assoc|]. split; [|exact H2].
    now exists m1, m2.
  - destruct (Re.rmatch r1 prev s k) as [y|] eqn:H1.
    + intros H; injection H as <-.
      destruct (IH1 _ _ _ _ H1) as (m & rest & prev' & Hs & Hm & Hk).
      exists m, rest, prev'. auto.
    + intros H.
      destruct (IH2 _ _ _ _ H) as (m & rest & prev' & Hs & Hm & Hk).
      exists m, rest, prev'. auto.
  - destruct (Re.rmatch r1 prev s k) as [y|] eqn:H1.
    + intros H; injection H as <-.
      destruct (IH1 _ _ _ _ H1) as (m & rest & prev' & Hs & Hm & Hk).
      exists m, rest, prev'. auto.
    + intros H. exists [], s, prev. auto.
  - intros H. now exists [], s, prev.
Qed.

Lemma match_len_matched (r : Re.regex) (prev : option ascii)
      (s : list ascii) (n : nat) :
  Re.match_len r prev s = Some n -> matched r (firstn n s).
Proof.
  unfold Re.match_len.
  destruct (Re.rmatch r prev s _) as [rest|] eqn:H; [|discriminate].
  intros E; injection E as <-.
  destruct (rmatch_matched r _ _ _ _ H) as (m & rest' & prev' & -> & Hm & Hk).
  injection Hk as ->.
  rewrite length_app.
  replace (List.length m + List.length rest - List.length rest)
    with (List.length m + 0) by lia.
  now rewrite firstn_app_2, app_nil_r.
Qed.

Lemma findall_matched (r : Re.regex) (s : list ascii) :
  forall prev skip, Forall (matched r) (Extractors.findall_go r prev s skip).
Proof.
  induction s as [|c s IH]; intros prev skip; simpl.
  - destruct skip; [|constructor].
    destruct (Re.match_len r prev []) as [n|] eqn:Hm; [|constructor].
    constructor; [|constructor].
    apply match_len_matched in Hm. now destruct n.
  - destruct skip; [|apply IH].
    destruct (Re.match_len r prev (c :: s)) as [[|n]|] eqn:Hm.
    + constructor; [|apply IH]. exact (match_len_matched _ _ _ _ Hm).
    + constructor; [|apply IH]. exact (match_len_matched _ _ _ _ Hm).
    + apply IH.
Qed.

Ltac open_match :=
  repeat match goal with
         | H : exists _, _ |- _ => destruct H
         | H : _ /\ _ |- _ => destruct H
         | H : PyStr.is_char _ _ = true |- _ =>
             apply Ascii.eqb_eq in H
         end.

Lemma url_matched (m : list ascii) :
  matched Helpers.url_pattern m -> url_shape m.
Proof.
  unfold Helpers.url_pattern, Re.lit, Re.plus. cbn [Re.seq matched].
  intros H. open_match. subst.
  match goal with
  | Hs : Forall (fun c => PyStr.is_char "s" c = true) ?opt,
    Hrest : Forall (fun c => negb (PyStr.isspace c) = true) ?rest |- _ =>
      assert (Hopt : opt = [] \/ opt = ["s"%char]);
      [ destruct opt as [|c [|c' opt']];
        [ now left
        | right; inversion Hs as [|? ? Hc _]; subst;
          apply Ascii.eqb_eq in Hc; now subst
        | simpl in *; lia ]
      | assert (Hns : Forall (fun c => PyStr.isspace c = false) rest)
          by (eapply Forall_impl; [|exact Hrest];
              intros a Ha; now apply negb_true_iff in Ha);
        assert (Hne : rest <> [])
          by (intros ->; simpl in *; lia);
        destruct Hopt as [-> | ->]; simpl;
        (split;
         [ exists rest; split; [exact Hne|]; auto
         | repeat (constructor; [reflexivity|]); exact Hns ]) ]
  end.
Qed.

Lemma run_of (p : ascii -> bool) (lo hi : nat) (m : list ascii) :
  matched (Re.Rep p lo (Some hi)) m -> run p lo hi m.
Proof. cbn [matched]. unfold run. intuition. Qed.

Lemma ip_matched (m : list ascii) :
  matched TextCleaner.ip_pattern m -> ip_shape m.
Proof.
  unfold TextCleaner.ip_pattern, TextCleaner.octet_dot, Re.lit.
  cbn [Re.seq]. intros H.
  cbn [matched] in H.
  destruct H as (w1 & r1 & -> & -> & o1 & r2 & -> & Ho1 & o2 & r3 & ->
                 & Ho2 & o3 & r4 & -> & Ho3 & d & w2 & -> & Hd & ->).
  destruct Ho1 as (a & dot1 & -> & Ha & c1 & -> & Hc1).
  destruct Ho2 as (b & dot2 & -> & Hb & c2 & -> & Hc2).
  destruct Ho3 as (c & dot3 & -> & Hc & c3 & -> & Hc3).
  apply Ascii.eqb_eq in Hc1, Hc2, Hc3. subst.
  exists a, b, c, d. split.
  - cbn [app]. rewrite app_nil_r, <- !app_assoc. reflexivity.
  - unfold run. intuition.
Qed.

Lemma uuid_matched (m : list ascii) :
  matched TextCleaner.uuid_pattern m -> uuid_shape m.
Proof.
  unfold TextCleaner.uuid_pattern, Re.lit, Re.times.
  cbn [Re.seq]. intros H.
  cbn [matched] in H.
  destruct H as (a & r1 & -> & Ha & s1 & r2 & -> & (c1 & -> & Hc1)
                 & b & r3 & -> & Hb & s2 & r4 & -> & (c2 & -> & Hc2)
                 & c & r5 & -> & Hc & s3 & r6 & -> & (c3 & -> & Hc3)
                 & d & r7 & -> & Hd & s4 & e & -> & (c4 & -> & Hc4) & He).
  apply Ascii.eqb_eq in Hc1, Hc2, Hc3, Hc4. subst.
  exists a, b, c, d, e. split; [reflexivity|].
  unfold run. intuition.
Qed.

Lemma email_matched (m : list ascii) :
  matched Helpers.email_pattern m -> email_shape m.
Proof.
  unfold Helpers.email_pattern, Re.lit, Re.plus.
  cbn [Re.seq]. intros H.
  cbn [matched] in H.
  destruct H as (w1 & r1 & -> & -> & local & r2 & -> & Hl & s1 & r3 & ->
                 & (c1 & -> & Hc1) & domain & r4 & -> & Hd & s2 & r5 & ->
                 & (c2 & -> & Hc2) & tld & w2 & -> & Ht & ->).
  apply Ascii.eqb_eq in Hc1, Hc2. subst.
  exists local, domain, tld. split.
  - cbn [app]. now rewrite app_nil_r.
  - destruct Hl as (Hl & Hln & _), Hd as (Hd & Hdn & _), Ht as (Ht & Htn & _).
    repeat split; try assumption.
    + intros ->. simpl in Hln. lia.
    + intros ->. simpl in Hdn. lia.
Qed.

Lemma found_shape (r : Re.regex) (P : list ascii -> Prop) (text : string) :
  (forall m, matched r m -> P m) ->
  Forall (fun found => P (chars found))
    (map string_of_list_ascii (Extractors.findall r (chars text))).
Proof.
  intros H. apply Forall_map.
  eapply Forall_impl; [|apply findall_matched].
  intros m Hm. cbv beta.
  change (string_of_list_ascii m) with (Str.of_chars m).
  rewrite chars_of_chars. now apply H.
Qed.

(** X22. What [extract_patterns] finds: every URL begins with [http://] or
    [https://], goes on for at least one character and holds no whitespace;
    every e-mail address is a local part, [@], a domain, a dot and at least
    two letters (or bars); every IP address is four runs of one to three
    digits joined by dots; every UUID is runs of 8, 4, 4, 4 and 12
    hexadecimal digits joined by dashes. *)
Theorem extract_patterns_shapes (text : string) :
  Forall (fun url => url_shape (chars url))
    (Helpers.urls (Helpers.extract_patterns text))
  /\ Forall (fun email => email_shape (chars email))
       (Helpers.emails (Helpers.extract_patterns text))
  /\ Forall (fun ip => ip_shape (chars ip))
       (Helpers.ip_addresses (Helpers.extract_patterns text))
  /\ Forall (fun uuid => uuid_shape (chars uuid))
       (Helpers.uuids (Helpers.extract_patterns text)).
Proof.
  unfold Helpers.extract_patterns.
  cbn [Helpers.urls Helpers.emails Helpers.ip_addresses Helpers.uuids].
  split; [exact (found_shape _ _ text url_matched)|].
  split; [exact (found_shape _ _ text email_matched)|].
  split; [exact (found_shape _ _ text ip_matched)|].
  exact (found_shape _ _ text uuid_matched).
Qed.

(** ** The validator of the error level *)

Lemma valid_level_fixed (level : string) :
  In level Schemas.valid_levels ->
  Schemas.validate_error_level level = Ok level.
Proof.
  intros H. simpl in H.
  repeat (destruct H as [<-|H]; [vm_compute; reflexivity|]).
  contradiction.
Qed.

(** X23. The validator of the structured request accepts a level in any
    letter case and returns it in upper case, one of its seven names;
    validating the result again changes nothing; and every level
    [extract_error_level] can return is accepted as it is. *)
Theorem validate_error_level_accepts (v : string) :
  (forall level,
      Schemas.validate_error_level v = Ok level ->
      In level Schemas.valid_levels
      /\ level = Str.of_chars (Extractors.upper (chars v))
      /\ Schemas.validate_error_level level = Ok level)
  /\ Schemas.validate_error_level (Extractors.extract_error_level v)
     = Ok (Extractors.extract_error_level v).
Proof.
  split.
  - intros level. unfold Schemas.validate_error_level.
    destruct (existsb _ _) eqn:He; [|discriminate].
    intros H; injection H as <-.
    apply existsb_exists in He. destruct He as (l & Hin & Heq).
    apply String.eqb_eq in Heq.
    assert (Hv : In (string_of_list_ascii (Extractors.upper (chars v)))
                   Schemas.valid_levels) by (rewrite Heq; exact Hin).
    split; [exact Hv|]. split; [reflexivity|].
    exact (valid_level_fixed _ Hv).
  - apply valid_level_fixed.
    pose proof (extract_level_range (chars v)) as H.
    unfold Extractors.extract_error_level. simpl in H |- *.
    intuition.
Qed.

(** ** Filling in a missing normalized text *)

(** X24. [normalize_log_entry] leaves an entry that has a non-empty
    normalized text as it is, gives every other entry the normalized form
    of its message, and applied again changes nothing. *)
Theorem normalize_log_entry_idempotent (log_entry : Resolver.LogEntry) :
  LogParser.normalize_log_entry (LogParser.normalize_log_entry log_entry)
  = LogParser.normalize_log_entry log_entry
  /\ (forall t,
         Resolver.normalized_text log_entry = Some t -> t <> "" ->
         LogParser.normalize_log_entry log_entry = log_entry)
  /\ ((Resolver.normalized_text log_entry = None
       \/ Resolver.normalized_text log_entry = Some "") ->
      Resolver.normalized_text (LogParser.normalize_log_entry log_entry)
      = Some (TextCleaner.normalize_text (Resolver.error_message log_entry))).
Proof.
  unfold LogParser.normalize_log_entry.
  destruct log_entry as [i sn lvl msg [[|c t]|]]; cbn.
  - split; [|split].
    + destruct (TextCleaner.normalize_text msg); reflexivity.
    + intros t H Ht. injection H as <-. now contradiction Ht.
    + reflexivity.
  - split; [reflexivity|]. split; [reflexivity|].
    intros [H|H]; discriminate.
  - split; [|split].
    + destruct (TextCleaner.normalize_text msg); reflexivity.
    + intros t H. discriminate.
    + reflexivity.
Qed.

(** ** The strip set of [_normalize_recommended_fix] *)

(** A text without line boundaries is its own single line. *)
Lemma uni_splitlines_single (s : Uni.text) :
  forallb (fun c => negb (Uni.is_linebreak c)) s = true ->
  forall cur,
    cur <> [] \/ s <> [] ->
    Uni.splitlines_go s cur = [(rev cur ++ s)%list].
Proof.
  induction s as [|c s IH]; intros Hs cur Hne.
  - destruct cur as [|x cur]; [destruct Hne; congruence|].
    cbn [Uni.splitlines_go]. now rewrite app_nil_r.
  - cbn [forallb] in Hs. apply andb_true_iff in Hs. destruct Hs as [Hc Hs].
    apply negb_true_iff in Hc. cbn [Uni.splitlines_go]. rewrite Hc.
    rewrite (IH Hs (c :: cur)) by (left; discriminate).
    cbn [rev]. now rewrite <- app_assoc.
Qed.

Lemma uni_dropwhile_last (p : N -> bool) (c : N) (s : Uni.text) :
  p c = false ->
  Uni.dropwhile p (s ++ [c])%list = (Uni.dropwhile p s ++ [c])%list.
Proof.
  intros Hc. induction s as [|d s IH]; simpl.
  - now rewrite Hc.
  - destruct (p d); [exact IH | reflexivity].
Qed.

Lemma uni_rstrip_by_cons (p : N -> bool) (c : N) (s : Uni.text) :
  p c = false -> Uni.rstrip_by p (c :: s) = c :: Uni.rstrip_by p s.
Proof.
  intros Hc. unfold Uni.rstrip_by. cbn [rev].
  rewrite (uni_dropwhile_last p c (rev s) Hc), rev_app_distr.
  reflexivity.
Qed.

(** The one line of a text that begins with a character which is neither
    whitespace nor a line boundary. *)
Lemma normalize_recommended_fix_str_line (c : N) (rest : Uni.text) :
  Uni.is_linebreak c = false ->
  Uni.isspace c = false ->
  forallb (fun c => negb (Uni.is_linebreak c)) rest = true ->
  Resolver._normalize_recommended_fix_str (c :: rest)
  = [Uni.strip_chars Resolver.fix_strip_chars (c :: rest)].
Proof.
  intros Hb Hw Hrest.
  assert (Hn : Uni.nonempty (Uni.strip (c :: rest)) = true).
  { unfold Uni.strip.
    exact (uni_nonempty_In _ c
             (uni_strip_by_keeps Uni.isspace (c :: rest) c
                (or_introl eq_refl) Hw)). }
  unfold Resolver._normalize_recommended_fix_str, Uni.splitlines.
  rewrite (uni_splitlines_single (c :: rest)); cycle 1.
  - cbn [forallb]. now rewrite Hb, Hrest.
  - right. discriminate.
  - cbn [rev app filter]. rewrite Hn. reflexivity.
Qed.

(** X25. The strip set of the source holds U+00E2, U+20AC and U+00A2 where
    the bullet U+2022 was meant.  So a line that begins with a bullet keeps
    it, where the wording of the specification has it trimmed; and a line
    that begins with one of those three characters (a euro sign, say)
    loses it. *)
Theorem normalize_recommended_fix_keeps_bullet (rest : Uni.text) :
  forallb (fun c => negb (Uni.is_linebreak c)) rest = true ->
  Resolver._normalize_recommended_fix_str (Spec.bullet :: rest)
  = [Spec.bullet
     :: Uni.rstrip_by (Uni.among Resolver.fix_strip_chars) rest]
  /\ Spec.leading_trimmed (Spec.bullet :: rest) = Spec.leading_trimmed rest
  /\ (forall c,
         In c [226; 8364; 162]%N ->
         Resolver._normalize_recommended_fix_str (c :: rest)
         = [Uni.strip_chars Resolver.fix_strip_chars rest]).
Proof.
  intros Hrest. split; [|split].
  - rewrite (normalize_recommended_fix_str_line Spec.bullet rest
               eq_refl eq_refl Hrest).
    unfold Uni.strip_chars, Uni.strip_by, Uni.lstrip_by.
    cbn [Uni.dropwhile].
    change (Uni.among Resolver.fix_strip_chars Spec.bullet) with false.
    cbv iota. now rewrite uni_rstrip_by_cons.
  - reflexivity.
  - intros c Hc.
    assert (Hcase : c = 226%N \/ c = 8364%N \/ c = 162%N)
      by (simpl in Hc; intuition).
    destruct Hcase as [->|[->| ->]];
      rewrite normalize_recommended_fix_str_line
        by (reflexivity || exact Hrest); reflexivity.
Qed.

Lemma normalize_recommended_fix_keeps_bullet_witness :
  Resolver._normalize_recommended_fix_str
    (Spec.bullet :: Uni.of_string " step one")
  = [Spec.bullet :: Uni.of_string " step one"]
  /\ Resolver._normalize_recommended_fix_str
       (8364%N :: Uni.of_string "5 refund")
     = [Uni.of_string "5 refund"].
Proof.
  split.
  - exact (proj1 (normalize_recommended_fix_keeps_bullet
                    (Uni.of_string " step one") eq_refl)).
  - exact (proj2 (proj2 (normalize_recommended_fix_keeps_bullet
                           (Uni.of_string "5 refund") eq_refl))
             8364%N (or_intror (or_introl eq_refl))).
Defined.

(** X26. A line that is made of dashes, spaces and tabs and has a dash is
    not blank, so it is kept, and nothing is left of it once it is
    trimmed: the list of steps then holds an empty string. *)
Theorem normalize_recommended_fix_empty_step (rt : Py.runtime) (s : string) :
  forallb (Uni.among [45; 32; 9]%N) (Uni.of_string s) = true ->
  In 45%N (Uni.of_string s) ->
  Resolver._normalize_recommended_fix_str (Uni.of_string s) = [[]]
  /\ Resolver._normalize_recommended_fix rt (PStr s) = [""].
Proof.
  intros Hall Hdash.
  rewrite forallb_forall in Hall.
  assert (Htext : Resolver._normalize_recommended_fix_str (Uni.of_string s)
                  = [[]]).
  { destruct (Uni.of_string s) as [|c rest] eqn:Hs; [destruct Hdash|].
    assert (Hclass : forall x, In x (c :: rest) ->
                       x = 45%N \/ x = 32%N \/ x = 9%N).
    { intros x Hx. specialize (Hall x Hx).
      unfold Uni.among in Hall. cbn [existsb] in Hall.
      rewrite !orb_true_iff in Hall.
      destruct Hall as [E|[E|[E|E]]]; try discriminate;
        apply N.eqb_eq in E; auto. }
    assert (Hn : Uni.nonempty (Uni.strip (c :: rest)) = true).
    { unfold Uni.strip.
      exact (uni_nonempty_In _ 45%N
               (uni_strip_by_keeps Uni.isspace (c :: rest) 45%N
                  Hdash eq_refl)). }
    assert (Hgone : Uni.strip_chars Resolver.fix_strip_chars (c :: rest)
                    = []).
    { unfold Uni.strip_chars. apply uni_strip_by_all.
      intros x Hx. destruct (Hclass x Hx) as [->|[->| ->]]; reflexivity. }
    unfold Resolver._normalize_recommended_fix_str, Uni.splitlines.
    rewrite (uni_splitlines_single (c :: rest)); cycle 1.
    - apply forallb_forall. intros x Hx.
      destruct (Hclass x Hx) as [->|[->| ->]]; reflexivity.
    - right. discriminate.
    - cbn [rev app filter]. rewrite Hn. cbn [map]. rewrite Hgone.
      reflexivity. }
  split; [exact Htext|].
  assert (Hs : s <> "") by (intros ->; destruct Hdash).
  pose proof (normalize_recommended_fix_latin1 rt s Hs) as Hl.
  rewrite Htext in Hl.
  destruct (Resolver._normalize_recommended_fix rt (PStr s))
    as [|x [|y l]]; try discriminate.
  injection Hl as Hx. f_equal.
  destruct x; [reflexivity | discriminate].
Qed.

Lemma normalize_recommended_fix_empty_step_witness :
  Resolver._normalize_recommended_fix_str (Uni.of_string "- - -") = [[]]
  /\ Resolver._normalize_recommended_fix Sample.runtime (PStr "- - -")
     = [""].
Proof.
  refine (normalize_recommended_fix_empty_step Sample.runtime "- - -" _ _).
  - reflexivity.
  - left. reflexivity.
Defined.
